(** * The NIC of pkg/tcpip/stack (nic.go): address table, reference cells,
      source selection, multicast join counts and the receive dispatcher.

    The interface object is embedded as a record holding the fields of
    [NIC.mu] together with the heap of reference cells its maps and primary
    lists point into.  Every operation that runs under the interface lock is
    one function on that record; the lock itself is not modelled, each
    operation is taken as one atomic step. *)

From Stdlib Require Import ZArith Ascii String Lia.
From stdpp Require Import gmap strings list fin_maps.

(** ** Machine integers *)

(** [int32] arithmetic of [sync/atomic] and of Go's [int32]: two's complement
    wrap-around. *)
Definition wrap32 (z : Z) : Z := ((z + 2147483648) mod 4294967296 - 2147483648)%Z.

(** Modelled from the spec: [tcpip.StatCounter] is not under src/; it counts
    packets or bytes in a [uint64]. *)
Definition wrap64 (z : Z) : Z := (z mod 18446744073709551616)%Z.

(** ** Addresses and identifiers *)

(** [tcpip.Address] and [tcpip.LinkAddress] are Go strings holding raw
    bytes; [bytes] builds one from its byte values. *)
Definition bytes (l : list N) : string :=
  fold_right (fun b s => String (ascii_of_N b) s) EmptyString l.

(** Modelled from the spec: [NetworkEndpointID] (the key of the address
    table), [tcpip.AddressWithPrefix] and [tcpip.ProtocolAddress] are declared
    outside src/; the fields are those nic.go reads and writes. *)
Record NetworkEndpointID := mkID { LocalAddress : string }.

#[global] Instance NetworkEndpointID_eq_dec : EqDecision NetworkEndpointID.
Proof. solve_decision. Defined.

#[global] Instance NetworkEndpointID_countable : Countable NetworkEndpointID :=
  inj_countable' LocalAddress mkID (fun x => match x with mkID _ => eq_refl end).

Record AddressWithPrefix := mkAWP { Address : string; PrefixLen : Z }.

Record ProtocolAddress := mkPA { Protocol : N; AddrWithPrefix : AddressWithPrefix }.

#[global] Instance AddressWithPrefix_eq_dec : EqDecision AddressWithPrefix.
Proof. solve_decision. Defined.

#[global] Instance ProtocolAddress_eq_dec : EqDecision ProtocolAddress.
Proof. solve_decision. Defined.

(** Modelled from the spec: the constants of package header are not under
    src/.  The IPv4 limited broadcast address is 255.255.255.255, an IPv4
    address has 4 bytes, and the IPv6 all-nodes group is ff02::1. *)
Definition IPv4Broadcast : string := bytes [255; 255; 255; 255]%N.

Definition IPv4AddressSize : Z := 4.

Definition IPv6AllNodesMulticastAddress : string :=
  bytes [255; 2; 0; 0; 0; 0; 0; 0; 0; 0; 0; 0; 0; 0; 0; 1]%N.

(** ** Enumerations of nic.go *)

Inductive PrimaryEndpointBehavior :=
  | CanBePrimaryEndpoint
  | FirstPrimaryEndpoint
  | NeverPrimaryEndpoint.

Inductive getRefBehaviour := spoofing | promiscuous | forceSpoofing.

Inductive networkEndpointKind :=
  | permanentTentative
  | permanent
  | permanentExpired
  | temporary.

Inductive networkEndpointConfigType := static | slaac.

#[global] Instance networkEndpointKind_eq_dec : EqDecision networkEndpointKind.
Proof. solve_decision. Defined.

#[global] Instance networkEndpointConfigType_eq_dec : EqDecision networkEndpointConfigType.
Proof. solve_decision. Defined.

#[global] Instance PrimaryEndpointBehavior_eq_dec : EqDecision PrimaryEndpointBehavior.
Proof. solve_decision. Defined.

(** Modelled from the spec: the [*tcpip.Error] values are declared outside
    src/.  These are the ones nic.go returns or compares against, and
    [ErrOther] stands for any other error a collaborator hands back. *)
Inductive Error :=
  | ErrDuplicateAddress
  | ErrUnknownProtocol
  | ErrBadLocalAddress
  | ErrBadAddress
  | ErrInvalidEndpointState
  | ErrNotSupported
  | ErrWouldBlock
  | ErrOther (code : N).

#[global] Instance Error_eq_dec : EqDecision Error.
Proof. solve_decision. Defined.

(** A Go result pair [(value, *tcpip.Error)]. *)
Inductive res (A : Type) :=
  | Ok (a : A)
  | Err (e : Error).

Arguments Ok {A} a.
Arguments Err {A} e.

(** ** Collaborator interfaces *)

(** Modelled from the spec: the NetworkEndpoint implementations are not under
    src/.  Only the two getters nic.go reads are kept: [ID()] and
    [PrefixLen()]; [HandlePacket] and [Close] are recorded as events. *)
Record NetworkEndpoint := mkEP { ep_ID : NetworkEndpointID; ep_PrefixLen : Z }.

#[global] Instance NetworkEndpoint_eq_dec : EqDecision NetworkEndpoint.
Proof. solve_decision. Defined.

(** Modelled from the spec: the NetworkProtocol interface is declared outside
    src/.  These are the methods nic.go calls; [NewEndpoint] is the
    protocol's factory and may fail. *)
Record NetworkProtocol := mkProto {
  Number : N;
  MinimumPacketSize : Z;
  DefaultPrefixLen : Z;
  ParseAddresses : string -> string * string;
  NewEndpoint : Z -> AddressWithPrefix -> res NetworkEndpoint
}.

(** Modelled from the spec: the LinkEndpoint interface is declared outside
    src/.  Kept are the capability bit set and the link address; [Attach] is
    recorded as an event. *)
Record LinkEndpoint := mkLinkEP { Capabilities : N; LinkAddress : string }.

(** Modelled from the spec: Stack is declared outside src/.  These are the
    fields nic.go reads. *)
Record Stack := mkStack {
  networkProtocols : gmap N NetworkProtocol;
  linkAddrResolvers : gset N;
  handleLocal : bool;
  autoGenIPv6LinkLocal : bool;
  forwarding : bool
}.

(** Modelled from the spec: [tcpip.Stats] is declared outside src/.  These
    are the counters of [Stack.stats] that nic.go increments. *)
Record StackStats := mkStackStats {
  UnknownProtocolRcvdPackets : Z;
  MalformedRcvdPackets : Z;
  IP_PacketsReceived : Z;
  IP_InvalidSourceAddressesReceived : Z;
  IP_InvalidDestinationAddressesReceived : Z;
  IP_OutgoingPacketErrors : Z
}.

Record DirectionStats := mkDir { Packets : Z; Bytes : Z }.

Record NICStats := mkNICStats {
  Tx : DirectionStats;
  Rx : DirectionStats;
  DisabledRx : DirectionStats
}.

(** Modelled from the spec: [tcpip.PacketBuffer] and
    [buffer.VectorisedView] are not under src/.  Only [Data] is read by the
    receive path; it is a sequence of byte regions. *)
Record PacketBuffer := mkPkt { Data : list string }.

(** Modelled from the spec: [pkt.Data.Size()], the total length of the
    regions. *)
Definition Data_Size (pkt : PacketBuffer) : Z :=
  foldr (fun v acc => (Z.of_nat (String.length v) + acc)%Z) 0%Z (Data pkt).

(** Modelled from the spec: [pkt.Data.First()], the packet's contiguous
    first region (empty when there is none). *)
Definition Data_First (pkt : PacketBuffer) : string :=
  match Data pkt with
  | [] => EmptyString
  | v :: _ => v
  end.

(** ** Reference cells *)

(** Cells are heap objects; a [*referencedNetworkEndpoint] is a location. *)
Definition loc := nat.

Record referencedNetworkEndpoint := mkRef {
  ep : NetworkEndpoint;
  protocol : N;
  linkCache : bool;
  refs : Z;
  kind : networkEndpointKind;
  configType : networkEndpointConfigType;
  deprecated : bool
}.

#[global] Instance referencedNetworkEndpoint_inhabited : Inhabited referencedNetworkEndpoint :=
  populate (mkRef (mkEP (mkID EmptyString) 0) 0 false 0 temporary static false).

#[global] Instance referencedNetworkEndpoint_eq_dec : EqDecision referencedNetworkEndpoint.
Proof. solve_decision. Defined.

(** Modelled from the spec: Route and [makeRoute] are not under src/.  This
    is the route [handlePacket] builds before it hands the packet to the
    endpoint: protocol, local and remote address, local and remote link
    address, and the cell the route holds a reference to. *)
Record Route := mkRoute {
  NetProto : N;
  LocalAddress_ : string;
  RemoteAddress : string;
  LocalLinkAddress : string;
  RemoteLinkAddress : string;
  route_ref : loc
}.

(** Calls into collaborators, in program order. *)
Inductive Event :=
  | EvAttach
  | EvPacketEndpoint (pep : N) (nicid : Z) (local : string) (proto : N) (pkt : PacketBuffer)
  | EvHandlePacket (r : Route) (pkt : PacketBuffer)
  | EvClose (e : NetworkEndpoint).

(** ** The interface object *)

Section Model.

(** The NDP substate (ndp.go) and [tcpip.Subnet] are declared outside src/;
    their types are left open. *)
Context {ndpState Subnet : Type}.

(** [NIC]: the immutable fields, the statistics, the block protected by
    [mu], and what the pointers of that block refer to: [cells] is the heap
    of reference cells, [stackStats] the counters of the owning stack, and
    [trace] the calls made into collaborators so far (most recent first). *)
Record NIC := mkNIC {
  stack : Stack;
  id : Z;
  name : string;
  linkEP : LinkEndpoint;
  stats : NICStats;
  mu_enabled : bool;
  mu_spoofing : bool;
  mu_promiscuous : bool;
  mu_primary : gmap N (list loc);
  mu_endpoints : gmap NetworkEndpointID loc;
  mu_addressRanges : list Subnet;
  mu_mcastJoins : gmap NetworkEndpointID Z;
  mu_packetEPs : gmap N (list N);
  mu_ndp : ndpState;
  cells : gmap loc referencedNetworkEndpoint;
  stackStats : StackStats;
  trace : list Event
}.

Definition set_stats (f : NICStats -> NICStats) (n : NIC) : NIC :=
  mkNIC (stack n) (id n) (name n) (linkEP n) (f (stats n)) (mu_enabled n)
    (mu_spoofing n) (mu_promiscuous n) (mu_primary n) (mu_endpoints n)
    (mu_addressRanges n) (mu_mcastJoins n) (mu_packetEPs n) (mu_ndp n)
    (cells n) (stackStats n) (trace n).

Definition set_enabled (b : bool) (n : NIC) : NIC :=
  mkNIC (stack n) (id n) (name n) (linkEP n) (stats n) b
    (mu_spoofing n) (mu_promiscuous n) (mu_primary n) (mu_endpoints n)
    (mu_addressRanges n) (mu_mcastJoins n) (mu_packetEPs n) (mu_ndp n)
    (cells n) (stackStats n) (trace n).

Definition set_primary (f : gmap N (list loc) -> gmap N (list loc)) (n : NIC) : NIC :=
  mkNIC (stack n) (id n) (name n) (linkEP n) (stats n) (mu_enabled n)
    (mu_spoofing n) (mu_promiscuous n) (f (mu_primary n)) (mu_endpoints n)
    (mu_addressRanges n) (mu_mcastJoins n) (mu_packetEPs n) (mu_ndp n)
    (cells n) (stackStats n) (trace n).

Definition set_endpoints
    (f : gmap NetworkEndpointID loc -> gmap NetworkEndpointID loc) (n : NIC) : NIC :=
  mkNIC (stack n) (id n) (name n) (linkEP n) (stats n) (mu_enabled n)
    (mu_spoofing n) (mu_promiscuous n) (mu_primary n) (f (mu_endpoints n))
    (mu_addressRanges n) (mu_mcastJoins n) (mu_packetEPs n) (mu_ndp n)
    (cells n) (stackStats n) (trace n).

Definition set_mcastJoins
    (f : gmap NetworkEndpointID Z -> gmap NetworkEndpointID Z) (n : NIC) : NIC :=
  mkNIC (stack n) (id n) (name n) (linkEP n) (stats n) (mu_enabled n)
    (mu_spoofing n) (mu_promiscuous n) (mu_primary n) (mu_endpoints n)
    (mu_addressRanges n) (f (mu_mcastJoins n)) (mu_packetEPs n) (mu_ndp n)
    (cells n) (stackStats n) (trace n).

Definition set_cells
    (f : gmap loc referencedNetworkEndpoint -> gmap loc referencedNetworkEndpoint)
    (n : NIC) : NIC :=
  mkNIC (stack n) (id n) (name n) (linkEP n) (stats n) (mu_enabled n)
    (mu_spoofing n) (mu_promiscuous n) (mu_primary n) (mu_endpoints n)
    (mu_addressRanges n) (mu_mcastJoins n) (mu_packetEPs n) (mu_ndp n)
    (f (cells n)) (stackStats n) (trace n).

Definition set_stackStats (f : StackStats -> StackStats) (n : NIC) : NIC :=
  mkNIC (stack n) (id n) (name n) (linkEP n) (stats n) (mu_enabled n)
    (mu_spoofing n) (mu_promiscuous n) (mu_primary n) (mu_endpoints n)
    (mu_addressRanges n) (mu_mcastJoins n) (mu_packetEPs n) (mu_ndp n)
    (cells n) (f (stackStats n)) (trace n).

Definition set_spoofing (b : bool) (n : NIC) : NIC :=
  mkNIC (stack n) (id n) (name n) (linkEP n) (stats n) (mu_enabled n)
    b (mu_promiscuous n) (mu_primary n) (mu_endpoints n)
    (mu_addressRanges n) (mu_mcastJoins n) (mu_packetEPs n) (mu_ndp n)
    (cells n) (stackStats n) (trace n).

Definition set_promiscuous (b : bool) (n : NIC) : NIC :=
  mkNIC (stack n) (id n) (name n) (linkEP n) (stats n) (mu_enabled n)
    (mu_spoofing n) b (mu_primary n) (mu_endpoints n)
    (mu_addressRanges n) (mu_mcastJoins n) (mu_packetEPs n) (mu_ndp n)
    (cells n) (stackStats n) (trace n).

(** Records a call into a collaborator. *)
Definition emit (e : Event) (n : NIC) : NIC :=
  mkNIC (stack n) (id n) (name n) (linkEP n) (stats n) (mu_enabled n)
    (mu_spoofing n) (mu_promiscuous n) (mu_primary n) (mu_endpoints n)
    (mu_addressRanges n) (mu_mcastJoins n) (mu_packetEPs n) (mu_ndp n)
    (cells n) (stackStats n) (e :: trace n).

(** What a call does: it returns a value and leaves a new state, or it
    aborts the process ([panic], [log.Fatalf]); [OutOfFuel] is the model's
    own bound on the depth of the calls between [addAddressLocked] and
    [joinGroupLocked] (and between the two removal functions). *)
Inductive outcome (A : Type) :=
  | Returned (a : A) (n : NIC)
  | Panicked (msg : string)
  | OutOfFuel.

Arguments Returned {A} a n.
Arguments Panicked {A} msg.
Arguments OutOfFuel {A}.

Definition M (A : Type) : Type := NIC -> outcome A.

Definition ret {A} (a : A) : M A := fun n => Returned a n.

Definition bindM {A B} (c : M A) (k : A -> M B) : M B :=
  fun n =>
    match c n with
    | Returned a n' => k a n'
    | Panicked msg => Panicked msg
    | OutOfFuel => OutOfFuel
    end.

Definition modify (f : NIC -> NIC) : M unit := fun n => Returned tt (f n).

Definition gets {A} (f : NIC -> A) : M A := fun n => Returned (f n) n.

Definition panic {A} (msg : string) : M A := fun _ => Panicked msg.

Notation "x <- c ;; k" := (bindM c (fun x => k))
  (at level 20, c at level 99, k at level 200, only parsing).
Notation "c ;;; k" := (bindM c (fun _ => k))
  (at level 100, k at level 200, right associativity, only parsing).

(** The functions and constants nic.go uses that are declared outside src/:
    package header, [tcpip.Subnet], the capability bits, the NDP substate's
    methods and the forwarding half of the receive path.  The NDP methods
    reach the interface through [ndpState.nic], so each is a transformer of
    the whole interface. [rangeOrder] is the order in which a [range] over a
    Go map visits its entries, which the language leaves open. *)
Class Externals := {
  IPv4ProtocolNumber : N;
  IPv6ProtocolNumber : N;
  EthernetProtocolAll : N;
  IsV6UnicastAddress : string -> bool;
  SolicitedNodeAddr : string -> string;
  ScopeForIPv6Address : string -> res Z;
  IPv6LinkLocalSubnet : Subnet;
  NDPInfiniteLifetime : Z;
  Subnet_ID : Subnet -> string;
  Subnet_Broadcast : Subnet -> string;
  Subnet_Contains : Subnet -> string -> bool;
  CapabilityLoopback : N;
  CapabilityResolutionRequired : N;
  startDuplicateAddressDetection : string -> loc -> NIC -> NIC * option Error;
  stopDuplicateAddressDetection : string -> NIC -> NIC;
  cleanupAutoGenAddrResourcesAndNotify : string -> NIC -> NIC;
  doSLAAC : Subnet -> Z -> Z -> NIC -> NIC;
  startSolicitingRouters : NIC -> NIC;
  forwardNetworkPacket :
    string -> string -> string -> N -> PacketBuffer -> list N -> NIC -> NIC;
  rangeOrder : forall {K V} `{Countable K}, gmap K V -> list (K * V);
  rangeOrder_perm : forall {K V} `{Countable K} (m : gmap K V),
    rangeOrder m ≡ₚ map_to_list m
}.

Context `{!Externals}.

(** *** Reference cells (referencedNetworkEndpoint) *)

Definition getCell (r : loc) (n : NIC) : referencedNetworkEndpoint := cells n !!! r.

Definition setCell (r : loc) (c : referencedNetworkEndpoint) (n : NIC) : NIC :=
  set_cells <[r := c]> n.

Definition with_refs (v : Z) (c : referencedNetworkEndpoint) :=
  mkRef (ep c) (protocol c) (linkCache c) v (kind c) (configType c) (deprecated c).

Definition with_kind (k : networkEndpointKind) (c : referencedNetworkEndpoint) :=
  mkRef (ep c) (protocol c) (linkCache c) (refs c) k (configType c) (deprecated c).

Definition with_configType (t : networkEndpointConfigType) (c : referencedNetworkEndpoint) :=
  mkRef (ep c) (protocol c) (linkCache c) (refs c) (kind c) t (deprecated c).

Definition with_deprecated (d : bool) (c : referencedNetworkEndpoint) :=
  mkRef (ep c) (protocol c) (linkCache c) (refs c) (kind c) (configType c) d.

Definition getKind (r : loc) (n : NIC) : networkEndpointKind := kind (getCell r n).

Definition setKind (r : loc) (k : networkEndpointKind) : M unit :=
  modify (fun n => setCell r (with_kind k (getCell r n)) n).

(** [isValidForOutgoingRLocked]. *)
Definition isValidForOutgoingRLocked (r : loc) (n : NIC) : bool :=
  negb (bool_decide (getKind r n = permanentExpired)) || mu_spoofing n.

Definition isValidForOutgoing (r : loc) (n : NIC) : bool :=
  isValidForOutgoingRLocked r n.

(** [tryIncRef]: the compare-and-swap succeeds at the first attempt when no
    other thread runs in between. *)
Definition tryIncRef (r : loc) : M bool :=
  fun n =>
    let v := refs (getCell r n) in
    if (v =? 0)%Z then Returned false n
    else Returned true (setCell r (with_refs (wrap32 (v + 1)) (getCell r n)) n).

Definition incRef (r : loc) : M unit :=
  modify (fun n => setCell r (with_refs (wrap32 (refs (getCell r n) + 1)) (getCell r n)) n).

(** [setPromiscuousMode], [isPromiscuousMode] and [setSpoofing]. *)
Definition setPromiscuousMode (enable : bool) : M unit := modify (set_promiscuous enable).

Definition isPromiscuousMode : M bool := gets mu_promiscuous.

Definition setSpoofing (enable : bool) : M unit := modify (set_spoofing enable).

(** [isLoopback]. *)
Definition isLoopback (n : NIC) : bool :=
  negb (N.land (Capabilities (linkEP n)) CapabilityLoopback =? 0)%N.

(** *** Primary list and removal *)

(** [insertPrimaryEndpointLocked]. *)
Definition insertPrimaryEndpointLocked (r : loc) (peb : PrimaryEndpointBehavior) : M unit :=
  modify (fun n =>
    let p := protocol (getCell r n) in
    match peb with
    | CanBePrimaryEndpoint => set_primary <[p := (mu_primary n !!! p) ++ [r]]> n
    | FirstPrimaryEndpoint => set_primary <[p := r :: (mu_primary n !!! p)]> n
    | NeverPrimaryEndpoint => n
    end).

(** [removeEndpointLocked]. *)
Definition removeEndpointLocked (r : loc) : M unit :=
  fun n =>
    let c := getCell r n in
    let id := ep_ID (ep c) in
    if decide (mu_endpoints n !! id = Some r) then
      if decide (kind c = permanent) then
        Panicked "Reference count dropped to zero before being removed"
      else
        let n1 := set_endpoints (delete id) n in
        let refs := mu_primary n1 !!! protocol c in
        let n2 :=
          match list_find (fun x => x = r) refs with
          | Some (i, _) => set_primary <[protocol c := delete i refs]> n1
          | None => n1
          end in
        Returned tt (emit (EvClose (ep c)) n2)
    else Returned tt n.

(** [decRefLocked]. *)
Definition decRefLocked (r : loc) : M bool :=
  fun n =>
    let v := wrap32 (refs (getCell r n) - 1) in
    let n1 := setCell r (with_refs v (getCell r n)) n in
    if (v =? 0)%Z then (removeEndpointLocked r ;;; ret true) n1
    else Returned false n1.

(** [decRef]: as [decRefLocked], through [removeEndpoint], which takes the
    lock itself. *)
Definition decRef (r : loc) : M unit :=
  fun n =>
    let v := wrap32 (refs (getCell r n) - 1) in
    let n1 := setCell r (with_refs v (getCell r n)) n in
    if (v =? 0)%Z then removeEndpointLocked r n1
    else Returned tt n1.

(** *** Adding an address *)

(** The pointers that are live: a new cell is distinct from all of them. *)
Definition liveLocs (n : NIC) : gset loc :=
  dom (cells n) ∪ map_img (mu_endpoints n)
    ∪ list_to_set (concat ((map_to_list (mu_primary n)).*2)).

(** [&referencedNetworkEndpoint{...}]. *)
Definition newCell (c : referencedNetworkEndpoint) : M loc :=
  fun n => let r := fresh (liveLocs n) in Returned r (setCell r c n).

(** [append(refs[:i], refs[i+1:]...)] writes into the backing array of
    [refs]: the elements after [i] move one place down and the last place
    keeps its old content.  [shiftOut i arr] is the array afterwards; the
    slice the expression yields is its first [length arr - 1] elements. *)
Definition shiftOut (i : nat) (arr : list loc) : list loc :=
  take i arr ++ drop (S i) arr ++ drop (length arr - 1) arr.

(** The loop [for i, r := range refs] of the promotion branch (lines
    600-615).  The range reads [refs[i]] from the backing array at each
    step, up to the length [refs] had when the loop began.  [todo] counts
    the steps left, [arr] is the backing array and [moved] tells whether
    [n.mu.primary[r.protocol]] has been assigned.  The first component of the
    result tells whether the function returned from inside the loop. *)
Fixpoint promoteScan (peb : PrimaryEndpointBehavior) (ref : loc) (i todo : nat)
    (arr : list loc) (moved : bool) : bool * list loc * bool :=
  match todo with
  | O => (false, arr, moved)
  | S todo' =>
      if decide (arr !! i = Some ref) then
        match peb with
        | CanBePrimaryEndpoint => (true, arr, moved)
        | FirstPrimaryEndpoint =>
            if (i =? 0)%nat then (true, arr, moved)
            else promoteScan peb ref (S i) todo' (shiftOut i arr) true
        | NeverPrimaryEndpoint => (true, shiftOut i arr, true)
        end
      else promoteScan peb ref (S i) todo' arr moved
  end.

(** Lines 595-619: promotion in place, after [tryIncRef] succeeded. *)
Definition promoteLocked (ref : loc) (peb : PrimaryEndpointBehavior)
    (ct : networkEndpointConfigType) (dep : bool) : M (res loc) :=
  setKind ref permanent ;;;
  modify (fun n => setCell ref (with_deprecated dep (getCell ref n)) n) ;;;
  modify (fun n => setCell ref (with_configType ct (getCell ref n)) n) ;;;
  p <- gets (fun n => protocol (getCell ref n)) ;;
  refs <- gets (fun n => mu_primary n !!! p) ;;
  match promoteScan peb ref 0 (length refs) refs false with
  | (returned, arr, moved) =>
      (if moved then modify (set_primary <[p := take (length arr - 1) arr]>)
       else ret tt) ;;;
      if returned then ret (Ok ref)
      else insertPrimaryEndpointLocked ref peb ;;; ret (Ok ref)
  end.

(** Lines 580-627: the address is already in the table.  [None] means that
    control leaves the [if] and goes on to create a new endpoint. *)
Definition addAddressLocked_existing (ref : loc) (peb : PrimaryEndpointBehavior)
    (k : networkEndpointKind) (ct : networkEndpointConfigType) (dep : bool)
    : M (option (res loc)) :=
  if decide (k = permanent) then
    kd <- gets (getKind ref) ;;
    match kd with
    | permanentTentative | permanent => ret (Some (Err ErrDuplicateAddress))
    | permanentExpired | temporary =>
        ok <- tryIncRef ref ;;
        if ok then r <- promoteLocked ref peb ct dep ;; ret (Some r)
        else removeEndpointLocked ref ;;; ret None
    end
  else ret (Some (Err ErrDuplicateAddress)).

Definition liftNDP (f : NIC -> NIC * option Error) : M (option Error) :=
  fun n => Returned (f n).2 (f n).1.

(** Lines 629-687: a new endpoint and its cell.  [join] is
    [joinGroupLocked]. *)
Definition addAddressLocked_fresh (join : N -> string -> M (option Error))
    (protocolAddress : ProtocolAddress) (peb : PrimaryEndpointBehavior)
    (k : networkEndpointKind) (ct : networkEndpointConfigType) (dep : bool)
    : M (res loc) :=
  fun n =>
    let addr := Address (AddrWithPrefix protocolAddress) in
    match networkProtocols (stack n) !! Protocol protocolAddress with
    | None => Returned (Err ErrUnknownProtocol) n
    | Some netProto =>
        match NewEndpoint netProto (id n) (AddrWithPrefix protocolAddress) with
        | Err e => Returned (Err e) n
        | Ok e =>
            let isIPv6Unicast :=
              bool_decide (Protocol protocolAddress = IPv6ProtocolNumber)
              && IsV6UnicastAddress addr in
            let k' :=
              if isIPv6Unicast && bool_decide (k = permanent)
              then permanentTentative else k in
            let lc :=
              negb (N.land (Capabilities (linkEP n)) CapabilityResolutionRequired =? 0)%N
              && bool_decide (Protocol protocolAddress ∈ linkAddrResolvers (stack n)) in
            (ref <- newCell (mkRef e (Protocol protocolAddress) lc 1 k' ct dep) ;;
             jerr <- (if isIPv6Unicast
                      then join (Protocol protocolAddress) (SolicitedNodeAddr addr)
                      else ret None) ;;
             match jerr with
             | Some err => ret (Err err)
             | None =>
                 modify (set_endpoints <[mkID addr := ref]>) ;;;
                 insertPrimaryEndpointLocked ref peb ;;;
                 en <- gets mu_enabled ;;
                 derr <- (if isIPv6Unicast && bool_decide (k' = permanentTentative) && en
                          then liftNDP (startDuplicateAddressDetection addr ref)
                          else ret None) ;;
                 match derr with
                 | Some err => ret (Err err)
                 | None => ret (Ok ref)
                 end
             end) n
        end
    end.

(** [joinGroupLocked], with the call to [addAddressLocked] as [add]. *)
Definition joinGroupLocked_body
    (add : ProtocolAddress -> PrimaryEndpointBehavior -> networkEndpointKind ->
           networkEndpointConfigType -> bool -> M (res loc))
    (proto : N) (addr : string) : M (option Error) :=
  fun n =>
    let id := mkID addr in
    let joins := default 0%Z (mu_mcastJoins n !! id) in
    (aerr <- (if (joins =? 0)%Z then
                match networkProtocols (stack n) !! proto with
                | None => ret (Some ErrUnknownProtocol)
                | Some netProto =>
                    x <- add (mkPA proto (mkAWP addr (DefaultPrefixLen netProto)))
                           NeverPrimaryEndpoint permanent static false ;;
                    match x with
                    | Err e => ret (Some e)
                    | Ok _ => ret None
                    end
                end
              else ret None) ;;
     match aerr with
     | Some e => ret (Some e)
     | None => modify (set_mcastJoins <[id := wrap32 (joins + 1)]>) ;;; ret None
     end) n.

(** [addAddressLocked].  It and [joinGroupLocked] call each other (an IPv6
    unicast address joins its solicited-node group, which adds the group's
    address); [fuel] bounds the depth of these calls. *)
Fixpoint addAddressLocked (fuel : nat) (protocolAddress : ProtocolAddress)
    (peb : PrimaryEndpointBehavior) (k : networkEndpointKind)
    (ct : networkEndpointConfigType) (dep : bool) : M (res loc) :=
  match fuel with
  | O => fun _ => OutOfFuel
  | S fuel' =>
      fun n =>
        let fresh_path :=
          addAddressLocked_fresh (joinGroupLocked_body (addAddressLocked fuel'))
            protocolAddress peb k ct dep in
        match mu_endpoints n !! mkID (Address (AddrWithPrefix protocolAddress)) with
        | Some ref =>
            (x <- addAddressLocked_existing ref peb k ct dep ;;
             match x with
             | Some r => ret r
             | None => fresh_path
             end) n
        | None => fresh_path n
        end
  end.

Definition joinGroupLocked (fuel : nat) : N -> string -> M (option Error) :=
  joinGroupLocked_body (addAddressLocked fuel).

(** [AddAddress]. *)
Definition AddAddress (fuel : nat) (protocolAddress : ProtocolAddress)
    (peb : PrimaryEndpointBehavior) : M (option Error) :=
  x <- addAddressLocked fuel protocolAddress peb permanent static false ;;
  match x with
  | Err e => ret (Some e)
  | Ok _ => ret None
  end.

(** *** Removing an address *)

(** [leaveGroupLocked], with the call to [removePermanentAddressLocked] as
    [remove]. *)
Definition leaveGroupLocked_body (remove : string -> M (option Error))
    (addr : string) : M (option Error) :=
  fun n =>
    let id := mkID addr in
    let joins := default 0%Z (mu_mcastJoins n !! id) in
    if (joins =? 0)%Z then Returned (Some ErrBadLocalAddress) n
    else
      (rerr <- (if (joins =? 1)%Z then remove addr else ret None) ;;
       match rerr with
       | Some e => ret (Some e)
       | None => modify (set_mcastJoins <[id := wrap32 (joins - 1)]>) ;;; ret None
       end) n.

(** [removePermanentAddressLocked]; [fuel] as for [addAddressLocked]. *)
Fixpoint removePermanentAddressLocked (fuel : nat) (addr : string) : M (option Error) :=
  match fuel with
  | O => fun _ => OutOfFuel
  | S fuel' =>
      fun n =>
        match mu_endpoints n !! mkID addr with
        | None => Returned (Some ErrBadLocalAddress) n
        | Some r =>
            let kd := getKind r n in
            if negb (bool_decide (kd = permanent)) && negb (bool_decide (kd = permanentTentative))
            then Returned (Some ErrBadLocalAddress) n
            else
              let isIPv6Unicast :=
                bool_decide (protocol (getCell r n) = IPv6ProtocolNumber)
                && IsV6UnicastAddress addr in
              ((if isIPv6Unicast then
                  (if bool_decide (kd = permanentTentative)
                   then modify (stopDuplicateAddressDetection addr) else ret tt) ;;;
                  ctype <- gets (fun n => configType (getCell r n)) ;;
                  if bool_decide (ctype = slaac)
                  then modify (cleanupAutoGenAddrResourcesAndNotify addr) else ret tt
                else ret tt) ;;;
               setKind r permanentExpired ;;;
               removed <- decRefLocked r ;;
               if negb removed then ret None
               else if isIPv6Unicast
                    then leaveGroupLocked_body (removePermanentAddressLocked fuel')
                           (SolicitedNodeAddr addr)
                    else ret None) n
        end
  end.

Definition leaveGroupLocked (fuel : nat) : string -> M (option Error) :=
  leaveGroupLocked_body (removePermanentAddressLocked fuel).

(** [RemoveAddress], [joinGroup], [leaveGroup]: the locked function under the
    write lock. *)
Definition RemoveAddress (fuel : nat) (addr : string) : M (option Error) :=
  removePermanentAddressLocked fuel addr.

Definition joinGroup (fuel : nat) (proto : N) (addr : string) : M (option Error) :=
  joinGroupLocked fuel proto addr.

Definition leaveGroup (fuel : nat) (addr : string) : M (option Error) :=
  leaveGroupLocked fuel addr.

(** *** Looking an address up *)

(** [hasPermanentAddrLocked]. *)
Definition hasPermanentAddrLocked (addr : string) (n : NIC) : bool :=
  match mu_endpoints n !! mkID addr with
  | None => false
  | Some ref =>
      bool_decide (getKind ref n = permanent)
      || bool_decide (getKind ref n = permanentTentative)
  end.

(** [isAddrTentative]. *)
Definition isAddrTentative (addr : string) (n : NIC) : bool :=
  match mu_endpoints n !! mkID addr with
  | None => false
  | Some ref => bool_decide (getKind ref n = permanentTentative)
  end.

(** Lines 490-505 of [getRefOrCreateTemp], under the read lock.  [Some x]
    means that the function returned [x] there. *)
Definition getRefOrCreateTemp_read (id : NetworkEndpointID)
    (flag : bool) : M (option (option loc)) :=
  fun n =>
    match mu_endpoints n !! id with
    | None => Returned None n
    | Some ref =>
        let try :=
          ok <- tryIncRef ref ;;
          if ok then ret (Some (Some ref)) else ret None in
        match getKind ref n with
        | permanentExpired =>
            if negb flag then Returned (Some None) n else try n
        | temporary | permanent => try n
        | permanentTentative => Returned None n
        end
    end.

(** Lines 509-527: whether a temporary endpoint may be created. *)
Definition createTempEP (address : string) (flag : bool) (n : NIC) : bool :=
  flag
  || existsb (fun sn =>
        negb (bool_decide (address = Subnet_ID sn))
        && negb (bool_decide (address = Subnet_Broadcast sn))
        && Subnet_Contains sn address)
      (mu_addressRanges n).

(** Lines 480-488: the flag the caller selected with [tempRef]. *)
Definition spoofingOrPromiscuous (tempRef : getRefBehaviour) (n : NIC) : bool :=
  match tempRef with
  | spoofing => mu_spoofing n
  | promiscuous => mu_promiscuous n
  | forceSpoofing => true
  end.

(** [getRefOrCreateTemp]. *)
Definition getRefOrCreateTemp (fuel : nat) (proto : N) (address : string)
    (peb : PrimaryEndpointBehavior) (tempRef : getRefBehaviour) : M (option loc) :=
  fun n =>
    let id := mkID address in
    let flag := spoofingOrPromiscuous tempRef n in
    (found <- getRefOrCreateTemp_read id flag ;;
     match found with
     | Some x => ret x
     | None =>
         create <- gets (createTempEP address flag) ;;
         if negb create then ret None
         else
           again <- (fun n1 =>
                       match mu_endpoints n1 !! id with
                       | None => Returned None n1
                       | Some ref =>
                           (ok <- tryIncRef ref ;;
                            if ok then ret (Some ref)
                            else removeEndpointLocked ref ;;; ret None) n1
                       end) ;;
           match again with
           | Some ref => ret (Some ref)
           | None =>
               fun n2 =>
                 match networkProtocols (stack n2) !! proto with
                 | None => Returned None n2
                 | Some netProto =>
                     (x <- addAddressLocked fuel
                            (mkPA proto (mkAWP address (DefaultPrefixLen netProto)))
                            peb temporary static false ;;
                      match x with
                      | Ok ref => ret (Some ref)
                      | Err _ => ret None
                      end) n2
                 end
           end
     end) n.

(** [getRef] and [findEndpoint]. *)
Definition getRef (fuel : nat) (proto : N) (dst : string) : M (option loc) :=
  getRefOrCreateTemp fuel proto dst CanBePrimaryEndpoint promiscuous.

Definition findEndpoint (fuel : nat) (proto : N) (address : string)
    (peb : PrimaryEndpointBehavior) : M (option loc) :=
  getRefOrCreateTemp fuel proto address peb spoofing.

(** [dupTentativeAddrDetected]. *)
Definition dupTentativeAddrDetected (fuel : nat) (addr : string) : M (option Error) :=
  fun n =>
    match mu_endpoints n !! mkID addr with
    | None => Returned (Some ErrBadAddress) n
    | Some ref =>
        if bool_decide (getKind ref n = permanentTentative)
        then removePermanentAddressLocked fuel addr n
        else Returned (Some ErrInvalidEndpointState) n
    end.

(** *** Source address selection *)

(** The loop of [primaryEndpoint] over [n.mu.primary[protocol]]. *)
Fixpoint primaryEndpoint_loop (l : list loc) (deprecatedEndpoint : option loc)
    : M (option loc) :=
  match l with
  | [] => ret deprecatedEndpoint
  | r :: l' =>
      valid <- gets (isValidForOutgoingRLocked r) ;;
      if negb valid then primaryEndpoint_loop l' deprecatedEndpoint
      else
        dep <- gets (fun n => deprecated (getCell r n)) ;;
        if negb dep then
          ok <- tryIncRef r ;;
          if ok then
            match deprecatedEndpoint with
            | Some d => decRefLocked d ;;; ret (Some r)
            | None => ret (Some r)
            end
          else primaryEndpoint_loop l' deprecatedEndpoint
        else
          match deprecatedEndpoint with
          | None =>
              ok <- tryIncRef r ;;
              if ok then primaryEndpoint_loop l' (Some r)
              else primaryEndpoint_loop l' deprecatedEndpoint
          | Some _ => primaryEndpoint_loop l' deprecatedEndpoint
          end
  end.

Record ipv6AddrCandidate := mkCand { cand_ref : loc; cand_scope : Z }.

(** The candidate set of [primaryIPv6Endpoint] (lines 357-377); a scope
    lookup that fails ends the process through [log.Fatalf]. *)
Fixpoint candidates (l : list loc) (n : NIC) : res (list ipv6AddrCandidate) :=
  match l with
  | [] => Ok []
  | r :: l' =>
      if negb (isValidForOutgoing r n) then candidates l' n
      else
        match ScopeForIPv6Address (LocalAddress (ep_ID (ep (getCell r n)))) with
        | Err e => Err e
        | Ok sc =>
            match candidates l' n with
            | Err e => Err e
            | Ok cs => Ok (mkCand r sc :: cs)
            end
        end
  end.

(** The comparator handed to [sort.Slice] (lines 388-416); [i] and [j] index
    the slice as it is when the comparator is called. *)
Definition lessCandidate (remoteAddr : string) (remoteScope : Z) (n : NIC)
    (cs : list ipv6AddrCandidate) (i j : nat) : bool :=
  match cs !! i, cs !! j with
  | Some sa, Some sb =>
      if bool_decide (LocalAddress (ep_ID (ep (getCell (cand_ref sa) n))) = remoteAddr)
      then true
      else if bool_decide (LocalAddress (ep_ID (ep (getCell (cand_ref sb) n))) = remoteAddr)
      then false
      else if (cand_scope sa <? cand_scope sb)%Z then (remoteScope <=? cand_scope sa)%Z
      else if (cand_scope sb <? cand_scope sa)%Z then (cand_scope sb <? remoteScope)%Z
      else
        let saDep := deprecated (getCell (cand_ref sa) n) in
        let sbDep := deprecated (getCell (cand_ref sb) n) in
        if negb (eqb saDep sbDep) then sbDep
        else (i <? j)%nat
  | _, _ => false
  end.

Definition swap {A} (i j : nat) (l : list A) : list A :=
  match l !! i, l !! j with
  | Some x, Some y => <[i := y]> (<[j := x]> l)
  | _, _ => l
  end.

(** [sort.Slice] of the Go library on a short slice is an insertion sort:
    [for i := 1; i < len; i++ { for j := i; j > 0 && less(j, j-1); j-- {
    swap(j, j-1) } }].  (Releases before 1.19 first run one Shell pass with
    gap 6, which does nothing below 7 elements; on more than 12 elements the
    library sorts differently, and this model does not cover them.) *)
Fixpoint insertDown {A} (less : list A -> nat -> nat -> bool) (j : nat)
    (l : list A) : list A :=
  match j with
  | O => l
  | S j' => if less l j j' then insertDown less j' (swap j j' l) else l
  end.

Fixpoint insertionSort {A} (less : list A -> nat -> nat -> bool) (i todo : nat)
    (l : list A) : list A :=
  match todo with
  | O => l
  | S todo' => insertionSort less (S i) todo' (insertDown less i l)
  end.

Definition sort_Slice {A} (less : list A -> nat -> nat -> bool) (l : list A) : list A :=
  insertionSort less 1 (length l - 1) l.

(** The final loop of [primaryIPv6Endpoint]: the first candidate whose
    reference count can be incremented. *)
Fixpoint firstIncRef (cs : list ipv6AddrCandidate) : M (option loc) :=
  match cs with
  | [] => ret None
  | c :: cs' =>
      ok <- tryIncRef (cand_ref c) ;;
      if ok then ret (Some (cand_ref c)) else firstIncRef cs'
  end.

(** [primaryIPv6Endpoint]. *)
Definition primaryIPv6Endpoint (remoteAddr : string) : M (option loc) :=
  fun n =>
    let primaryAddrs := mu_primary n !!! IPv6ProtocolNumber in
    if (length primaryAddrs =? 0)%nat then Returned None n
    else
      match candidates primaryAddrs n with
      | Err _ => Panicked "header.ScopeForIPv6Address"
      | Ok cs =>
          match ScopeForIPv6Address remoteAddr with
          | Err _ => Panicked "header.ScopeForIPv6Address"
          | Ok remoteScope =>
              firstIncRef (sort_Slice (lessCandidate remoteAddr remoteScope n) cs) n
          end
      end.

(** [primaryEndpoint]. *)
Definition primaryEndpoint (proto : N) (remoteAddr : string) : M (option loc) :=
  if bool_decide (proto = IPv6ProtocolNumber) && negb (bool_decide (remoteAddr = EmptyString))
  then primaryIPv6Endpoint remoteAddr
  else fun n => primaryEndpoint_loop (mu_primary n !!! proto) None n.

(** *** Address queries *)

(** [AllAddresses]. *)
Definition AllAddresses (n : NIC) : list ProtocolAddress :=
  omap (fun '(nid, ref) =>
          match getKind ref n with
          | permanentExpired | temporary => None
          | _ =>
              Some (mkPA (protocol (getCell ref n))
                      (mkAWP (LocalAddress nid) (ep_PrefixLen (ep (getCell ref n)))))
          end)
       (rangeOrder (mu_endpoints n)).

(** [PrimaryAddresses]. *)
Definition PrimaryAddresses (n : NIC) : list ProtocolAddress :=
  concat
    (map (fun '(proto, l) =>
            omap (fun ref =>
                    match getKind ref n with
                    | permanentTentative | permanentExpired | temporary => None
                    | permanent =>
                        Some (mkPA proto
                                (mkAWP (LocalAddress (ep_ID (ep (getCell ref n))))
                                   (ep_PrefixLen (ep (getCell ref n)))))
                    end) l)
         (rangeOrder (mu_primary n))).

(** The loop of [primaryAddress]. *)
Fixpoint primaryAddress_loop (l : list loc) (deprecatedEndpoint : option loc)
    (n : NIC) : AddressWithPrefix :=
  match l with
  | [] =>
      match deprecatedEndpoint with
      | Some d =>
          mkAWP (LocalAddress (ep_ID (ep (getCell d n)))) (ep_PrefixLen (ep (getCell d n)))
      | None => mkAWP EmptyString 0
      end
  | ref :: l' =>
      match getKind ref n with
      | permanentTentative | permanentExpired | temporary =>
          primaryAddress_loop l' deprecatedEndpoint n
      | permanent =>
          if negb (deprecated (getCell ref n)) then
            mkAWP (LocalAddress (ep_ID (ep (getCell ref n))))
              (ep_PrefixLen (ep (getCell ref n)))
          else
            primaryAddress_loop l'
              (match deprecatedEndpoint with
               | None => Some ref
               | Some d => Some d
               end) n
      end
  end.

(** [primaryAddress]. *)
Definition primaryAddress (proto : N) (n : NIC) : AddressWithPrefix :=
  match mu_primary n !! proto with
  | None => mkAWP EmptyString 0
  | Some l => primaryAddress_loop l None n
  end.

(** *** Enabling the interface *)

(** The loop of [enable] over [n.mu.endpoints] (lines 191-201), on the cells
    in the order the range visits them. *)
Fixpoint enable_dadLoop (rs : list loc) : M (option Error) :=
  match rs with
  | [] => ret None
  | r :: rs' =>
      fun n =>
        let addr := LocalAddress (ep_ID (ep (getCell r n))) in
        let k := getKind r n in
        if (negb (bool_decide (k = permanent)) && negb (bool_decide (k = permanentTentative)))
           || negb (IsV6UnicastAddress addr)
        then enable_dadLoop rs' n
        else
          (setKind r permanentTentative ;;;
           derr <- liftNDP (startDuplicateAddressDetection addr r) ;;
           match derr with
           | Some e => ret (Some e)
           | None => enable_dadLoop rs'
           end) n
  end.

Definition errOf {A} (x : res A) : option Error :=
  match x with
  | Ok _ => None
  | Err e => Some e
  end.

(** [enable]. *)
Definition enable (fuel : nat) : M (option Error) :=
  fun n =>
    if mu_enabled n then Returned None n
    else
      (modify (set_enabled true) ;;;
       modify (emit EvAttach) ;;;
       e4 <- (fun n1 =>
                match networkProtocols (stack n1) !! IPv4ProtocolNumber with
                | Some _ =>
                    (x <- addAddressLocked fuel
                           (mkPA IPv4ProtocolNumber
                              (mkAWP IPv4Broadcast (8 * IPv4AddressSize)))
                           NeverPrimaryEndpoint permanent static false ;;
                     ret (errOf x)) n1
                | None => Returned None n1
                end) ;;
       match e4 with
       | Some e => ret (Some e)
       | None =>
           fun n2 =>
             match networkProtocols (stack n2) !! IPv6ProtocolNumber with
             | None => Returned None n2
             | Some _ =>
                 (derr <- enable_dadLoop (rangeOrder (mu_endpoints n2)).*2 ;;
                  match derr with
                  | Some e => ret (Some e)
                  | None =>
                      jerr <- joinGroupLocked fuel IPv6ProtocolNumber
                                IPv6AllNodesMulticastAddress ;;
                      match jerr with
                      | Some e => ret (Some e)
                      | None =>
                          (fun n3 =>
                             if autoGenIPv6LinkLocal (stack n3) && negb (isLoopback n3)
                             then Returned tt
                                    (doSLAAC IPv6LinkLocalSubnet NDPInfiniteLifetime
                                       NDPInfiniteLifetime n3)
                             else Returned tt n3) ;;;
                          (fun n4 =>
                             if negb (forwarding (stack n4))
                             then Returned tt (startSolicitingRouters n4)
                             else Returned tt n4) ;;;
                          ret None
                      end
                  end) n2
             end
       end) n.

(** *** Receiving a packet *)

Definition incr (z : Z) : Z := wrap64 (z + 1).

Definition incrBy (d z : Z) : Z := wrap64 (z + wrap64 d).

Definition count_DisabledRx (size : Z) (s : NICStats) : NICStats :=
  mkNICStats (Tx s) (Rx s)
    (mkDir (incr (Packets (DisabledRx s))) (incrBy size (Bytes (DisabledRx s)))).

Definition count_Rx (size : Z) (s : NICStats) : NICStats :=
  mkNICStats (Tx s)
    (mkDir (incr (Packets (Rx s))) (incrBy size (Bytes (Rx s))))
    (DisabledRx s).

Definition count_UnknownProtocol (s : StackStats) : StackStats :=
  mkStackStats (incr (UnknownProtocolRcvdPackets s)) (MalformedRcvdPackets s)
    (IP_PacketsReceived s) (IP_InvalidSourceAddressesReceived s)
    (IP_InvalidDestinationAddressesReceived s) (IP_OutgoingPacketErrors s).

Definition count_Malformed (s : StackStats) : StackStats :=
  mkStackStats (UnknownProtocolRcvdPackets s) (incr (MalformedRcvdPackets s))
    (IP_PacketsReceived s) (IP_InvalidSourceAddressesReceived s)
    (IP_InvalidDestinationAddressesReceived s) (IP_OutgoingPacketErrors s).

Definition count_PacketsReceived (s : StackStats) : StackStats :=
  mkStackStats (UnknownProtocolRcvdPackets s) (MalformedRcvdPackets s)
    (incr (IP_PacketsReceived s)) (IP_InvalidSourceAddressesReceived s)
    (IP_InvalidDestinationAddressesReceived s) (IP_OutgoingPacketErrors s).

Definition count_InvalidSource (s : StackStats) : StackStats :=
  mkStackStats (UnknownProtocolRcvdPackets s) (MalformedRcvdPackets s)
    (IP_PacketsReceived s) (incr (IP_InvalidSourceAddressesReceived s))
    (IP_InvalidDestinationAddressesReceived s) (IP_OutgoingPacketErrors s).

Definition count_InvalidDestination (s : StackStats) : StackStats :=
  mkStackStats (UnknownProtocolRcvdPackets s) (MalformedRcvdPackets s)
    (IP_PacketsReceived s) (IP_InvalidSourceAddressesReceived s)
    (incr (IP_InvalidDestinationAddressesReceived s)) (IP_OutgoingPacketErrors s).

(** [handlePacket]: [makeRoute], [ref.ep.HandlePacket], then [ref.decRef]. *)
Definition handlePacket (proto : N) (dst src localLinkAddr remotelinkAddr : string)
    (ref : loc) (pkt : PacketBuffer) : M unit :=
  modify (emit (EvHandlePacket
                  (mkRoute proto dst src localLinkAddr remotelinkAddr ref) pkt)) ;;;
  decRef ref.

(** [DeliverNetworkPacket].  The block that forwards the packet (lines
    1095-1131) runs in Stack, Route and the forwarder, none of them under
    src/; it is [forwardNetworkPacket]. *)
Definition DeliverNetworkPacket (fuel : nat) (linkEP' : LinkEndpoint)
    (remote local : string) (proto : N) (pkt : PacketBuffer) : M unit :=
  fun n =>
    if negb (mu_enabled n) then
      Returned tt (set_stats (count_DisabledRx (Data_Size pkt)) n)
    else
      let n1 := set_stats (count_Rx (Data_Size pkt)) n in
      match networkProtocols (stack n1) !! proto with
      | None => Returned tt (set_stackStats count_UnknownProtocol n1)
      | Some netProto =>
          let local' :=
            if bool_decide (local = EmptyString) then LinkAddress (linkEP n1) else local in
          let packetEPs :=
            (mu_packetEPs n1 !!! proto)
            ++ (if bool_decide (proto = EthernetProtocolAll) then []
                else mu_packetEPs n1 !!! EthernetProtocolAll) in
          let n2 :=
            foldl (fun m pep => emit (EvPacketEndpoint pep (id m) local' proto pkt) m)
              n1 packetEPs in
          let n3 :=
            if bool_decide (Number netProto = IPv4ProtocolNumber)
               || bool_decide (Number netProto = IPv6ProtocolNumber)
            then set_stackStats count_PacketsReceived n2 else n2 in
          if (Z.of_nat (String.length (Data_First pkt)) <? MinimumPacketSize netProto)%Z
          then Returned tt (set_stackStats count_Malformed n3)
          else
            let src := (ParseAddresses netProto (Data_First pkt)).1 in
            let dst := (ParseAddresses netProto (Data_First pkt)).2 in
            (own <- (fun m =>
                       if handleLocal (stack m) && negb (isLoopback m)
                       then getRef fuel proto src m
                       else Returned None m) ;;
             match own with
             | Some _ => modify (set_stackStats count_InvalidSource)
             | None =>
                 found <- getRef fuel proto dst ;;
                 match found with
                 | Some ref =>
                     handlePacket proto dst src (LinkAddress linkEP') remote ref pkt
                 | None =>
                     fun m =>
                       if forwarding (stack m) then
                         Returned tt
                           (forwardNetworkPacket remote src dst proto pkt packetEPs m)
                       else if (length packetEPs =? 0)%nat then
                         Returned tt (set_stackStats count_InvalidDestination m)
                       else Returned tt m
                 end
             end) n3
      end.

End Model.

Arguments NIC : clear implicits.
Arguments Externals : clear implicits.
Arguments Returned {ndpState Subnet A} a n.
Arguments Panicked {ndpState Subnet A} msg.
Arguments OutOfFuel {ndpState Subnet A}.

Notation "x <- c ;; k" := (bindM c (fun x => k))
  (at level 20, c at level 99, k at level 200, only parsing).
Notation "c ;;; k" := (bindM c (fun _ => k))
  (at level 100, k at level 200, right associativity, only parsing).

(** ** Address ranges and packet endpoints *)

Section Registration.

Context {ndpState Subnet : Type} `{!Externals ndpState Subnet}.

(** Go compares two [tcpip.Subnet] values with [!=]. *)
Context `{!EqDecision Subnet}.

Definition set_addressRanges (f : list Subnet -> list Subnet)
    (n : NIC ndpState Subnet) : NIC ndpState Subnet :=
  mkNIC (stack n) (id n) (name n) (linkEP n) (stats n) (mu_enabled n)
    (mu_spoofing n) (mu_promiscuous n) (mu_primary n) (mu_endpoints n)
    (f (mu_addressRanges n)) (mu_mcastJoins n) (mu_packetEPs n) (mu_ndp n)
    (cells n) (stackStats n) (trace n).

Definition set_packetEPs (f : gmap N (list N) -> gmap N (list N))
    (n : NIC ndpState Subnet) : NIC ndpState Subnet :=
  mkNIC (stack n) (id n) (name n) (linkEP n) (stats n) (mu_enabled n)
    (mu_spoofing n) (mu_promiscuous n) (mu_primary n) (mu_endpoints n)
    (mu_addressRanges n) (mu_mcastJoins n) (f (mu_packetEPs n)) (mu_ndp n)
    (cells n) (stackStats n) (trace n).

(** [removeEndpoint]: [removeEndpointLocked] under the write lock. *)
Definition removeEndpoint (r : loc) : M unit :=
  fun n : NIC ndpState Subnet => removeEndpointLocked r n.

(** [AddAddressRange]; the function does not look at [protocol]. *)
Definition AddAddressRange (proto : N) (subnet : Subnet) : M unit :=
  modify (set_addressRanges (fun l => l ++ [subnet])).

(** The loop of [RemoveAddressRange] (lines 815-820).  [tmp] starts as
    [n.mu.addressRanges[:0]], so it writes into the array the range reads
    from: [arr] is that array, [i] the index the range reads next, [todo] the
    number of elements it has yet to read and [k] the length of [tmp].  The
    result is the array and the length of [tmp] when the loop ends. *)
Fixpoint RemoveAddressRange_loop (subnet : Subnet) (i todo : nat)
    (arr : list Subnet) (k : nat) : list Subnet * nat :=
  match todo with
  | O => (arr, k)
  | S todo' =>
      match arr !! i with
      | Some sub =>
          if decide (sub ≠ subnet)
          then RemoveAddressRange_loop subnet (S i) todo' (<[k := sub]> arr) (S k)
          else RemoveAddressRange_loop subnet (S i) todo' arr k
      | None => (arr, k)
      end
  end.

(** [RemoveAddressRange]. *)
Definition RemoveAddressRange (subnet : Subnet) : M unit :=
  modify (set_addressRanges (fun l =>
    let '(arr, k) := RemoveAddressRange_loop subnet 0 (length l) l 0 in
    take k arr)).

(** [registerPacketEndpoint].  A [PacketEndpoint] is an interface value; the
    model keeps its identity, a number. *)
Definition registerPacketEndpoint (netProto : N) (pep : N) : M (option Error) :=
  fun n =>
    match mu_packetEPs n !! netProto with
    | None => Returned (Some ErrNotSupported) n
    | Some eps => Returned None (set_packetEPs <[netProto := eps ++ [pep]]> n)
    end.

(** [unregisterPacketEndpoint]: the first element equal to [pep] is taken out
    of the list. *)
Definition unregisterPacketEndpoint (netProto : N) (pep : N) : M unit :=
  fun n =>
    match mu_packetEPs n !! netProto with
    | None => Returned tt n
    | Some eps =>
        match list_find (fun epOther => epOther = pep) eps with
        | Some (i, _) => Returned tt (set_packetEPs <[netProto := delete i eps]> n)
        | None => Returned tt n
        end
    end.

End Registration.

(** ** Construction *)

Module Construction.

Section Construction.

Context {ndpState Subnet : Type} `{!Externals ndpState Subnet}.

(** Modelled from the spec: [tcpip.InitStatCounters] is not under src/; it
    gives every counter of the structure a new counter, whose value is
    zero. *)
Definition makeNICStats : NICStats :=
  mkNICStats (mkDir 0 0) (mkDir 0 0) (mkDir 0 0).

(** [newNIC].  [Ethertypes] is [header.Ethertypes], [ndp0] the NDP substate
    the function builds from [stack.ndpConfigs], and [stackStats0] the value
    of the owning stack's counters; the NIC context is not used by nic.go and
    is left out.  The second loop registers each protocol under the number
    the protocol reports. *)
Definition newNIC (stack0 : Stack) (id0 : Z) (name0 : string) (ep0 : LinkEndpoint)
    (Ethertypes : list N) (ndp0 : ndpState) (stackStats0 : StackStats)
    : NIC ndpState Subnet :=
  let eps1 := foldl (fun m netProto => <[netProto := []]> m) ∅ Ethertypes in
  let eps2 :=
    foldl (fun m netProto => <[Number netProto := []]> m) eps1
      (rangeOrder (networkProtocols stack0)).*2 in
  mkNIC stack0 id0 name0 ep0 makeNICStats false false false ∅ ∅ [] ∅ eps2 ndp0
    ∅ stackStats0 [].

End Construction.

End Construction.

(** ** Vocabulary of the statements *)

Section Vocabulary.

Context {ndpState Subnet : Type} `{!Externals ndpState Subnet}.

Implicit Types (n : NIC ndpState Subnet) (r ref : loc).
Implicit Types (c : referencedNetworkEndpoint).

(** The address and prefix length a cell's endpoint reports. *)
Definition awpOf (c : referencedNetworkEndpoint) : AddressWithPrefix :=
  mkAWP (LocalAddress (ep_ID (ep c))) (ep_PrefixLen (ep c)).

(** What the first half of [DeliverNetworkPacket] (counters and packet
    endpoints) leaves alone. *)
Definition sameTables n n' : Prop :=
  stack n' = stack n /\ linkEP n' = linkEP n /\ id n' = id n
  /\ mu_enabled n' = mu_enabled n /\ mu_spoofing n' = mu_spoofing n
  /\ mu_promiscuous n' = mu_promiscuous n /\ mu_primary n' = mu_primary n
  /\ mu_endpoints n' = mu_endpoints n /\ mu_addressRanges n' = mu_addressRanges n
  /\ mu_mcastJoins n' = mu_mcastJoins n /\ cells n' = cells n.

(** [r.ep.ID().LocalAddress]. *)
Definition addrOf n r : string := LocalAddress (ep_ID (ep (getCell r n))).

(** The list [l] with every occurrence of [ref] taken out. *)
Definition without (ref : loc) (l : list loc) : list loc :=
  filter (fun x => x ≠ ref) l.

(** Where promotion leaves the cell in the primary list of its protocol. *)
Definition promotedList (peb : PrimaryEndpointBehavior) (ref : loc) (l : list loc)
    : list loc :=
  match peb with
  | CanBePrimaryEndpoint => if decide (ref ∈ l) then l else l ++ [ref]
  | FirstPrimaryEndpoint => ref :: without ref l
  | NeverPrimaryEndpoint => without ref l
  end.

(** Every field of the interface other than the cells and the primary
    lists. *)
Definition otherFields n :=
  (stack n, id n, name n, linkEP n, stats n, mu_enabled n, mu_spoofing n,
   mu_promiscuous n, mu_endpoints n, mu_addressRanges n, mu_mcastJoins n,
   mu_packetEPs n, mu_ndp n, stackStats n, trace n).

(** The link-address cache flag of a new cell (lines 661-665). *)
Definition linkCacheFor n (proto : N) : bool :=
  negb (N.land (Capabilities (linkEP n)) CapabilityResolutionRequired =? 0)%N
  && bool_decide (proto ∈ linkAddrResolvers (stack n)).

(** The interface after a new [NeverPrimaryEndpoint] cell [c] was created
    for [addr]. *)
Definition withNewEntry n (addr : string) c : NIC ndpState Subnet :=
  set_endpoints <[mkID addr := fresh (liveLocs n)]> (setCell (fresh (liveLocs n)) c n).

(** [k] calls in a row, as long as each returns nil; the first call that
    returns an error (or aborts) ends the run with that result. *)
Definition repeatCalls (k : N) (call : M (option Error)) : M (option Error) :=
  fun n =>
    N.iter k
      (fun o =>
         match o with
         | Returned None n' => call n'
         | _ => o
         end)
      (Returned None n).

(** [n.mu.mcastJoins[id]]: zero for an address that is not in the map. *)
Definition joinCount n (addr : string) : Z := default 0%Z (mu_mcastJoins n !! mkID addr).

(** The interface once the group's entry [c] exists and the count is [j]. *)
Definition joined n (addr : string) c (j : Z) : NIC ndpState Subnet :=
  set_mcastJoins <[mkID addr := j]> (withNewEntry n addr c).

(** The table maps [b] to the cell [r0], whose content is [c0]; [r0] is in
    no primary list and no other address is mapped to it. *)
Definition isolated (b : string) (r0 : loc) (c0 : referencedNetworkEndpoint)
    (m : NIC ndpState Subnet) : Prop :=
  mu_endpoints m !! mkID b = Some r0
  /\ getCell r0 m = c0
  /\ (forall p, r0 ∉ mu_primary m !!! p)
  /\ (forall i, mu_endpoints m !! i = Some r0 -> i = mkID b).

(** What the theorem on [enable] asks of the NDP substate, whose code is not
    under src/: its methods leave alone a permanent entry they were not
    called for. *)
Definition ndpKeeps (b : string) : Prop :=
  forall r0 c0,
    kind c0 = permanent ->
    (forall addr r m, r ≠ r0 -> isolated b r0 c0 m ->
        isolated b r0 c0 (startDuplicateAddressDetection addr r m).1)
    /\ (forall sn pl vl m, isolated b r0 c0 m -> isolated b r0 c0 (doSLAAC sn pl vl m))
    /\ (forall m, isolated b r0 c0 m -> isolated b r0 c0 (startSolicitingRouters m)).

End Vocabulary.

(** The addresses of the source-selection scenario: fe80::1 and
    2001:db8::[last]. *)
Definition fe80_1 : string := bytes ([254; 128] ++ repeat 0 13 ++ [1])%N.

Definition db8 (last : N) : string := bytes ([32; 1; 13; 184] ++ repeat 0 11 ++ [last])%N.

(** ** A concrete stack

    One instance of the collaborators, used to run the model on concrete
    interfaces: IPv4 and IPv6 as network protocols, subnets as an address
    and a mask, and an NDP substate that keeps a log of the calls it
    receives and leaves the address table alone.  The general theorems do
    not depend on this instance. *)

Module Concrete.

Record subnet := mkSubnet { sn_address : string; sn_mask : string }.

Fixpoint zipWithBytes (f : N -> N -> N) (s t : string) : string :=
  match s, t with
  | String a s', String b t' =>
      String (ascii_of_N (f (N_of_ascii a) (N_of_ascii b))) (zipWithBytes f s' t')
  | _, _ => EmptyString
  end.

Definition subnet_Contains (sn : subnet) (a : string) : bool :=
  (String.length a =? String.length (sn_address sn))%nat
  && bool_decide (zipWithBytes N.land a (sn_mask sn) = sn_address sn).

Definition subnet_Broadcast (sn : subnet) : string :=
  zipWithBytes (fun a m => N.lor a (N.lxor m 255)) (sn_address sn) (sn_mask sn).

Definition firstByte (a : string) : N :=
  match a with
  | String c _ => N_of_ascii c
  | EmptyString => 0
  end.

Definition secondByte (a : string) : N :=
  match a with
  | String _ (String c _) => N_of_ascii c
  | _ => 0
  end.

Definition IPv6Any : string := bytes (repeat 0%N 16).

Definition isV6UnicastAddress (a : string) : bool :=
  (String.length a =? 16)%nat
  && negb (bool_decide (a = IPv6Any))
  && negb (firstByte a =? 255)%N.

Definition solicitedNodeAddr (a : string) : string :=
  String.append (bytes [255; 2; 0; 0; 0; 0; 0; 0; 0; 0; 0; 1; 255]%N)
    (substring (String.length a - 3) 3 a).

Definition LinkLocalScope : Z := 0.

Definition GlobalScope : Z := 2.

Definition scopeForIPv6Address (a : string) : res Z :=
  if negb (String.length a =? 16)%nat then Err ErrBadAddress
  else if (firstByte a =? 254)%N && (N.land (secondByte a) 192 =? 128)%N
       then Ok LinkLocalScope
       else Ok GlobalScope.

Inductive ndpCall :=
  | StartDAD (addr : string) (r : loc)
  | StopDAD (addr : string)
  | CleanupAutoGen (addr : string)
  | DoSLAAC
  | StartSolicitingRouters.

Abbreviation nic := (NIC (list ndpCall) subnet).

Definition logNDP (c : ndpCall) (n : nic) : nic :=
  mkNIC (stack n) (id n) (name n) (linkEP n) (stats n) (mu_enabled n)
    (mu_spoofing n) (mu_promiscuous n) (mu_primary n) (mu_endpoints n)
    (mu_addressRanges n) (mu_mcastJoins n) (mu_packetEPs n) (c :: mu_ndp n)
    (cells n) (stackStats n) (trace n).

#[export] Instance externals : Externals (list ndpCall) subnet := {|
  IPv4ProtocolNumber := 2048;
  IPv6ProtocolNumber := 34525;
  EthernetProtocolAll := 3;
  IsV6UnicastAddress := isV6UnicastAddress;
  SolicitedNodeAddr := solicitedNodeAddr;
  ScopeForIPv6Address := scopeForIPv6Address;
  IPv6LinkLocalSubnet :=
    mkSubnet (bytes ([254; 128] ++ repeat 0 14)%N) (bytes (repeat 255 8 ++ repeat 0 8)%N);
  NDPInfiniteLifetime := 4294967295;
  Subnet_ID := sn_address;
  Subnet_Broadcast := subnet_Broadcast;
  Subnet_Contains := subnet_Contains;
  CapabilityLoopback := 64;
  CapabilityResolutionRequired := 8;
  startDuplicateAddressDetection := fun addr r n => (logNDP (StartDAD addr r) n, None);
  stopDuplicateAddressDetection := fun addr n => logNDP (StopDAD addr) n;
  cleanupAutoGenAddrResourcesAndNotify := fun addr n => logNDP (CleanupAutoGen addr) n;
  doSLAAC := fun _ _ _ n => logNDP DoSLAAC n;
  startSolicitingRouters := fun n => logNDP StartSolicitingRouters n;
  forwardNetworkPacket := fun _ _ _ _ _ _ n => n;
  rangeOrder := fun K _ _ V m => map_to_list m;
  rangeOrder_perm := fun K _ _ V m => reflexivity (map_to_list m)
|}.

(** Endpoints that report the address and prefix length they were made
    with. *)
Definition newEndpoint (nicid : Z) (a : AddressWithPrefix) : res NetworkEndpoint :=
  Ok (mkEP (mkID (Address a)) (PrefixLen a)).

Definition ipv4 : NetworkProtocol :=
  mkProto 2048 20 32 (fun v => (substring 12 4 v, substring 16 4 v)) newEndpoint.

Definition ipv6 : NetworkProtocol :=
  mkProto 34525 40 128 (fun v => (substring 8 16 v, substring 24 16 v)) newEndpoint.

Definition stack4 (local : bool) : Stack :=
  mkStack {[ 2048%N := ipv4 ]} ∅ local false false.

Definition stack46 : Stack :=
  mkStack (<[ 2048%N := ipv4 ]> {[ 34525%N := ipv6 ]}) ∅ false true false.

Definition noStats : NICStats := mkNICStats (mkDir 0 0) (mkDir 0 0) (mkDir 0 0).

(** A new interface, as [newNIC] leaves it: disabled, with empty tables. *)
Definition newNIC (st : Stack) : nic :=
  mkNIC st 1 "eth0" (mkLinkEP 0 (bytes [2; 0; 0; 0; 0; 1]%N)) noStats
    false false false ∅ ∅ [] ∅
    (<[ 3%N := [] ]> ((fun _ => []) <$> networkProtocols st)) []
    ∅ (mkStackStats 0 0 0 0 0 0) [].

(** *** Concrete interfaces *)

(** The state a call leaves ([d] if the call aborts). *)
Definition stateOf {A} (o : @outcome (list ndpCall) subnet A) (d : nic) : nic :=
  match o with
  | Returned _ s => s
  | _ => d
  end.

Definition ip4 (a b c d : N) : string := bytes [a; b; c; d].

(** A packet whose first region is an IPv4 header (source at bytes 12-15,
    destination at bytes 16-19) and whose second region is 7 bytes long. *)
Definition pkt4 (src dst : string) : PacketBuffer :=
  mkPkt [String.append (bytes (repeat 0%N 12)) (String.append src dst); "payload"].

(** A packet whose first region is an IPv6 header (source at bytes 8-23,
    destination at bytes 24-39). *)
Definition pkt6 (src dst : string) : PacketBuffer :=
  mkPkt [String.append (bytes (repeat 0%N 8)) (String.append src dst)].

(** The addresses of the cells in a primary list, in order. *)
Definition primaryAddrs (n : nic) (proto : N) : list string :=
  (fun r => addrOf n r) <$> (mu_primary n !!! proto).

(** A promiscuous interface that received a packet for 10.0.0.1 (which
    created a temporary entry with [CanBePrimaryEndpoint]) before 10.0.0.2
    was added. *)
Definition nicProm : nic := set_promiscuous true (newNIC (stack4 false)).

Definition nicTemp : nic := stateOf (getRef 1 2048 (ip4 10 0 0 1) nicProm) nicProm.

Definition nicTempThenB : nic :=
  stateOf (AddAddress 1 (mkPA 2048 (mkAWP (ip4 10 0 0 2) 24)) CanBePrimaryEndpoint nicTemp)
    nicTemp.

(** The same interface when 10.0.0.1 never had an entry. *)
Definition nicOnlyB : nic :=
  stateOf (AddAddress 1 (mkPA 2048 (mkAWP (ip4 10 0 0 2) 24)) CanBePrimaryEndpoint nicProm)
    nicProm.

(** An enabled interface with the permanent address 10.0.0.1, on a stack that
    handles local traffic itself ([handleLocal]). *)
Definition nicLocal : nic :=
  stateOf (AddAddress 1 (mkPA 2048 (mkAWP (ip4 10 0 0 1) 24)) CanBePrimaryEndpoint
             (set_enabled true (newNIC (stack4 true))))
    (newNIC (stack4 true)).

(** An interface with the three IPv6 addresses of the source-selection
    scenario, added in this order; 2001:db8::2 is deprecated. *)
Definition nicV6 : nic :=
  let add a dep n :=
    stateOf (addAddressLocked 2 (mkPA 34525 (mkAWP a 64)) CanBePrimaryEndpoint
               permanent static dep n) n in
  add (db8 3) false (add (db8 2) true (add fe80_1 false (newNIC stack46))).

(** An enabled, promiscuous interface on which fe80::1 was added and is
    still tentative. *)
Definition nicTentative : nic :=
  let n1 := stateOf (enable 2 (newNIC stack46)) (newNIC stack46) in
  let n2 := set_promiscuous true n1 in
  stateOf (AddAddress 2 (mkPA 34525 (mkAWP fe80_1 64)) CanBePrimaryEndpoint n2) n2.

End Concrete.

(** ** Further vocabulary *)

Section MoreVocabulary.

Context {ndpState Subnet : Type} `{!Externals ndpState Subnet}.

Implicit Types (n : NIC ndpState Subnet) (r ref : loc).
Implicit Types (c : referencedNetworkEndpoint).

(** The test of lines 640 and 901: an IPv6 protocol number and an address
    that [header.IsV6UnicastAddress] accepts. *)
Definition isIPv6Unicast (proto : N) (addr : string) : bool :=
  bool_decide (proto = IPv6ProtocolNumber) && IsV6UnicastAddress addr.

(** A primary list once [insertPrimaryEndpointLocked] has put [r] into it. *)
Definition listed (peb : PrimaryEndpointBehavior) r (l : list loc) : list loc :=
  match peb with
  | CanBePrimaryEndpoint => l ++ [r]
  | FirstPrimaryEndpoint => r :: l
  | NeverPrimaryEndpoint => l
  end.

(** The interface once [r] is in the primary list of [p] as [peb] asks. *)
Definition withPrimary (peb : PrimaryEndpointBehavior) (p : N) r n
    : NIC ndpState Subnet :=
  match peb with
  | NeverPrimaryEndpoint => n
  | _ => set_primary <[p := listed peb r (mu_primary n !!! p)]> n
  end.

(** The list [l] without the first occurrence of [r]. *)
Definition dropFirst r (l : list loc) : list loc :=
  match list_find (fun x => x = r) l with
  | Some (i, _) => delete i l
  | None => l
  end.

(** The fields that neither the address table, the primary lists, the cells
    nor the trace hold. *)
Definition settings n :=
  (stack n, id n, name n, linkEP n, stats n, mu_enabled n, mu_spoofing n,
   mu_promiscuous n, mu_addressRanges n, mu_mcastJoins n, mu_packetEPs n,
   mu_ndp n, stackStats n).

(** The interface once one more reference to [r] is held. *)
Definition referenced r n : NIC ndpState Subnet :=
  setCell r (with_refs (wrap32 (refs (getCell r n) + 1)) (getCell r n)) n.

(** A cell that source selection can hand out: valid for outgoing use, with a
    reference count that is not zero. *)
Definition usable n r : bool :=
  isValidForOutgoingRLocked r n && negb (refs (getCell r n) =? 0)%Z.

(** The first usable cell of [l] whose [deprecated] flag is [dep]. *)
Definition firstUsable (dep : bool) n (l : list loc) : option loc :=
  List.find (fun r => usable n r && eqb (deprecated (getCell r n)) dep) l.

(** The packet endpoints [DeliverNetworkPacket] hands a packet of protocol
    [proto] to: those registered for [proto], then those registered for every
    protocol. *)
Definition packetEndpointsFor n (proto : N) : list N :=
  (mu_packetEPs n !!! proto)
  ++ (if bool_decide (proto = EthernetProtocolAll) then []
      else mu_packetEPs n !!! EthernetProtocolAll).

(** The calls to those packet endpoints, the most recent first; [local] is
    the link address the packet was sent to, the interface's own when the
    link endpoint gave none. *)
Definition shownToPacketEndpoints n (local : string) (proto : N)
    (pkt : PacketBuffer) : list Event :=
  rev ((fun pep =>
          EvPacketEndpoint pep (id n)
            (if bool_decide (local = EmptyString) then LinkAddress (linkEP n)
             else local) proto pkt)
       <$> packetEndpointsFor n proto).

(** The stack's counters once a packet of [netProto] has been received. *)
Definition countReceived (netProto : NetworkProtocol) (s : StackStats) : StackStats :=
  if bool_decide (Number netProto = IPv4ProtocolNumber)
     || bool_decide (Number netProto = IPv6ProtocolNumber)
  then count_PacketsReceived s else s.

(** Every field of the interface but the NDP substate. *)
Definition exceptNDP n :=
  (stack n, id n, name n, linkEP n, stats n, mu_enabled n, mu_spoofing n,
   mu_promiscuous n, mu_primary n, mu_endpoints n, mu_addressRanges n,
   mu_mcastJoins n, mu_packetEPs n, cells n, stackStats n, trace n).

(** What the theorems on tentative addresses ask of
    [stopDuplicateAddressDetection], whose code is not under src/: it changes
    the NDP substate only. *)
Definition stopDADKeepsInterface : Prop :=
  forall (addr : string) n,
    exceptNDP (stopDuplicateAddressDetection addr n) = exceptNDP n.

(** The values of Go's [int32]. *)
Definition int32 (z : Z) : Prop := (-2147483648 <= z < 2147483648)%Z.

End MoreVocabulary.

(** ** Further concrete interfaces *)

Module Scenarios.

Import Concrete.

#[export] Instance subnet_eq_dec : EqDecision subnet.
Proof. solve_decision. Defined.

(** The interface [nicLocal] while a route holds a reference to the cell of
    10.0.0.1. *)
Definition nicHeld : nic :=
  stateOf (getRef 1 2048 (ip4 10 0 0 1) nicLocal) nicLocal.

(** An interface with two IPv4 addresses in its primary list, the first of
    them (10.0.0.1) deprecated. *)
Definition nicDeprecatedFirst : nic :=
  let add a dep n :=
    stateOf (addAddressLocked 1 (mkPA 2048 (mkAWP a 24)) CanBePrimaryEndpoint
               permanent static dep n) n in
  add (ip4 10 0 0 2) false (add (ip4 10 0 0 1) true (newNIC (stack4 false))).

(** An enabled interface with the permanent address 10.0.0.1, on a stack
    that does not handle local traffic itself. *)
Definition nicOwn : nic :=
  stateOf (AddAddress 1 (mkPA 2048 (mkAWP (ip4 10 0 0 1) 24)) CanBePrimaryEndpoint
             (set_enabled true (newNIC (stack4 false))))
    (newNIC (stack4 false)).

(** An interface, not yet enabled, to which the IPv4 broadcast address was
    added by hand. *)
Definition nicWithBroadcast : nic :=
  stateOf (AddAddress 1 (mkPA 2048 (mkAWP IPv4Broadcast 32)) NeverPrimaryEndpoint
             (newNIC (stack4 false)))
    (newNIC (stack4 false)).

End Scenarios.

(** * Properties *)

Section Proofs.

Context {ndpState Subnet : Type} `{!Externals ndpState Subnet}.

Implicit Types (n : NIC ndpState Subnet) (r ref : loc).
Implicit Types (c : referencedNetworkEndpoint).

(** ** Cells *)

Lemma getCell_setCell_eq n r c : getCell r (setCell r c n) = c.
Proof. unfold getCell, setCell; cbn. by rewrite lookup_total_insert_eq. Qed.

Lemma getCell_setCell_ne n r r' c : r ≠ r' -> getCell r' (setCell r c n) = getCell r' n.
Proof. intros Hne. unfold getCell, setCell; cbn. by rewrite lookup_total_insert_ne. Qed.

Lemma getKind_setCell_eq n r c : getKind r (setCell r c n) = kind c.
Proof. unfold getKind. by rewrite getCell_setCell_eq. Qed.

Lemma getKind_setCell_ne n r r' c : r ≠ r' -> getKind r' (setCell r c n) = getKind r' n.
Proof. intros Hne. unfold getKind. by rewrite getCell_setCell_ne. Qed.

Lemma tryIncRef_zero n r :
  refs (getCell r n) = 0%Z -> tryIncRef r n = Returned false n.
Proof. intros Hz. unfold tryIncRef. by rewrite Hz. Qed.

Lemma tryIncRef_nonzero n r :
  refs (getCell r n) ≠ 0%Z ->
  tryIncRef r n =
    Returned true (setCell r (with_refs (wrap32 (refs (getCell r n) + 1)) (getCell r n)) n).
Proof.
  intros Hnz. unfold tryIncRef.
  destruct (Z.eqb_spec (refs (getCell r n)) 0); [contradiction | reflexivity].
Qed.

(** ** Removal of a cell (C9) *)

Lemma removeEndpointLocked_not_permanent n r :
  kind (getCell r n) ≠ permanent ->
  exists n', removeEndpointLocked r n = Returned tt n'
    /\ (mu_endpoints n !! ep_ID (ep (getCell r n)) = Some r ->
        mu_endpoints n' = delete (ep_ID (ep (getCell r n))) (mu_endpoints n)
        /\ cells n' = cells n
        /\ trace n' = EvClose (ep (getCell r n)) :: trace n).
Proof.
  intros Hk. unfold removeEndpointLocked.
  destruct (decide (mu_endpoints n !! ep_ID (ep (getCell r n)) = Some r)) as [Heq|Hne].
  - rewrite decide_False by done. eexists. split; [reflexivity|].
    intros _. cbn. by destruct (list_find _ _) as [[i x]|].
  - eexists. split; [reflexivity|]. intros Heq. contradiction.
Qed.

(** C9.  [removeEndpointLocked r] does nothing when the table does not map
    the address of [r]'s endpoint to [r] itself; when it does and the kind of
    [r] is still [permanent] the call panics; and whenever the kind of [r] is
    not [permanent] the call returns without panic, having taken the address
    out of the table and closed the endpoint if the address was mapped to
    [r]. *)
Theorem removeEndpointLocked_cases n r :
  (mu_endpoints n !! ep_ID (ep (getCell r n)) ≠ Some r ->
     removeEndpointLocked r n = Returned tt n)
  /\ (mu_endpoints n !! ep_ID (ep (getCell r n)) = Some r ->
      kind (getCell r n) = permanent ->
      exists msg, removeEndpointLocked r n = Panicked msg)
  /\ (kind (getCell r n) ≠ permanent ->
      exists n', removeEndpointLocked r n = Returned tt n'
        /\ (mu_endpoints n !! ep_ID (ep (getCell r n)) = Some r ->
            mu_endpoints n' = delete (ep_ID (ep (getCell r n))) (mu_endpoints n)
            /\ cells n' = cells n
            /\ trace n' = EvClose (ep (getCell r n)) :: trace n)).
Proof.
  split; [|split].
  - intros Hne. unfold removeEndpointLocked. by rewrite decide_False.
  - intros Heq Hk. unfold removeEndpointLocked.
    rewrite decide_True by done. rewrite decide_True by done. eauto.
  - intros Hk. by apply removeEndpointLocked_not_permanent.
Qed.

(** ** Duplicate addresses (C4) *)

(** C4.  When the address is already in the table, [addAddressLocked]
    returns [ErrDuplicateAddress] if the requested kind is not [permanent],
    and also if the existing entry is [permanent] or [permanentTentative]; the
    interface (table, primary lists, cells) is exactly as before. *)
Theorem addAddressLocked_duplicate fuel n protocolAddress peb k ct dep ref :
  mu_endpoints n !! mkID (Address (AddrWithPrefix protocolAddress)) = Some ref ->
  k ≠ permanent
  \/ getKind ref n = permanent
  \/ getKind ref n = permanentTentative ->
  addAddressLocked (S fuel) protocolAddress peb k ct dep n
  = Returned (Err ErrDuplicateAddress) n.
Proof.
  intros Hin Hcase. cbn. rewrite Hin.
  unfold bindM, addAddressLocked_existing.
  destruct (decide (k = permanent)) as [->|Hk]; [|reflexivity].
  destruct Hcase as [Hk|[Hk|Hk]]; [done| |];
    unfold bindM, gets; rewrite Hk; reflexivity.
Qed.

(** ** Packets for a disabled interface (C7) *)

(** C7.  On a disabled interface [DeliverNetworkPacket] adds one to
    [DisabledRx.Packets] and the packet's size to [DisabledRx.Bytes]; [Rx]
    and [Tx] keep their values, no collaborator is called (the trace does not
    grow, so no packet endpoint sees the packet), and every other field of
    the interface, the cells and the stack's counters are unchanged. *)
Theorem DeliverNetworkPacket_disabled fuel n linkEP' remote local proto pkt :
  mu_enabled n = false ->
  exists n',
    DeliverNetworkPacket fuel linkEP' remote local proto pkt n = Returned tt n'
    /\ Packets (DisabledRx (stats n')) = wrap64 (Packets (DisabledRx (stats n)) + 1)
    /\ Bytes (DisabledRx (stats n'))
       = wrap64 (Bytes (DisabledRx (stats n)) + wrap64 (Data_Size pkt))
    /\ Rx (stats n') = Rx (stats n)
    /\ Tx (stats n') = Tx (stats n)
    /\ trace n' = trace n
    /\ stackStats n' = stackStats n
    /\ n' = set_stats (fun _ => stats n') n.
Proof.
  intros Hdis. unfold DeliverNetworkPacket. rewrite Hdis. cbn.
  eexists. split; [reflexivity|]. repeat split.
Qed.

(** ** Address queries (C6) *)

Lemma elem_of_rangeOrder `{Countable K} {V} (m : gmap K V) k v :
  (k, v) ∈ rangeOrder m <-> m !! k = Some v.
Proof. rewrite (rangeOrder_perm m). apply elem_of_map_to_list. Qed.

Lemma primaryAddress_loop_spec n l d0 :
  (forall d, d0 = Some d -> getKind d n = permanent) ->
  primaryAddress_loop l d0 n = mkAWP EmptyString 0
  \/ exists ref, (ref ∈ l \/ d0 = Some ref)
       /\ getKind ref n = permanent
       /\ primaryAddress_loop l d0 n = awpOf (getCell ref n).
Proof.
  revert d0. induction l as [|x l IH]; intros d0 Hd0; cbn.
  - destruct d0 as [d|]; [right|by left].
    exists d. split; [by right|]. split; [by apply Hd0|reflexivity].
  - destruct (getKind x n) eqn:Hk.
    1,3,4: destruct (IH d0 Hd0) as [He|(ref & [Hin|Hin] & Hkr & He)];
      [by left|right; exists ref; split; [left; by right|done]
      |right; exists ref; split; [by right|done]].
    destruct (deprecated (getCell x n)); cbn.
    + destruct (IH (match d0 with None => Some x | Some d => Some d end))
        as [He|(ref & [Hin|Hin] & Hkr & He)].
      * intros d Hd. destruct d0 as [d'|]; simplify_eq; [by apply Hd0|done].
      * by left.
      * right. exists ref. split; [left; by right|done].
      * right. exists ref. split; [|done].
        destruct d0 as [d'|]; simplify_eq; [by right|left; by left].
    + right. exists x. split; [left; by left|done].
Qed.

(** C6.  [AllAddresses] returns exactly the table entries whose kind is
    [permanent] or [permanentTentative] (none that is [permanentExpired] or
    [temporary]); [PrimaryAddresses] returns exactly the primary-list entries
    whose kind is [permanent]; and [primaryAddress] returns the empty value or
    the address of a primary-list entry whose kind is [permanent]. *)
Theorem address_queries_by_kind n :
  (forall pa, pa ∈ AllAddresses n <->
     exists nid ref,
       mu_endpoints n !! nid = Some ref
       /\ (getKind ref n = permanent \/ getKind ref n = permanentTentative)
       /\ pa = mkPA (protocol (getCell ref n))
                 (mkAWP (LocalAddress nid) (ep_PrefixLen (ep (getCell ref n)))))
  /\ (forall pa, pa ∈ PrimaryAddresses n <->
        exists proto l ref,
          mu_primary n !! proto = Some l /\ ref ∈ l
          /\ getKind ref n = permanent
          /\ pa = mkPA proto (awpOf (getCell ref n)))
  /\ (forall proto,
        primaryAddress proto n = mkAWP EmptyString 0
        \/ exists l ref,
             mu_primary n !! proto = Some l /\ ref ∈ l
             /\ getKind ref n = permanent
             /\ primaryAddress proto n = awpOf (getCell ref n)).
Proof.
  split; [|split].
  - intros pa. unfold AllAddresses. rewrite list_elem_of_omap. split.
    + intros ([nid ref] & Hin & Hf). apply elem_of_rangeOrder in Hin.
      exists nid, ref. split; [done|].
      destruct (getKind ref n); simplify_eq; auto.
    + intros (nid & ref & Hin & Hk & ->). exists (nid, ref).
      split; [by apply elem_of_rangeOrder|].
      by destruct Hk as [-> | ->].
  - intros pa. unfold PrimaryAddresses.
    rewrite list_elem_of_In, in_concat. split.
    + intros (ys & Hys & Hpa). apply in_map_iff in Hys as ([proto l] & <- & Hin).
      apply list_elem_of_In, elem_of_rangeOrder in Hin.
      apply list_elem_of_In, list_elem_of_omap in Hpa as (ref & Hrl & Hf).
      exists proto, l, ref. split; [done|]. split; [done|].
      destruct (getKind ref n); simplify_eq; auto.
    + intros (proto & l & ref & Hl & Hrl & Hk & ->).
      exists (omap (fun ref =>
                match getKind ref n with
                | permanent => Some (mkPA proto (awpOf (getCell ref n)))
                | _ => None
                end) l).
      split.
      * apply in_map_iff. exists (proto, l). split; [reflexivity|].
        by apply list_elem_of_In, elem_of_rangeOrder.
      * apply list_elem_of_In, list_elem_of_omap. exists ref.
        split; [done|]. by rewrite Hk.
  - intros proto. unfold primaryAddress.
    destruct (mu_primary n !! proto) as [l|] eqn:Hl; [|by left].
    destruct (primaryAddress_loop_spec n l None) as [He|(ref & [Hin|Hin] & Hk & He)];
      [done|by left| |done].
    right. by exists l, ref.
Qed.

(** ** Lookup of a tentative address (C10) *)

Lemma getRefOrCreateTemp_tentative fuel n proto address peb tempRef ref :
  mu_endpoints n !! mkID address = Some ref ->
  getKind ref n = permanentTentative ->
  refs (getCell ref n) ≠ 0%Z ->
  createTempEP address (spoofingOrPromiscuous tempRef n) n = true ->
  getRefOrCreateTemp fuel proto address peb tempRef n
  = Returned (Some ref)
      (setCell ref (with_refs (wrap32 (refs (getCell ref n) + 1)) (getCell ref n)) n).
Proof.
  intros Hin Hk Hrefs Hcreate.
  unfold getRefOrCreateTemp, bindM, getRefOrCreateTemp_read, gets.
  rewrite Hin, Hk, Hcreate. cbn. rewrite Hin.
  rewrite tryIncRef_nonzero by done. reflexivity.
Qed.

Lemma sameTables_refl n : sameTables n n.
Proof. by repeat split. Qed.

Lemma sameTables_foldl_emit (f : NIC ndpState Subnet -> N -> Event) l n :
  sameTables n (foldl (fun m pep => emit (f m pep) m) n l).
Proof.
  revert n. induction l as [|x l IH]; intros n; cbn; [apply sameTables_refl|].
  destruct (IH (emit (f n x) n)) as (?&?&?&?&?&?&?&?&?&?&?).
  by repeat split.
Qed.

Lemma decRef_no_panic n r :
  kind (getCell r n) ≠ permanent ->
  exists n', decRef r n = Returned tt n'
    /\ exists evs, trace n' = evs ++ trace n.
Proof.
  intros Hk. unfold decRef.
  set (n1 := setCell r (with_refs (wrap32 (refs (getCell r n) - 1)) (getCell r n)) n).
  destruct (wrap32 (refs (getCell r n) - 1) =? 0)%Z.
  - destruct (removeEndpointLocked_not_permanent n1 r) as (n' & Hn' & _).
    { subst n1. by rewrite getCell_setCell_eq. }
    exists n'. split; [done|].
    revert Hn'. unfold removeEndpointLocked.
    repeat case_decide; intros Hn'; simplify_eq.
    + destruct (list_find _ _) as [[i x]|]; by exists [EvClose (ep (getCell r n1))].
    + by exists [].
  - exists n1. split; [done|]. by exists [].
Qed.

(** C10.  A [permanentTentative] entry whose reference count is positive is
    handed out by [getRefOrCreateTemp], with its count incremented, whenever
    a temporary endpoint could be created (the flag selected by [tempRef] is
    set, or the address lies in one of the address ranges): no nil, no new
    entry.  Hence a promiscuous interface gives a packet addressed to a
    tentative address to that address's endpoint. *)
Theorem tentative_entry_is_returned_and_receives :
  (forall fuel n proto address peb tempRef ref,
     mu_endpoints n !! mkID address = Some ref ->
     getKind ref n = permanentTentative ->
     (0 < refs (getCell ref n))%Z ->
     createTempEP address (spoofingOrPromiscuous tempRef n) n = true ->
     getRefOrCreateTemp fuel proto address peb tempRef n
     = Returned (Some ref)
         (setCell ref (with_refs (wrap32 (refs (getCell ref n) + 1)) (getCell ref n)) n))
  /\ (forall fuel n linkEP' remote local proto netProto pkt ref,
        mu_enabled n = true ->
        mu_promiscuous n = true ->
        handleLocal (stack n) && negb (isLoopback n) = false ->
        networkProtocols (stack n) !! proto = Some netProto ->
        (MinimumPacketSize netProto <= Z.of_nat (String.length (Data_First pkt)))%Z ->
        mu_endpoints n !! mkID (ParseAddresses netProto (Data_First pkt)).2 = Some ref ->
        getKind ref n = permanentTentative ->
        (0 < refs (getCell ref n))%Z ->
        exists n',
          DeliverNetworkPacket fuel linkEP' remote local proto pkt n = Returned tt n'
          /\ EvHandlePacket
               (mkRoute proto (ParseAddresses netProto (Data_First pkt)).2
                  (ParseAddresses netProto (Data_First pkt)).1
                  (LinkAddress linkEP') remote ref) pkt ∈ trace n').
Proof.
  split.
  - intros. apply getRefOrCreateTemp_tentative; [done|done|lia|done].
  - intros fuel n linkEP' remote local proto netProto pkt ref
      Hen Hprom Hlocal Hproto Hsize Hin Hk Hrefs.
    unfold DeliverNetworkPacket. rewrite Hen. cbn [negb]. cbv zeta.
    cbn [stack set_stats]. rewrite Hproto.
    destruct (Z.ltb_spec (Z.of_nat (String.length (Data_First pkt)))
                (MinimumPacketSize netProto)) as [Hlt|_]; [lia|].
    set (n1 := set_stats _ n).
    set (eps := _ ++ _).
    set (n2 := foldl _ n1 eps).
    set (n3 := if bool_decide (Number netProto = IPv4ProtocolNumber)
                  || bool_decide (Number netProto = IPv6ProtocolNumber)
               then set_stackStats count_PacketsReceived n2 else n2).
    assert (sameTables n n3) as (Hst&Hlk&_&_&_&Hpr&_&Hep&Har&_&Hce).
    { destruct (sameTables_foldl_emit
                  (fun m pep => EvPacketEndpoint pep (id m)
                     (if bool_decide (local = EmptyString)
                      then LinkAddress (linkEP n1) else local) proto pkt) eps n1)
        as (E1&E2&E3&E4&E5&E6&E7&E8&E9&E10&E11).
      subst n3. destruct (_ || _); cbn; repeat split; assumption. }
    unfold bindM at 1.
    assert (handleLocal (stack n3) && negb (isLoopback n3) = false) as ->.
    { unfold isLoopback. by rewrite Hst, Hlk. }
    unfold bindM at 1. unfold getRef.
    rewrite (getRefOrCreateTemp_tentative fuel n3 proto _ CanBePrimaryEndpoint
               promiscuous ref).
    + unfold handlePacket, bindM, modify.
      set (n4 := emit _ _).
      destruct (decRef_no_panic n4 ref) as (n' & Hn' & evs & Htr).
      { subst n4. unfold getCell. cbn. rewrite lookup_total_insert_eq. cbn.
        fold (getCell ref n3). unfold getKind, getCell in Hk. unfold getCell.
        rewrite Hce. rewrite Hk. done. }
      exists n'. split; [done|].
      rewrite Htr. apply elem_of_app. right. subst n4. cbn. by left.
    + by rewrite Hep.
    + unfold getKind, getCell. by rewrite Hce.
    + unfold getCell. rewrite Hce. fold (getCell ref n). lia.
    + unfold createTempEP, spoofingOrPromiscuous. by rewrite Hpr, Hprom.
Qed.

(** ** IPv6 source address selection (C5) *)

(** The comparator of [primaryIPv6Endpoint], rule by rule. *)
Lemma lessCandidate_rules remoteAddr remoteScope n cs i j sa sb :
  cs !! i = Some sa -> cs !! j = Some sb ->
  (addrOf n (cand_ref sa) = remoteAddr ->
     lessCandidate remoteAddr remoteScope n cs i j = true)
  /\ (addrOf n (cand_ref sa) ≠ remoteAddr -> addrOf n (cand_ref sb) = remoteAddr ->
      lessCandidate remoteAddr remoteScope n cs i j = false)
  /\ (addrOf n (cand_ref sa) ≠ remoteAddr -> addrOf n (cand_ref sb) ≠ remoteAddr ->
      ((cand_scope sa < cand_scope sb)%Z ->
         lessCandidate remoteAddr remoteScope n cs i j
         = bool_decide (remoteScope <= cand_scope sa)%Z)
      /\ ((cand_scope sb < cand_scope sa)%Z ->
          lessCandidate remoteAddr remoteScope n cs i j
          = bool_decide (cand_scope sb < remoteScope)%Z)
      /\ (cand_scope sa = cand_scope sb ->
          deprecated (getCell (cand_ref sa) n) ≠ deprecated (getCell (cand_ref sb) n) ->
          lessCandidate remoteAddr remoteScope n cs i j
          = deprecated (getCell (cand_ref sb) n))
      /\ (cand_scope sa = cand_scope sb ->
          deprecated (getCell (cand_ref sa) n) = deprecated (getCell (cand_ref sb) n) ->
          lessCandidate remoteAddr remoteScope n cs i j = bool_decide (i < j)%nat)).
Proof.
  intros Hi Hj. unfold lessCandidate, addrOf. rewrite Hi, Hj.
  split; [|split].
  - intros Ha. by rewrite bool_decide_eq_true_2.
  - intros Ha Hb. rewrite bool_decide_eq_false_2 by done.
    by rewrite bool_decide_eq_true_2.
  - intros Ha Hb. rewrite !bool_decide_eq_false_2 by done.
    repeat split.
    + intros Hlt. destruct (Z.ltb_spec (cand_scope sa) (cand_scope sb)); [|lia].
      destruct (Z.leb_spec remoteScope (cand_scope sa)).
      * by rewrite bool_decide_eq_true_2.
      * by rewrite bool_decide_eq_false_2 by lia.
    + intros Hlt. destruct (Z.ltb_spec (cand_scope sa) (cand_scope sb)); [lia|].
      destruct (Z.ltb_spec (cand_scope sb) (cand_scope sa)); [|lia].
      destruct (Z.ltb_spec (cand_scope sb) remoteScope).
      * by rewrite bool_decide_eq_true_2.
      * by rewrite bool_decide_eq_false_2 by lia.
    + intros Heq Hdep. rewrite Heq, Z.ltb_irrefl.
      by destruct (deprecated (getCell (cand_ref sa) n)),
           (deprecated (getCell (cand_ref sb) n)).
    + intros Heq Hdep. rewrite Heq, Z.ltb_irrefl, Hdep.
      rewrite eqb_reflx. cbn [negb].
      destruct (Nat.ltb_spec i j).
      * by rewrite bool_decide_eq_true_2.
      * by rewrite bool_decide_eq_false_2 by lia.
Qed.

Ltac candsimpl := cbn [cand_ref cand_scope].

(** C5.  With primary list [fe80::1; 2001:db8::2 (deprecated); 2001:db8::3],
    all valid for outgoing packets, where fe80::1 has a smaller scope than
    the three global addresses, source selection for the remote address
    2001:db8::1 returns the cell of 2001:db8::3 with one more reference.  The
    comparator it sorts with gives, for two candidates neither of which is
    the remote address: if Sa < Sb then i precedes j iff Sa >= remoteScope,
    if Sb < Sa then i precedes j iff Sb < remoteScope. *)
Theorem primaryIPv6Endpoint_selects_global_non_deprecated :
  (forall n r1 r2 r3 sLink sGlobal,
     mu_primary n !!! IPv6ProtocolNumber = [r1; r2; r3] ->
     addrOf n r1 = fe80_1 -> addrOf n r2 = db8 2 -> addrOf n r3 = db8 3 ->
     deprecated (getCell r1 n) = false ->
     deprecated (getCell r2 n) = true ->
     deprecated (getCell r3 n) = false ->
     isValidForOutgoing r1 n = true ->
     isValidForOutgoing r2 n = true ->
     isValidForOutgoing r3 n = true ->
     (0 < refs (getCell r3 n))%Z ->
     ScopeForIPv6Address fe80_1 = Ok sLink ->
     ScopeForIPv6Address (db8 1) = Ok sGlobal ->
     ScopeForIPv6Address (db8 2) = Ok sGlobal ->
     ScopeForIPv6Address (db8 3) = Ok sGlobal ->
     (sLink < sGlobal)%Z ->
     primaryIPv6Endpoint (db8 1) n
     = Returned (Some r3)
         (setCell r3 (with_refs (wrap32 (refs (getCell r3 n) + 1)) (getCell r3 n)) n))
  /\ (forall remoteAddr remoteScope n cs i j sa sb,
        cs !! i = Some sa -> cs !! j = Some sb ->
        addrOf n (cand_ref sa) ≠ remoteAddr -> addrOf n (cand_ref sb) ≠ remoteAddr ->
        ((cand_scope sa < cand_scope sb)%Z ->
           lessCandidate remoteAddr remoteScope n cs i j
           = bool_decide (remoteScope <= cand_scope sa)%Z)
        /\ ((cand_scope sb < cand_scope sa)%Z ->
            lessCandidate remoteAddr remoteScope n cs i j
            = bool_decide (cand_scope sb < remoteScope)%Z)).
Proof.
  split.
  - intros n r1 r2 r3 sL sG Hprim Ha1 Ha2 Ha3 Hd1 Hd2 Hd3 Hv1 Hv2 Hv3 Hrefs
      Hs1 HsR Hs2 Hs3 Hlt.
    assert (fe80_1 ≠ db8 1) as N1 by (by vm_compute).
    assert (db8 2 ≠ db8 1) as N2 by (by vm_compute).
    assert (db8 3 ≠ db8 1) as N3 by (by vm_compute).
    unfold primaryIPv6Endpoint. rewrite Hprim. cbn [length Nat.eqb candidates].
    rewrite Hv1, Hv2, Hv3. cbn [negb].
    fold (addrOf n r1) (addrOf n r2) (addrOf n r3).
    rewrite Ha1, Ha2, Ha3, Hs1, Hs2, Hs3, HsR.
    set (less := lessCandidate (db8 1) sG n).
    assert (less [(mkCand r1 sL); (mkCand r2 sG); (mkCand r3 sG)] 1%nat 0%nat = true) as L1.
    { destruct (lessCandidate_rules (db8 1) sG n [(mkCand r1 sL); (mkCand r2 sG); (mkCand r3 sG)] 1 0 (mkCand r2 sG) (mkCand r1 sL) eq_refl eq_refl)
        as (_ & _ & Hr).
      destruct Hr as (_ & Hr & _); [candsimpl; congruence..|].
      subst less. rewrite Hr by (candsimpl; lia).
      apply bool_decide_eq_true_2. candsimpl. lia. }
    assert (less [(mkCand r2 sG); (mkCand r1 sL); (mkCand r3 sG)] 2%nat 1%nat = true) as L2.
    { destruct (lessCandidate_rules (db8 1) sG n [(mkCand r2 sG); (mkCand r1 sL); (mkCand r3 sG)] 2 1 (mkCand r3 sG) (mkCand r1 sL) eq_refl eq_refl)
        as (_ & _ & Hr).
      destruct Hr as (_ & Hr & _); [candsimpl; congruence..|].
      subst less. rewrite Hr by (candsimpl; lia).
      apply bool_decide_eq_true_2. candsimpl. lia. }
    assert (less [(mkCand r2 sG); (mkCand r3 sG); (mkCand r1 sL)] 1%nat 0%nat = true) as L3.
    { destruct (lessCandidate_rules (db8 1) sG n [(mkCand r2 sG); (mkCand r3 sG); (mkCand r1 sL)] 1 0 (mkCand r3 sG) (mkCand r2 sG) eq_refl eq_refl)
        as (_ & _ & Hr).
      destruct Hr as (_ & _ & Hr & _); [candsimpl; congruence..|].
      subst less. rewrite Hr; candsimpl; congruence. }
    assert (sort_Slice less [mkCand r1 sL; mkCand r2 sG; mkCand r3 sG]
            = [mkCand r3 sG; mkCand r2 sG; mkCand r1 sL]) as ->.
    { unfold sort_Slice. cbn [length Nat.sub insertionSort insertDown].
      rewrite L1.
      change (swap 1 0 [mkCand r1 sL; mkCand r2 sG; mkCand r3 sG])
        with [mkCand r2 sG; mkCand r1 sL; mkCand r3 sG].
      rewrite L2.
      change (swap 2 1 [mkCand r2 sG; mkCand r1 sL; mkCand r3 sG])
        with [mkCand r2 sG; mkCand r3 sG; mkCand r1 sL].
      rewrite L3. reflexivity. }
    cbn [firstIncRef]. unfold bindM.
    cbn [cand_ref].
    rewrite tryIncRef_nonzero by lia. reflexivity.
  - intros remoteAddr remoteScope n cs i j sa sb Hi Hj Ha Hb.
    destruct (lessCandidate_rules remoteAddr remoteScope n cs i j sa sb Hi Hj)
      as (_ & _ & Hr).
    destruct (Hr Ha Hb) as (H1 & H2 & _). by split.
Qed.

(** ** Promotion in place (C3) *)

Lemma promoteScan_skip peb ref todo : forall i arr moved,
  (forall j, (i <= j < i + todo)%nat -> arr !! j ≠ Some ref) ->
  promoteScan peb ref i todo arr moved = (false, arr, moved).
Proof.
  induction todo as [|todo IH]; intros i arr moved Hno; cbn; [done|].
  rewrite decide_False by (apply Hno; lia).
  apply IH. intros j Hj. apply Hno. lia.
Qed.

Lemma promoteScan_hit peb ref todo : forall i arr moved k,
  (i <= k < i + todo)%nat ->
  (forall j, (i <= j < k)%nat -> arr !! j ≠ Some ref) ->
  arr !! k = Some ref ->
  promoteScan peb ref i todo arr moved
  = match peb with
    | CanBePrimaryEndpoint => (true, arr, moved)
    | FirstPrimaryEndpoint =>
        if (k =? 0)%nat then (true, arr, moved)
        else promoteScan FirstPrimaryEndpoint ref (S k) (i + todo - S k)
               (shiftOut k arr) true
    | NeverPrimaryEndpoint => (true, shiftOut k arr, true)
    end.
Proof.
  induction todo as [|todo IH]; intros i arr moved k Hk Hpre Hhit; [lia|].
  cbn [promoteScan]. destruct (decide (i = k)) as [->|Hne].
  - rewrite decide_True by done. destruct peb; try done.
    destruct (k =? 0)%nat; [done|].
    by replace (k + S todo - S k)%nat with todo by lia.
  - rewrite decide_False by (apply Hpre; lia).
    rewrite (IH (S i) arr moved k); [|lia|intros j Hj; apply Hpre; lia|done].
    by replace (S i + todo - S k)%nat with (i + S todo - S k)%nat by lia.
Qed.

Lemma shiftOut_take k (arr : list loc) :
  (k < length arr)%nat ->
  take (length (shiftOut k arr) - 1) (shiftOut k arr) = delete k arr.
Proof.
  intros Hk. unfold shiftOut. rewrite delete_take_drop.
  assert (length (drop (length arr - 1) arr) = 1%nat) as Hlast
    by (rewrite length_drop; lia).
  rewrite !length_app, length_take, length_drop, Hlast.
  rewrite app_assoc. rewrite take_app_length'; [done|].
  rewrite length_app, length_take, length_drop. lia.
Qed.

Lemma shiftOut_lookup_gt k (arr : list loc) j x :
  (k < j)%nat -> shiftOut k arr !! j = Some x ->
  exists m, (k < m)%nat /\ arr !! m = Some x.
Proof.
  intros Hj. unfold shiftOut.
  destruct (decide (k < length arr)%nat) as [Hk|Hk].
  - rewrite lookup_app_r by (rewrite length_take; lia).
    rewrite length_take, Nat.min_l by lia.
    intros [Hl|[_ Hl]]%lookup_app_Some.
    + rewrite lookup_drop in Hl. exists (S k + (j - k))%nat. split; [lia|done].
    + rewrite lookup_drop in Hl. rewrite length_drop in Hl.
      eexists. split; [|exact Hl]. lia.
  - intros Hl. apply lookup_lt_Some in Hl.
    rewrite !length_app, length_take, !length_drop in Hl. lia.
Qed.

Lemma without_notin ref l : ref ∉ l -> without ref l = l.
Proof.
  intros Hnot. unfold without. induction l as [|x l IH]; [done|].
  apply not_elem_of_cons in Hnot as [Hne Hnot].
  rewrite filter_cons_True by done. by rewrite IH.
Qed.

Lemma without_delete ref l k :
  NoDup l -> l !! k = Some ref -> delete k l = without ref l.
Proof.
  revert k. induction l as [|x l IH]; intros k Hnd Hk; [done|].
  apply NoDup_cons in Hnd as [Hx Hnd]. unfold without.
  destruct k as [|k]; cbn in Hk.
  - simplify_eq. rewrite filter_cons_False by (intros H; by apply H).
    cbn. symmetry. by apply without_notin.
  - rewrite filter_cons_True.
    + cbn. f_equal. by apply IH.
    + intros ->. apply Hx. by eapply list_elem_of_lookup_2.
Qed.

Lemma promoteLocked_spec n ref peb ct dep :
  NoDup (mu_primary n !!! protocol (getCell ref n)) ->
  exists n',
    promoteLocked ref peb ct dep n = Returned (Ok ref) n'
    /\ cells n'
       = <[ref := with_configType ct (with_deprecated dep
                    (with_kind permanent (getCell ref n)))]> (cells n)
    /\ mu_primary n' !!! protocol (getCell ref n)
       = promotedList peb ref (mu_primary n !!! protocol (getCell ref n))
    /\ (forall q, q ≠ protocol (getCell ref n) -> mu_primary n' !! q = mu_primary n !! q)
    /\ otherFields n' = otherFields n.
Proof.
  intros Hnd. unfold promoteLocked, bindM, setKind, modify, gets.
  rewrite !getCell_setCell_eq.
  set (c := getCell ref n) in *.
  set (c' := with_configType ct (with_deprecated dep (with_kind permanent c))).
  set (n3 := setCell ref c' _).
  assert (cells n3 = <[ref := c']> (cells n)) as Hcells.
  { subst n3. unfold setCell. cbn. by rewrite !insert_insert_eq. }
  change (protocol c') with (protocol c).
  change (mu_primary n3) with (mu_primary n).
  set (p := protocol c) in *. set (l := mu_primary n !!! p) in *.
  assert (forall m : NIC ndpState Subnet,
            cells m = cells n3 -> protocol (getCell ref m) = p) as Hp.
  { intros m Hm. unfold getCell. rewrite Hm, Hcells.
    by rewrite lookup_total_insert_eq. }
  destruct (decide (ref ∈ l)) as [Hin|Hnot].
  - apply list_elem_of_lookup in Hin as [k Hk].
    assert (forall j, l !! j = Some ref -> j = k) as Huniq.
    { intros j Hj. eapply NoDup_lookup; eauto. }
    rewrite (promoteScan_hit peb ref (length l) 0 l false k);
      [|split; [lia|apply lookup_lt_Some in Hk; lia]
       |intros j Hj Hl; apply Huniq in Hl; lia|done].
    destruct peb.
    + eexists. split; [reflexivity|]. split; [exact Hcells|]. split; [|split; [done|done]].
      unfold promotedList. rewrite decide_True; [done|].
      by eapply list_elem_of_lookup_2.
    + destruct (Nat.eqb_spec k 0) as [->|Hk0].
      * eexists. split; [reflexivity|]. split; [exact Hcells|]. split; [|split; [done|done]].
        change (mu_primary n3 !!! p) with l. unfold promotedList.
        destruct l as [|x l']; [done|]. cbn in Hk. simplify_eq.
        f_equal. symmetry. unfold without.
        rewrite filter_cons_False by (intros H; by apply H).
        apply without_notin. by apply NoDup_cons in Hnd as [? _].
      * rewrite promoteScan_skip.
        2:{ intros j Hj Hl. apply shiftOut_lookup_gt in Hl as (m & Hm & Hl); [|lia].
            apply Huniq in Hl. lia. }
        rewrite shiftOut_take by (by eapply lookup_lt_Some).
        rewrite (without_delete ref l k) by done.
        unfold insertPrimaryEndpointLocked, modify. cbn.
        eexists. split; [reflexivity|]. cbn.
        rewrite !Hp by reflexivity.
        split; [exact Hcells|]. split; [|split; [|done]].
        -- rewrite !lookup_total_insert_eq. done.
        -- intros q Hq. by rewrite !lookup_insert_ne.
    + rewrite shiftOut_take by (by eapply lookup_lt_Some).
      rewrite (without_delete ref l k) by done.
      eexists. split; [reflexivity|]. cbn.
      split; [exact Hcells|]. split; [|split; [|done]].
      -- by rewrite lookup_total_insert_eq.
      -- intros q Hq. by rewrite lookup_insert_ne.
  - rewrite promoteScan_skip.
    2:{ intros j Hj Hl. apply Hnot. by eapply list_elem_of_lookup_2. }
    unfold insertPrimaryEndpointLocked, modify, ret. cbn.
    rewrite !Hp by reflexivity. unfold promotedList.
    rewrite (without_notin ref l Hnot).
    destruct peb; eexists; (split; [reflexivity|]); cbn;
      (split; [exact Hcells|]); (split; [|split; [|done]]).
    + rewrite lookup_total_insert_eq. by rewrite decide_False.
    + intros q Hq. by rewrite lookup_insert_ne.
    + by rewrite lookup_total_insert_eq.
    + intros q Hq. by rewrite lookup_insert_ne.
    + done.
    + done.
Qed.

(** C3 (corrected).  When the table holds a [temporary] (or
    [permanentExpired]) entry for the address whose reference count is not
    zero, and the cell occurs at most once in the primary list of its
    protocol, [addAddressLocked] with kind [permanent] returns that same
    cell; the cell gets kind [permanent], the given [deprecated] and
    [configType] and one more reference; the table is unchanged; and in the
    primary list the cell
    - keeps the position it has, or goes to the tail if it was not in the
      list, for [CanBePrimaryEndpoint];
    - is at the head, the other cells keeping their order, for
      [FirstPrimaryEndpoint];
    - is absent for [NeverPrimaryEndpoint]. *)
Theorem addAddressLocked_promotes_in_place fuel n protocolAddress peb ct dep ref :
  mu_endpoints n !! mkID (Address (AddrWithPrefix protocolAddress)) = Some ref ->
  getKind ref n = temporary \/ getKind ref n = permanentExpired ->
  refs (getCell ref n) ≠ 0%Z ->
  NoDup (mu_primary n !!! protocol (getCell ref n)) ->
  exists n',
    addAddressLocked (S fuel) protocolAddress peb permanent ct dep n
    = Returned (Ok ref) n'
    /\ mu_endpoints n' = mu_endpoints n
    /\ getCell ref n'
       = mkRef (ep (getCell ref n)) (protocol (getCell ref n))
           (linkCache (getCell ref n)) (wrap32 (refs (getCell ref n) + 1))
           permanent ct dep
    /\ (forall r, r ≠ ref -> getCell r n' = getCell r n)
    /\ mu_primary n' !!! protocol (getCell ref n)
       = match peb with
         | CanBePrimaryEndpoint =>
             if decide (ref ∈ mu_primary n !!! protocol (getCell ref n))
             then mu_primary n !!! protocol (getCell ref n)
             else mu_primary n !!! protocol (getCell ref n) ++ [ref]
         | FirstPrimaryEndpoint =>
             ref :: without ref (mu_primary n !!! protocol (getCell ref n))
         | NeverPrimaryEndpoint =>
             without ref (mu_primary n !!! protocol (getCell ref n))
         end
    /\ (forall q, q ≠ protocol (getCell ref n) -> mu_primary n' !! q = mu_primary n !! q)
    /\ otherFields n' = otherFields n.
Proof.
  intros Hin Hk Hrefs Hnd. cbn [addAddressLocked]. rewrite Hin.
  unfold bindM at 1. unfold addAddressLocked_existing.
  rewrite decide_True by done. unfold bindM at 1. unfold gets.
  assert ((ok <- tryIncRef ref ;;
           if ok then r <- promoteLocked ref peb ct dep ;; ret (Some r)
           else removeEndpointLocked ref ;;; ret None) n
          = (r <- promoteLocked ref peb ct dep ;; ret (Some r))
              (setCell ref (with_refs (wrap32 (refs (getCell ref n) + 1)) (getCell ref n)) n))
    as Hstep.
  { unfold bindM at 1. by rewrite tryIncRef_nonzero. }
  set (n1 := setCell ref _ n) in Hstep.
  assert (getCell ref n1 = with_refs (wrap32 (refs (getCell ref n) + 1)) (getCell ref n))
    as Hc1 by apply getCell_setCell_eq.
  destruct (promoteLocked_spec n1 ref peb ct dep)
    as (n' & Hn' & Hcells & Hprim & Hother & Hframe).
  { by rewrite Hc1. }
  rewrite Hc1 in Hcells, Hprim, Hother. cbn [protocol with_refs] in Hprim, Hother.
  exists n'.
  assert (addAddressLocked_existing ref peb permanent ct dep n = Returned (Some (Ok ref)) n')
    as Hex.
  { unfold addAddressLocked_existing. rewrite decide_True by done.
    unfold bindM at 1. unfold gets.
    destruct Hk as [-> | ->]; rewrite Hstep; unfold bindM; by rewrite Hn'. }
  unfold addAddressLocked_existing in Hex. rewrite decide_True in Hex by done.
  unfold bindM at 1 in Hex. unfold gets in Hex. rewrite Hex. unfold ret.
  split; [done|].
  split; [by injection Hframe|].
  split; [unfold getCell; rewrite Hcells; by rewrite lookup_total_insert_eq|].
  split.
  { intros r Hr. unfold getCell. rewrite Hcells. subst n1. cbn.
    by rewrite !lookup_total_insert_ne. }
  split; [exact Hprim|]. split; [exact Hother|exact Hframe].
Qed.

(** ** Adding an address that is not in the table *)

Lemma wrap32_small z : (-2147483648 <= z < 2147483648)%Z -> wrap32 z = z.
Proof. intros Hz. unfold wrap32. rewrite Z.mod_small; lia. Qed.

Lemma wrap32_high z :
  (2147483648 <= z < 4294967296 + 2147483648)%Z -> wrap32 z = (z - 4294967296)%Z.
Proof.
  intros Hz. unfold wrap32.
  replace (z + 2147483648)%Z with ((z - 2147483648) + 1 * 4294967296)%Z by lia.
  rewrite Z.mod_add by lia. rewrite Z.mod_small; lia.
Qed.

Lemma wrap32_add_l a b : wrap32 (wrap32 a + b) = wrap32 (a + b).
Proof.
  unfold wrap32. f_equal.
  replace ((a + 2147483648) mod 4294967296 - 2147483648 + b + 2147483648)%Z
    with ((a + 2147483648) mod 4294967296 + b)%Z by lia.
  rewrite Zplus_mod_idemp_l. f_equal. lia.
Qed.

Lemma wrap32_nonzero z : (0 < z < 4294967296)%Z -> wrap32 z ≠ 0%Z.
Proof.
  intros Hz. destruct (Z_lt_ge_dec z 2147483648).
  - rewrite wrap32_small; lia.
  - rewrite wrap32_high; lia.
Qed.

Lemma wrap32_not_one z : (1 < z < 4294967296)%Z -> wrap32 z ≠ 1%Z.
Proof.
  intros Hz. destruct (Z_lt_ge_dec z 2147483648).
  - rewrite wrap32_small; lia.
  - rewrite wrap32_high; lia.
Qed.

Lemma primary_live n p r : r ∈ mu_primary n !!! p -> r ∈ liveLocs n.
Proof.
  intros Hin. unfold liveLocs. apply elem_of_union_r, elem_of_list_to_set.
  rewrite lookup_total_alt in Hin.
  destruct (mu_primary n !! p) as [l|] eqn:Hl; cbn in Hin; [|by apply elem_of_nil in Hin].
  apply list_elem_of_In, in_concat. exists l. split; [|by apply list_elem_of_In].
  apply list_elem_of_In, list_elem_of_fmap. exists (p, l).
  split; [done|]. by apply elem_of_map_to_list.
Qed.

Lemma endpoints_live n i r : mu_endpoints n !! i = Some r -> r ∈ liveLocs n.
Proof.
  intros Hin. unfold liveLocs. apply elem_of_union_l, elem_of_union_r.
  apply elem_of_map_img. by exists i.
Qed.

Lemma fresh_not_primary n p : fresh (liveLocs n) ∉ mu_primary n !!! p.
Proof. intros Hin%primary_live. by apply is_fresh in Hin. Qed.

Lemma fresh_not_endpoint n i : mu_endpoints n !! i ≠ Some (fresh (liveLocs n)).
Proof. intros Hin%endpoints_live. by apply is_fresh in Hin. Qed.

Lemma addAddressLocked_new_never fuel n protocolAddress k ct dep netProto e :
  mu_endpoints n !! mkID (Address (AddrWithPrefix protocolAddress)) = None ->
  networkProtocols (stack n) !! Protocol protocolAddress = Some netProto ->
  NewEndpoint netProto (id n) (AddrWithPrefix protocolAddress) = Ok e ->
  bool_decide (Protocol protocolAddress = IPv6ProtocolNumber)
    && IsV6UnicastAddress (Address (AddrWithPrefix protocolAddress)) = false ->
  addAddressLocked (S fuel) protocolAddress NeverPrimaryEndpoint k ct dep n
  = Returned (Ok (fresh (liveLocs n)))
      (withNewEntry n (Address (AddrWithPrefix protocolAddress))
         (mkRef e (Protocol protocolAddress)
            (linkCacheFor n (Protocol protocolAddress)) 1 k ct dep)).
Proof.
  intros Hnone Hproto Hnew Hnot6. cbn [addAddressLocked]. rewrite Hnone.
  unfold addAddressLocked_fresh. rewrite Hproto, Hnew, Hnot6. reflexivity.
Qed.

(** ** Joining and leaving a group (C8) *)

Lemma joinGroup_first fuel n proto addr netProto e :
  joinCount n addr = 0%Z ->
  mu_endpoints n !! mkID addr = None ->
  networkProtocols (stack n) !! proto = Some netProto ->
  NewEndpoint netProto (id n) (mkAWP addr (DefaultPrefixLen netProto)) = Ok e ->
  bool_decide (proto = IPv6ProtocolNumber) && IsV6UnicastAddress addr = false ->
  joinGroup (S fuel) proto addr n
  = Returned None
      (joined n addr (mkRef e proto (linkCacheFor n proto) 1 permanent static false) 1).
Proof.
  intros Hcount Hnone Hproto Hnew Hnot6.
  unfold joinGroup, joinGroupLocked, joinGroupLocked_body, joinCount in *.
  rewrite Hcount, Hproto. cbn [Z.eqb]. unfold bindM at 1. unfold bindM at 1.
  rewrite (addAddressLocked_new_never fuel n _ permanent static false netProto e);
    [|done..].
  reflexivity.
Qed.

Lemma joinGroup_again fuel n proto addr :
  joinCount n addr ≠ 0%Z ->
  joinGroup fuel proto addr n
  = Returned None (set_mcastJoins <[mkID addr := wrap32 (joinCount n addr + 1)]> n).
Proof.
  intros Hcount. unfold joinGroup, joinGroupLocked, joinGroupLocked_body, joinCount in *.
  destruct (Z.eqb_spec (default 0%Z (mu_mcastJoins n !! mkID addr)) 0); [done|].
  reflexivity.
Qed.

Lemma joinCount_joined n addr c j : joinCount (joined n addr c j) addr = j.
Proof. unfold joinCount, joined. cbn. by rewrite lookup_insert_eq. Qed.

Lemma set_mcastJoins_joined n addr c j j' :
  set_mcastJoins <[mkID addr := j']> (joined n addr c j) = joined n addr c j'.
Proof. unfold joined, set_mcastJoins. cbn. f_equal. apply insert_insert_eq. Qed.

Lemma leaveGroup_none fuel n addr :
  joinCount n addr = 0%Z ->
  leaveGroup fuel addr n = Returned (Some ErrBadLocalAddress) n.
Proof.
  intros Hcount. unfold leaveGroup, leaveGroupLocked, leaveGroupLocked_body, joinCount in *.
  by rewrite Hcount.
Qed.

Lemma leaveGroup_more fuel n addr :
  joinCount n addr ≠ 0%Z -> joinCount n addr ≠ 1%Z ->
  leaveGroup fuel addr n
  = Returned None (set_mcastJoins <[mkID addr := wrap32 (joinCount n addr - 1)]> n).
Proof.
  intros H0 H1. unfold leaveGroup, leaveGroupLocked, leaveGroupLocked_body, joinCount in *.
  destruct (Z.eqb_spec (default 0%Z (mu_mcastJoins n !! mkID addr)) 0); [done|].
  destruct (Z.eqb_spec (default 0%Z (mu_mcastJoins n !! mkID addr)) 1); [done|].
  reflexivity.
Qed.

Lemma list_find_notin (r : loc) (l : list loc) :
  r ∉ l -> list_find (fun x => x = r) l = None.
Proof.
  intros Hnot. apply list_find_None, Forall_forall. intros x Hx ->. done.
Qed.

(** The last leave removes the entry the first join created. *)
Lemma leaveGroup_last fuel n proto addr e :
  mu_endpoints n !! mkID addr = None ->
  ep_ID e = mkID addr ->
  bool_decide (proto = IPv6ProtocolNumber) && IsV6UnicastAddress addr = false ->
  exists n',
    leaveGroup (S fuel) addr
      (joined n addr (mkRef e proto (linkCacheFor n proto) 1 permanent static false) 1)
    = Returned None n'
    /\ joinCount n' addr = 0%Z
    /\ mu_endpoints n' = mu_endpoints n
    /\ mu_primary n' = mu_primary n.
Proof.
  intros Hnone Hid Hnot6.
  set (c := mkRef e proto (linkCacheFor n proto) 1 permanent static false).
  set (s := joined n addr c 1).
  set (r := fresh (liveLocs n)).
  assert (mu_endpoints s !! mkID addr = Some r) as Hin
    by (subst s; unfold joined, withNewEntry; cbn; by rewrite lookup_insert_eq).
  assert (getCell r s = c) as Hc
    by (subst s; unfold joined, withNewEntry, getCell; cbn;
        by rewrite lookup_total_insert_eq).
  unfold leaveGroup, leaveGroupLocked, leaveGroupLocked_body.
  assert (joinCount s addr = 1%Z) as Hcnt by apply joinCount_joined.
  unfold joinCount in Hcnt. rewrite Hcnt.
  change (1 =? 0)%Z with false. change (1 =? 1)%Z with true. cbv iota.
  unfold bindM at 1. cbn [removePermanentAddressLocked].
  rewrite Hin. unfold getKind. rewrite Hc. cbn [kind protocol c].
  rewrite Hnot6. cbn [bool_decide decide_rel negb andb].
  unfold bindM at 1. unfold ret at 1. unfold bindM at 1. unfold setKind, modify.
  rewrite Hc. unfold bindM at 1. unfold decRefLocked.
  set (s1 := setCell r (with_kind permanentExpired c) s).
  assert (getCell r s1 = with_kind permanentExpired c) as Hc1
    by apply getCell_setCell_eq.
  rewrite Hc1. cbn [refs with_kind c]. change (wrap32 (1 - 1)) with 0%Z. cbn [Z.eqb].
  set (s2 := setCell r _ s1).
  assert (getCell r s2 = with_refs 0 (with_kind permanentExpired c)) as Hc2
    by apply getCell_setCell_eq.
  unfold bindM at 1. unfold removeEndpointLocked. rewrite Hc2.
  cbn [ep with_refs with_kind c kind protocol]. rewrite Hid.
  rewrite decide_True by exact Hin. rewrite decide_False by done.
  rewrite list_find_notin by exact (fresh_not_primary n proto).
  unfold ret. cbn [negb].
  eexists. split; [reflexivity|]. split; [|split].
  - unfold joinCount. cbn. by rewrite lookup_insert_eq.
  - cbn. rewrite delete_insert_eq. by apply delete_id.
  - reflexivity.
Qed.

Lemma repeatCalls_succ k call n :
  repeatCalls (N.succ k) call n
  = match repeatCalls k call n with
    | Returned None n' => call n'
    | o => o
    end.
Proof.
  unfold repeatCalls. rewrite N.iter_succ.
  by destruct (N.iter k _ _) as [[?|] ?|?|].
Qed.

Lemma repeatCalls_error k call n e n' :
  (1 <= k)%N -> call n = Returned (Some e) n' ->
  repeatCalls k call n = Returned (Some e) n'.
Proof.
  intros Hk Hcall. induction k as [|k IH] using N.peano_ind; [lia|].
  rewrite repeatCalls_succ. destruct (N.eq_dec k 0%N) as [->|Hk0].
  - done.
  - rewrite IH by lia. done.
Qed.

Section Group.

Variables (fuel : nat) (n : NIC ndpState Subnet) (proto : N) (addr : string).
Variables (netProto : NetworkProtocol) (e : NetworkEndpoint).

Hypothesis Hcount : joinCount n addr = 0%Z.
Hypothesis Hnone : mu_endpoints n !! mkID addr = None.
Hypothesis Hproto : networkProtocols (stack n) !! proto = Some netProto.
Hypothesis Hnew :
  NewEndpoint netProto (id n) (mkAWP addr (DefaultPrefixLen netProto)) = Ok e.
Hypothesis Hid : ep_ID e = mkID addr.
Hypothesis Hnot6 :
  bool_decide (proto = IPv6ProtocolNumber) && IsV6UnicastAddress addr = false.

Let c := mkRef e proto (linkCacheFor n proto) 1 permanent static false.

Lemma repeatCalls_joinGroup k :
  (1 <= k <= 4294967296)%N ->
  repeatCalls k (joinGroup (S fuel) proto addr) n
  = Returned None (joined n addr c (wrap32 (Z.of_N k))).
Proof using Hcount Hnone Hproto Hnew Hnot6.
  induction k as [|k IH] using N.peano_ind; [lia|]. intros Hk.
  rewrite repeatCalls_succ. destruct (N.eq_dec k 0%N) as [->|Hk0].
  - unfold repeatCalls. cbn [N.iter].
    exact (joinGroup_first fuel n proto addr netProto e Hcount Hnone Hproto Hnew Hnot6).
  - rewrite IH by lia. rewrite joinGroup_again.
    + rewrite joinCount_joined, set_mcastJoins_joined, wrap32_add_l.
      by rewrite N2Z.inj_succ.
    + rewrite joinCount_joined. apply wrap32_nonzero. lia.
Qed.

Lemma repeatCalls_leaveGroup k i :
  (i < k < 4294967296)%N ->
  repeatCalls i (leaveGroup (S fuel) addr) (joined n addr c (wrap32 (Z.of_N k)))
  = Returned None (joined n addr c (wrap32 (Z.of_N k - Z.of_N i))).
Proof using Type.
  induction i as [|i IH] using N.peano_ind; intros Hik.
  - cbn. by rewrite Z.sub_0_r.
  - rewrite repeatCalls_succ. rewrite IH by lia. rewrite leaveGroup_more.
    + rewrite joinCount_joined, set_mcastJoins_joined.
      rewrite <- (Z.add_opp_r (wrap32 _)), wrap32_add_l.
      f_equal. f_equal. f_equal. lia.
    + rewrite joinCount_joined. apply wrap32_nonzero. lia.
    + rewrite joinCount_joined. apply wrap32_not_one. lia.
Qed.

(** What [k] joins followed by [k] leaves do, for [1 <= k < 2^32]. *)
Lemma join_leave_roundtrip k :
  (1 <= k < 4294967296)%N ->
  exists nJ nL r,
    repeatCalls k (joinGroup (S fuel) proto addr) n = Returned None nJ
    /\ mu_endpoints nJ !! mkID addr = Some r
    /\ repeatCalls k (leaveGroup (S fuel) addr) nJ = Returned None nL
    /\ joinCount nL addr = 0%Z
    /\ mu_endpoints nL !! mkID addr = None
    /\ mu_endpoints nL = mu_endpoints n
    /\ mu_primary nL = mu_primary n.
Proof using Hcount Hnone Hproto Hnew Hid Hnot6.
  intros Hk.
  destruct (leaveGroup_last fuel n proto addr e Hnone Hid Hnot6)
    as (nL & HnL & Hcnt & Hend & Hprim).
  exists (joined n addr c (wrap32 (Z.of_N k))), nL, (fresh (liveLocs n)).
  split; [apply repeatCalls_joinGroup; lia|].
  split; [unfold joined, withNewEntry; cbn; by rewrite lookup_insert_eq|].
  split.
  { replace k with (N.succ (N.pred k)) at 1 by lia.
    rewrite repeatCalls_succ, repeatCalls_leaveGroup by lia.
    replace (Z.of_N k - Z.of_N (N.pred k))%Z with 1%Z by lia.
    exact HnL. }
  split; [done|]. split; [by rewrite Hend|]. by split.
Qed.

(** After [2^32] joins the [int32] count has wrapped round to zero, and the
    leaves that follow are refused while the entry stays in the table. *)
Lemma join_leave_overflow :
  exists nJ r,
    repeatCalls 4294967296 (joinGroup (S fuel) proto addr) n = Returned None nJ
    /\ repeatCalls 4294967296 (leaveGroup (S fuel) addr) nJ
       = Returned (Some ErrBadLocalAddress) nJ
    /\ mu_endpoints nJ !! mkID addr = Some r
    /\ getKind r nJ = permanent.
Proof using Hcount Hnone Hproto Hnew Hnot6.
  exists (joined n addr c (wrap32 (Z.of_N 4294967296))), (fresh (liveLocs n)).
  split; [apply repeatCalls_joinGroup; lia|].
  split.
  { apply repeatCalls_error; [lia|]. apply leaveGroup_none.
    by rewrite joinCount_joined. }
  split; [unfold joined, withNewEntry; cbn; by rewrite lookup_insert_eq|].
  unfold getKind, getCell, joined, withNewEntry. cbn.
  by rewrite lookup_total_insert_eq.
Qed.

End Group.

(** C8 (corrected).  Let [addr] be an address that is not an IPv6 unicast
    address, with join count zero and no entry in the table, whose protocol
    is registered and makes an endpoint for it.  For every [k] with
    [1 <= k < 2^32], [k] calls of [joinGroup] all return nil and leave an
    entry for [addr] in the table; the [k] calls of [leaveGroup] that follow
    all return nil, after which the join count is zero again and the table
    has no entry for [addr] (the table and the primary lists are as they
    were before the first join); one more [leaveGroup] returns
    [ErrBadLocalAddress] and changes nothing. *)
Theorem joinGroup_leaveGroup_roundtrip fuel n proto addr netProto e k :
  joinCount n addr = 0%Z ->
  mu_endpoints n !! mkID addr = None ->
  networkProtocols (stack n) !! proto = Some netProto ->
  NewEndpoint netProto (id n) (mkAWP addr (DefaultPrefixLen netProto)) = Ok e ->
  ep_ID e = mkID addr ->
  bool_decide (proto = IPv6ProtocolNumber) && IsV6UnicastAddress addr = false ->
  (1 <= k < 4294967296)%N ->
  exists nJ nL r,
    repeatCalls k (joinGroup (S fuel) proto addr) n = Returned None nJ
    /\ mu_endpoints nJ !! mkID addr = Some r
    /\ repeatCalls k (leaveGroup (S fuel) addr) nJ = Returned None nL
    /\ joinCount nL addr = 0%Z
    /\ mu_endpoints nL !! mkID addr = None
    /\ mu_endpoints nL = mu_endpoints n
    /\ mu_primary nL = mu_primary n
    /\ leaveGroup (S fuel) addr nL = Returned (Some ErrBadLocalAddress) nL.
Proof.
  intros Hcount Hnone Hproto Hnew Hid Hnot6 Hk.
  destruct (join_leave_roundtrip fuel n proto addr netProto e
              Hcount Hnone Hproto Hnew Hid Hnot6 k Hk)
    as (nJ & nL & r & HJ & Hr & HL & Hc & He & Hes & Hps).
  exists nJ, nL, r. repeat (split; [done|]).
  by apply leaveGroup_none.
Qed.

(** ** An entry that other operations leave alone *)

Section Isolated.

Variables (b : string) (r0 : loc) (c0 : referencedNetworkEndpoint).

Local Abbreviation Inv := (@isolated ndpState Subnet b r0 c0).

Lemma isolated_setCell m r c : r ≠ r0 -> Inv m -> Inv (setCell r c m).
Proof.
  intros Hne (H1 & H2 & H3 & H4). repeat split; try done.
  by rewrite getCell_setCell_ne.
Qed.

Lemma isolated_set_primary m p l : r0 ∉ l -> Inv m -> Inv (set_primary <[p := l]> m).
Proof.
  intros Hl (H1 & H2 & H3 & H4). repeat split; try done.
  intros q. cbn. destruct (decide (p = q)) as [->|Hne].
  - by rewrite lookup_total_insert_eq.
  - rewrite lookup_total_insert_ne by done. apply H3.
Qed.

Lemma isolated_set_mcastJoins m f : Inv m -> Inv (set_mcastJoins f m).
Proof. intros (H1 & H2 & H3 & H4). by repeat split. Qed.

Lemma isolated_emit m ev : Inv m -> Inv (emit ev m).
Proof. intros (H1 & H2 & H3 & H4). by repeat split. Qed.

Lemma isolated_set_enabled m v : Inv m -> Inv (set_enabled v m).
Proof. intros (H1 & H2 & H3 & H4). by repeat split. Qed.

Lemma isolated_insert_endpoint m a r :
  a ≠ b -> r ≠ r0 -> Inv m -> Inv (set_endpoints <[mkID a := r]> m).
Proof.
  intros Ha Hr (H1 & H2 & H3 & H4). repeat split; try done; cbn.
  - rewrite lookup_insert_ne; [done|]. intros [=]. done.
  - intros i Hi. destruct (decide (mkID a = i)) as [<-|Hne].
    + rewrite lookup_insert_eq in Hi. by simplify_eq.
    + rewrite lookup_insert_ne in Hi by done. by apply H4.
Qed.

Lemma isolated_delete_endpoint m i :
  i ≠ mkID b -> Inv m -> Inv (set_endpoints (delete i) m).
Proof.
  intros Hi (H1 & H2 & H3 & H4). repeat split; try done; cbn.
  - by rewrite lookup_delete_ne.
  - intros j Hj. apply lookup_delete_Some in Hj as [_ Hj]. by apply H4.
Qed.

Lemma isolated_fresh m : Inv m -> fresh (liveLocs m) ≠ r0.
Proof.
  intros (H1 & _) Heq. apply (fresh_not_endpoint m (mkID b)). by rewrite Heq.
Qed.

Lemma isolated_other m a r :
  Inv m -> mu_endpoints m !! mkID a = Some r -> a ≠ b -> r ≠ r0.
Proof.
  intros (H1 & H2 & H3 & H4) Ha Hab ->. apply H4 in Ha. by simplify_eq.
Qed.

Lemma shiftOut_subseteq k (arr : list loc) : shiftOut k arr ⊆ arr.
Proof.
  unfold shiftOut. intros x [Hx|[Hx|Hx]%elem_of_app]%elem_of_app.
  - by eapply subseteq_take.
  - by eapply subseteq_drop.
  - by eapply subseteq_drop.
Qed.

Lemma promoteScan_subseteq peb ref todo : forall i arr moved,
  (promoteScan peb ref i todo arr moved).1.2 ⊆ arr.
Proof.
  induction todo as [|todo IH]; intros i arr moved; cbn; [done|].
  case_decide.
  - destruct peb; cbn; [done| |apply shiftOut_subseteq].
    destruct (i =? 0)%nat; cbn; [done|].
    etrans; [apply IH|apply shiftOut_subseteq].
  - apply IH.
Qed.

Lemma insertPrimaryEndpointLocked_keeps m r peb :
  r ≠ r0 -> Inv m ->
  exists m', insertPrimaryEndpointLocked r peb m = Returned tt m' /\ Inv m'.
Proof.
  intros Hr HI. unfold insertPrimaryEndpointLocked, modify.
  eexists. split; [reflexivity|].
  pose proof HI as (_ & _ & H3 & _).
  destruct peb; [| |done]; apply isolated_set_primary; try done.
  - apply not_elem_of_app. split; [apply H3|].
    apply not_elem_of_cons. split; [congruence|apply not_elem_of_nil].
  - apply not_elem_of_cons. split; [congruence|apply H3].
Qed.

Lemma promoteLocked_keeps m ref peb ct dep :
  ref ≠ r0 -> Inv m ->
  exists m', promoteLocked ref peb ct dep m = Returned (Ok ref) m' /\ Inv m'.
Proof.
  intros Hr HI. unfold promoteLocked, bindM, setKind, modify, gets.
  set (m3 := setCell ref _ (setCell ref _ (setCell ref _ m))).
  assert (Inv m3) as HI3
    by (subst m3; repeat (apply isolated_setCell; [done|]); done).
  set (p := protocol (getCell ref m3)).
  pose proof (promoteScan_subseteq peb ref (length (mu_primary m3 !!! p)) 0
                (mu_primary m3 !!! p) false) as Hsub.
  destruct (promoteScan peb ref 0 (length (mu_primary m3 !!! p))
              (mu_primary m3 !!! p) false) as [[returned arr] moved].
  cbn in Hsub.
  assert (r0 ∉ arr) as Harr.
  { intros Hin. apply Hsub in Hin. destruct HI3 as (_ & _ & H3 & _).
    exact (H3 p Hin). }
  assert (forall m4, Inv m4 ->
            exists m',
              (if returned then ret (Ok ref)
               else insertPrimaryEndpointLocked ref peb ;;; ret (Ok ref)) m4
              = Returned (Ok ref) m' /\ Inv m') as Hrest.
  { intros m4 HI4. destruct returned.
    - exists m4. by split.
    - unfold bindM.
      destruct (insertPrimaryEndpointLocked_keeps m4 ref peb Hr HI4) as (m' & -> & HI').
      exists m'. by split. }
  destruct moved.
  - apply Hrest. apply isolated_set_primary; [|done].
    intros Hin. by apply subseteq_take in Hin.
  - by apply Hrest.
Qed.

Lemma removeEndpointLocked_keeps m ref :
  ref ≠ r0 -> kind (getCell ref m) ≠ permanent -> Inv m ->
  exists m', removeEndpointLocked ref m = Returned tt m' /\ Inv m'.
Proof.
  intros Hr Hk HI. unfold removeEndpointLocked.
  case_decide as Hin; [|by exists m].
  rewrite decide_False by done.
  eexists. split; [reflexivity|].
  apply isolated_emit.
  assert (ep_ID (ep (getCell ref m)) ≠ mkID b) as Hid.
  { intros Heq. rewrite Heq in Hin. destruct HI as (H1 & _). by simplify_eq. }
  pose proof (isolated_delete_endpoint m _ Hid HI) as HI1.
  destruct (list_find _ _) as [[i x]|]; [|done].
  apply isolated_set_primary; [|done].
  intros Hdel. destruct HI as (_ & _ & H3 & _).
  apply (H3 (protocol (getCell ref m))).
  rewrite delete_take_drop in Hdel.
  apply elem_of_app in Hdel as [Hdel|Hdel].
  - by eapply subseteq_take.
  - by eapply subseteq_drop.
Qed.

Hypothesis Hkind0 : kind c0 = permanent \/ kind c0 = permanentTentative.

Lemma addAddressLocked_fresh_keeps join m protocolAddress peb k ct dep :
  bool_decide (Protocol protocolAddress = IPv6ProtocolNumber)
    && IsV6UnicastAddress (Address (AddrWithPrefix protocolAddress)) = false ->
  Address (AddrWithPrefix protocolAddress) ≠ b ->
  Inv m ->
  exists x m',
    addAddressLocked_fresh join protocolAddress peb k ct dep m = Returned x m'
    /\ Inv m'.
Proof using Type.
  intros Hnot6 Hab HI. unfold addAddressLocked_fresh.
  destruct (networkProtocols (stack m) !! Protocol protocolAddress) as [netProto|];
    [|by exists (Err ErrUnknownProtocol), m].
  destruct (NewEndpoint netProto (id m) (AddrWithPrefix protocolAddress)) as [e|err];
    [|by exists (Err err), m].
  rewrite Hnot6. cbn [andb]. unfold bindM at 1. unfold newCell.
  set (r := fresh (liveLocs m)). set (m1 := setCell r _ m).
  assert (r ≠ r0) as Hr by (by apply isolated_fresh).
  assert (Inv m1) as HI1 by (by apply isolated_setCell).
  unfold bindM at 1. unfold ret at 1. unfold bindM at 1. unfold modify at 1.
  set (m2 := set_endpoints _ m1).
  assert (Inv m2) as HI2 by (by apply isolated_insert_endpoint).
  unfold bindM at 1.
  destruct (insertPrimaryEndpointLocked_keeps m2 r peb Hr HI2) as (m3 & -> & HI3).
  unfold bindM, gets, ret. by exists (Ok r), m3.
Qed.

Lemma addAddressLocked_keeps fuel m protocolAddress peb k ct dep :
  bool_decide (Protocol protocolAddress = IPv6ProtocolNumber)
    && IsV6UnicastAddress (Address (AddrWithPrefix protocolAddress)) = false ->
  Inv m ->
  exists x m',
    addAddressLocked (S fuel) protocolAddress peb k ct dep m = Returned x m'
    /\ Inv m'.
Proof using Hkind0.
  intros Hnot6 HI. cbn [addAddressLocked].
  pose proof HI as (Hb & Hc0 & _ & _).
  destruct (mu_endpoints m !! mkID (Address (AddrWithPrefix protocolAddress)))
    as [ref|] eqn:Hin.
  2:{ apply addAddressLocked_fresh_keeps; [done| |done].
      intros Heq. rewrite Heq in Hin. congruence. }
  unfold bindM at 1. unfold addAddressLocked_existing.
  destruct (decide (k = permanent)) as [->|Hk];
    [|by exists (Err ErrDuplicateAddress), m].
  unfold bindM at 1. unfold gets.
  destruct (getKind ref m) eqn:Hkd;
    try (by exists (Err ErrDuplicateAddress), m).
  all: assert (ref ≠ r0) as Hr
    by (intros ->; unfold getKind in Hkd; rewrite Hc0 in Hkd;
        destruct Hkind0; congruence).
  all: assert (Address (AddrWithPrefix protocolAddress) ≠ b) as Hab
    by (intros Heq; rewrite Heq in Hin; congruence).
  all: unfold bindM at 1; unfold tryIncRef;
    destruct (refs (getCell ref m) =? 0)%Z.
  all: try (unfold bindM at 1;
            destruct (removeEndpointLocked_keeps m ref Hr) as (m1 & -> & HI1);
            [unfold getKind in Hkd; by rewrite Hkd|done|];
            unfold ret;
            by apply addAddressLocked_fresh_keeps).
  all: unfold bindM;
    match goal with
    | |- context [promoteLocked _ _ _ _ ?m1] =>
        destruct (promoteLocked_keeps m1 ref peb ct dep Hr) as (m' & -> & HI');
        [by apply isolated_setCell|]
    end;
    by exists (Ok ref), m'.
Qed.

Lemma joinGroupLocked_keeps fuel m proto addr :
  bool_decide (proto = IPv6ProtocolNumber) && IsV6UnicastAddress addr = false ->
  Inv m ->
  exists x m', joinGroupLocked (S fuel) proto addr m = Returned x m' /\ Inv m'.
Proof using Hkind0.
  intros Hnot6 HI. unfold joinGroupLocked, joinGroupLocked_body.
  destruct (default 0%Z (mu_mcastJoins m !! mkID addr) =? 0)%Z.
  - destruct (networkProtocols (stack m) !! proto) as [netProto|].
    + unfold bindM at 1. unfold bindM at 1.
      destruct (addAddressLocked_keeps fuel m
                  (mkPA proto (mkAWP addr (DefaultPrefixLen netProto)))
                  NeverPrimaryEndpoint permanent static false Hnot6 HI)
        as (x & m' & -> & HI').
      destruct x as [r|err]; unfold ret, bindM, modify.
      * eexists _, _. split; [reflexivity|]. by apply isolated_set_mcastJoins.
      * by exists (Some err), m'.
    + by exists (Some ErrUnknownProtocol), m.
  - unfold bindM, ret, modify.
    eexists _, _. split; [reflexivity|]. by apply isolated_set_mcastJoins.
Qed.

Hypothesis Hdad : forall addr r m,
  r ≠ r0 -> Inv m -> Inv (startDuplicateAddressDetection addr r m).1.
Hypothesis Hnot6_0 : IsV6UnicastAddress (LocalAddress (ep_ID (ep c0))) = false.

Lemma enable_dadLoop_keeps rs : forall m,
  Inv m -> exists x m', enable_dadLoop rs m = Returned x m' /\ Inv m'.
Proof using Hdad Hnot6_0.
  induction rs as [|r rs IH]; intros m HI; cbn [enable_dadLoop].
  - by exists None, m.
  - destruct (decide (r = r0)) as [->|Hr].
    + pose proof HI as (_ & -> & _). rewrite Hnot6_0.
      rewrite orb_true_r. by apply IH.
    + destruct (_ || _); [by apply IH|].
      unfold bindM at 1. unfold setKind, modify. unfold bindM at 1. unfold liftNDP.
      set (m1 := setCell r _ m).
      assert (Inv m1) as HI1 by (by apply isolated_setCell).
      pose proof (Hdad (LocalAddress (ep_ID (ep (getCell r m)))) r m1 Hr HI1) as HI2.
      destruct (startDuplicateAddressDetection _ r m1) as [m2 [err|]]; cbn in *.
      * by exists (Some err), m2.
      * by apply IH.
Qed.

End Isolated.

(** ** Enabling the interface (C1) *)

Lemma isolated_withNewEntry n b c :
  isolated b (fresh (liveLocs n)) c (withNewEntry n b c).
Proof.
  unfold withNewEntry. repeat split.
  - cbn. by rewrite lookup_insert_eq.
  - unfold getCell. cbn. by rewrite lookup_total_insert_eq.
  - intros p. exact (fresh_not_primary n p).
  - intros i. cbn. destruct (decide (mkID b = i)) as [<-|Hne]; [done|].
    rewrite lookup_insert_ne by done. intros Hi. by apply fresh_not_endpoint in Hi.
Qed.

(** C1 (corrected).  On an interface that is not enabled, whose stack has
    IPv4 registered, whose table has no entry for 255.255.255.255 and whose
    IPv4 factory makes the endpoint it is asked for, [enable] returns and
    leaves in the table an entry for 255.255.255.255 that is [permanent],
    [static], not deprecated, in no primary list (NeverPrimaryEndpoint), and
    whose prefix length is 32 (8 bits for each of the 4 bytes of an IPv4
    address).  The IPv6 half of [enable] runs in between; it is assumed that
    255.255.255.255 and ff02::1 are not IPv6 unicast addresses and that the
    NDP methods leave other entries alone. *)
Theorem enable_adds_IPv4_broadcast fuel n p4 :
  mu_enabled n = false ->
  networkProtocols (stack n) !! IPv4ProtocolNumber = Some p4 ->
  mu_endpoints n !! mkID IPv4Broadcast = None ->
  NewEndpoint p4 (id n) (mkAWP IPv4Broadcast 32) = Ok (mkEP (mkID IPv4Broadcast) 32) ->
  IsV6UnicastAddress IPv4Broadcast = false ->
  IsV6UnicastAddress IPv6AllNodesMulticastAddress = false ->
  ndpKeeps IPv4Broadcast ->
  exists err n' r,
    enable (S fuel) n = Returned err n'
    /\ mu_endpoints n' !! mkID IPv4Broadcast = Some r
    /\ getCell r n'
       = mkRef (mkEP (mkID IPv4Broadcast) 32) IPv4ProtocolNumber
           (linkCacheFor n IPv4ProtocolNumber) 1 permanent static false
    /\ (forall p, r ∉ mu_primary n' !!! p).
Proof.
  intros Hdis Hp4 Hnone Hnew Hb6 Ha6 Hndp.
  unfold enable. rewrite Hdis.
  unfold bindM at 1. unfold modify at 1. unfold bindM at 1. unfold modify at 1.
  set (n0 := emit EvAttach (set_enabled true n)).
  set (c0 := mkRef (mkEP (mkID IPv4Broadcast) 32) IPv4ProtocolNumber
               (linkCacheFor n IPv4ProtocolNumber) 1 permanent static false).
  set (r0 := fresh (liveLocs n0)).
  destruct (Hndp r0 c0 eq_refl) as (Hdad & Hslaac & Hrs).
  assert (forall m, isolated IPv4Broadcast r0 c0 m ->
            forall err : option Error, exists err' n' r,
              @Returned ndpState Subnet (option Error) err m = Returned err' n'
              /\ mu_endpoints n' !! mkID IPv4Broadcast = Some r
              /\ getCell r n' = c0
              /\ (forall p, r ∉ mu_primary n' !!! p)) as Hdone.
  { intros m (H1 & H2 & H3 & _) err. by exists err, m, r0. }
  unfold bindM at 1.
  change (networkProtocols (stack n0)) with (networkProtocols (stack n)).
  rewrite Hp4. unfold bindM at 1.
  rewrite (addAddressLocked_new_never fuel n0 _ permanent static false p4
             (mkEP (mkID IPv4Broadcast) 32)); [|done|done|exact Hnew|].
  2:{ cbn [Address AddrWithPrefix]. rewrite Hb6. apply andb_false_r. }
  cbn [Address AddrWithPrefix Protocol].
  change (linkCacheFor n0 IPv4ProtocolNumber) with (linkCacheFor n IPv4ProtocolNumber).
  fold c0. unfold ret at 1. cbn [errOf].
  pose proof (isolated_withNewEntry n0 IPv4Broadcast c0) as HI1.
  fold r0 in HI1.
  set (n1 := withNewEntry n0 IPv4Broadcast c0) in *.
  destruct (networkProtocols (stack n1) !! IPv6ProtocolNumber); [|by apply Hdone].
  unfold bindM at 1.
  destruct (enable_dadLoop_keeps IPv4Broadcast r0 c0 Hdad Hb6
              (rangeOrder (mu_endpoints n1)).*2 n1 HI1) as (x & m2 & -> & HI2).
  destruct x as [err|]; [by apply Hdone|].
  unfold bindM at 1.
  destruct (joinGroupLocked_keeps IPv4Broadcast r0 c0 (or_introl eq_refl) fuel m2
              IPv6ProtocolNumber IPv6AllNodesMulticastAddress) as (x & m3 & -> & HI3);
    [by rewrite Ha6, andb_false_r|done|].
  destruct x as [err|]; [by apply Hdone|].
  unfold bindM at 1.
  set (m4 := if autoGenIPv6LinkLocal (stack m3) && negb (isLoopback m3)
             then doSLAAC IPv6LinkLocalSubnet NDPInfiniteLifetime NDPInfiniteLifetime m3
             else m3).
  assert (isolated IPv4Broadcast r0 c0 m4) as HI4.
  { subst m4. destruct (_ && _); [by apply Hslaac|done]. }
  assert ((if autoGenIPv6LinkLocal (stack m3) && negb (isLoopback m3)
           then Returned tt
                  (doSLAAC IPv6LinkLocalSubnet NDPInfiniteLifetime NDPInfiniteLifetime m3)
           else Returned tt m3) = Returned tt m4) as ->
    by (subst m4; by destruct (_ && _)).
  unfold bindM at 1.
  destruct (negb (forwarding (stack m4))); unfold ret; apply Hdone; [|done].
  by apply Hrs.
Qed.

End Proofs.

(** * The properties on concrete interfaces *)

Import Concrete.

Lemma concrete_ndpKeeps b : ndpKeeps b.
Proof.
  intros r0 c0 _. repeat split; intros; cbn;
    match goal with
    | H : isolated _ _ _ _ |- _ => destruct H as (? & ? & ? & ?)
    end; eauto.
Qed.

(** C1, witness: a new interface on a stack with IPv4 and IPv6. *)
Lemma enable_adds_IPv4_broadcast_witness :
  exists err n' r,
    enable 1 (newNIC stack46) = Returned err n'
    /\ mu_endpoints n' !! mkID IPv4Broadcast = Some r
    /\ getCell r n'
       = mkRef (mkEP (mkID IPv4Broadcast) 32) IPv4ProtocolNumber
           (linkCacheFor (newNIC stack46) IPv4ProtocolNumber) 1 permanent static false
    /\ (forall p, r ∉ mu_primary n' !!! p).
Proof.
  apply (enable_adds_IPv4_broadcast 0 (newNIC stack46) ipv4);
    [reflexivity|reflexivity|reflexivity|reflexivity|reflexivity|reflexivity|].
  apply concrete_ndpKeeps.
Defined.

(** C1, counterexample: after [enable] on a new interface of a stack with
    IPv4 and IPv6 (link-local addresses generated automatically, not a
    loopback), the entry of 255.255.255.255 has prefix length 32, not 8. *)
Lemma enable_broadcast_prefix_is_not_8 :
  exists n' r,
    enable 1 (newNIC stack46) = Returned None n'
    /\ mu_endpoints n' !! mkID IPv4Broadcast = Some r
    /\ ep_PrefixLen (ep (getCell r n')) = 32%Z
    /\ ep_PrefixLen (ep (getCell r n')) ≠ 8%Z
    /\ AllAddresses n'
       = [mkPA 2048 (mkAWP IPv4Broadcast 32);
          mkPA 34525 (mkAWP IPv6AllNodesMulticastAddress 128)].
Proof.
  eexists _, _. split; [vm_compute; reflexivity|].
  split; [vm_compute; reflexivity|].
  split; [vm_compute; reflexivity|].
  split; [by vm_compute|vm_compute; reflexivity].
Qed.

(** C2, the code at two inputs.  With [handleLocal] set on an interface that
    is not a loopback, the test [n.getRef(protocol, src) != nil] of
    [DeliverNetworkPacket] takes a reference that is never given back: a
    packet from the interface's own address 10.0.0.1 leaves that entry with
    two references instead of one.  On the same interface in promiscuous
    mode, a packet from the foreign address 10.0.0.2 to 10.0.0.1 makes the
    test create a temporary entry for 10.0.0.2, so the packet is counted as
    having an invalid source and is not handed to any endpoint; without
    promiscuous mode the same packet is delivered. *)
Theorem DeliverNetworkPacket_source_lookup_keeps_reference :
  (exists r,
     mu_endpoints nicLocal !! mkID (ip4 10 0 0 1) = Some r
     /\ refs (getCell r nicLocal) = 1%Z
     /\ exists n',
          DeliverNetworkPacket 1 (linkEP nicLocal) "peer" "" 2048
            (pkt4 (ip4 10 0 0 1) (ip4 10 0 0 2)) nicLocal
          = Returned tt n'
          /\ refs (getCell r n') = 2%Z
          /\ IP_InvalidSourceAddressesReceived (stackStats n') = 1%Z)
  /\ (mu_endpoints nicLocal !! mkID (ip4 10 0 0 2) = None
      /\ exists n' r',
           DeliverNetworkPacket 1 (linkEP nicLocal) "peer" "" 2048
             (pkt4 (ip4 10 0 0 2) (ip4 10 0 0 1)) (set_promiscuous true nicLocal)
           = Returned tt n'
           /\ mu_endpoints n' !! mkID (ip4 10 0 0 2) = Some r'
           /\ kind (getCell r' n') = temporary
           /\ refs (getCell r' n') = 1%Z
           /\ IP_InvalidSourceAddressesReceived (stackStats n') = 1%Z
           /\ trace n' = [])
  /\ (exists n' ev,
        DeliverNetworkPacket 1 (linkEP nicLocal) "peer" "" 2048
          (pkt4 (ip4 10 0 0 2) (ip4 10 0 0 1)) nicLocal
        = Returned tt n'
        /\ IP_InvalidSourceAddressesReceived (stackStats n') = 0%Z
        /\ trace n' = [EvHandlePacket ev (pkt4 (ip4 10 0 0 2) (ip4 10 0 0 1))]).
Proof.
  split; [|split].
  - eexists. split; [vm_compute; reflexivity|]. split; [vm_compute; reflexivity|].
    eexists. split; [vm_compute; reflexivity|]. split; vm_compute; reflexivity.
  - split; [vm_compute; reflexivity|].
    eexists _, _. split; [vm_compute; reflexivity|].
    repeat split; vm_compute; reflexivity.
  - eexists _, _. split; [vm_compute; reflexivity|].
    split; vm_compute; reflexivity.
Qed.

(** C3, witness: the temporary entry of 10.0.0.1 is promoted. *)
Lemma addAddressLocked_promotes_in_place_witness :
  exists n',
    addAddressLocked 1 (mkPA 2048 (mkAWP (ip4 10 0 0 1) 24)) FirstPrimaryEndpoint
      permanent slaac true nicTempThenB
    = Returned (Ok 0%nat) n'
    /\ mu_endpoints n' = mu_endpoints nicTempThenB
    /\ getCell 0%nat n'
       = mkRef (ep (getCell 0%nat nicTempThenB)) (protocol (getCell 0%nat nicTempThenB))
           (linkCache (getCell 0%nat nicTempThenB))
           (wrap32 (refs (getCell 0%nat nicTempThenB) + 1)) permanent slaac true
    /\ (forall r, r ≠ 0%nat -> getCell r n' = getCell r nicTempThenB)
    /\ mu_primary n' !!! protocol (getCell 0%nat nicTempThenB)
       = 0%nat :: without 0%nat
                    (mu_primary nicTempThenB !!! protocol (getCell 0%nat nicTempThenB))
    /\ (forall q, q ≠ protocol (getCell 0%nat nicTempThenB) ->
          mu_primary n' !! q = mu_primary nicTempThenB !! q)
    /\ otherFields n' = otherFields nicTempThenB.
Proof.
  apply (addAddressLocked_promotes_in_place 0 nicTempThenB
           (mkPA 2048 (mkAWP (ip4 10 0 0 1) 24)) FirstPrimaryEndpoint slaac true 0%nat).
  - vm_compute. reflexivity.
  - left. vm_compute. reflexivity.
  - vm_compute. discriminate.
  - apply (bool_decide_unpack _). vm_compute. exact I.
Defined.

(** C3, counterexample.  10.0.0.1 has a temporary entry at the head of the
    primary list, before 10.0.0.2.  Adding it as a permanent
    [CanBePrimaryEndpoint] address promotes the entry where it stands, at the
    head; a fresh Add into the table that has only 10.0.0.2 puts it at the
    tail. *)
Lemma promotion_keeps_position_not_tail :
  primaryAddrs nicTempThenB 2048 = [ip4 10 0 0 1; ip4 10 0 0 2]
  /\ kind (getCell 0%nat nicTempThenB) = temporary
  /\ (exists n1,
        addAddressLocked 1 (mkPA 2048 (mkAWP (ip4 10 0 0 1) 24)) CanBePrimaryEndpoint
          permanent static false nicTempThenB
        = Returned (Ok 0%nat) n1
        /\ primaryAddrs n1 2048 = [ip4 10 0 0 1; ip4 10 0 0 2])
  /\ (exists n2 r,
        mu_endpoints nicOnlyB !! mkID (ip4 10 0 0 1) = None
        /\ addAddressLocked 1 (mkPA 2048 (mkAWP (ip4 10 0 0 1) 24)) CanBePrimaryEndpoint
             permanent static false nicOnlyB
           = Returned (Ok r) n2
        /\ primaryAddrs n2 2048 = [ip4 10 0 0 2; ip4 10 0 0 1]).
Proof.
  split; [vm_compute; reflexivity|]. split; [vm_compute; reflexivity|]. split.
  - eexists. split; vm_compute; reflexivity.
  - eexists _, _. split; [vm_compute; reflexivity|]. split; vm_compute; reflexivity.
Qed.

(** C4, witness: 10.0.0.2 is already a permanent address. *)
Lemma addAddressLocked_duplicate_witness :
  addAddressLocked 1 (mkPA 2048 (mkAWP (ip4 10 0 0 2) 24)) CanBePrimaryEndpoint
    permanent static false nicTempThenB
  = Returned (Err ErrDuplicateAddress) nicTempThenB.
Proof.
  apply (addAddressLocked_duplicate 0 nicTempThenB
           (mkPA 2048 (mkAWP (ip4 10 0 0 2) 24)) CanBePrimaryEndpoint
           permanent static false 1%nat).
  - vm_compute. reflexivity.
  - right. left. vm_compute. reflexivity.
Defined.

(** C5, witness: the three addresses were added in the order of the
    scenario; the cells are 0, 2 and 4 (1, 3 and 5 back their solicited-node
    groups). *)
Lemma primaryIPv6Endpoint_selects_global_non_deprecated_witness :
  primaryAddrs nicV6 34525 = [fe80_1; db8 2; db8 3]
  /\ primaryIPv6Endpoint (db8 1) nicV6
     = Returned (Some 4%nat)
         (setCell 4%nat
            (with_refs (wrap32 (refs (getCell 4%nat nicV6) + 1)) (getCell 4%nat nicV6))
            nicV6).
Proof.
  split; [vm_compute; reflexivity|].
  apply (proj1 primaryIPv6Endpoint_selects_global_non_deprecated
           nicV6 0%nat 2%nat 4%nat LinkLocalScope GlobalScope);
    try (vm_compute; reflexivity).
Defined.

(** C7, witness: a packet for a new (disabled) interface. *)
Lemma DeliverNetworkPacket_disabled_witness :
  exists n',
    DeliverNetworkPacket 1 (linkEP (newNIC stack46)) "peer" "" 2048
      (pkt4 (ip4 10 0 0 2) (ip4 10 0 0 1)) (newNIC stack46)
    = Returned tt n'
    /\ Packets (DisabledRx (stats n'))
       = wrap64 (Packets (DisabledRx (stats (newNIC stack46))) + 1)
    /\ Bytes (DisabledRx (stats n'))
       = wrap64 (Bytes (DisabledRx (stats (newNIC stack46)))
                 + wrap64 (Data_Size (pkt4 (ip4 10 0 0 2) (ip4 10 0 0 1))))
    /\ Rx (stats n') = Rx (stats (newNIC stack46))
    /\ Tx (stats n') = Tx (stats (newNIC stack46))
    /\ trace n' = trace (newNIC stack46)
    /\ stackStats n' = stackStats (newNIC stack46)
    /\ n' = set_stats (fun _ => stats n') (newNIC stack46).
Proof.
  apply (DeliverNetworkPacket_disabled 1 (newNIC stack46)). reflexivity.
Defined.

(** C8, witness: three joins and three leaves of 224.0.0.1. *)
Lemma joinGroup_leaveGroup_roundtrip_witness :
  exists nJ nL r,
    repeatCalls 3 (joinGroup 1 2048 (ip4 224 0 0 1)) (newNIC (stack4 false))
    = Returned None nJ
    /\ mu_endpoints nJ !! mkID (ip4 224 0 0 1) = Some r
    /\ repeatCalls 3 (leaveGroup 1 (ip4 224 0 0 1)) nJ = Returned None nL
    /\ joinCount nL (ip4 224 0 0 1) = 0%Z
    /\ mu_endpoints nL !! mkID (ip4 224 0 0 1) = None
    /\ mu_endpoints nL = mu_endpoints (newNIC (stack4 false))
    /\ mu_primary nL = mu_primary (newNIC (stack4 false))
    /\ leaveGroup 1 (ip4 224 0 0 1) nL = Returned (Some ErrBadLocalAddress) nL.
Proof.
  apply (joinGroup_leaveGroup_roundtrip 0 (newNIC (stack4 false)) 2048 (ip4 224 0 0 1)
           ipv4 (mkEP (mkID (ip4 224 0 0 1)) 32) 3);
    [reflexivity|reflexivity|reflexivity|reflexivity|reflexivity|reflexivity|lia].
Defined.

(** C8, counterexample: with [2^32] joins of 224.0.0.1 the [int32] count is
    back at zero after the last join, so the first of the [2^32] leaves
    returns [ErrBadLocalAddress] and the entry stays in the table, still
    [permanent]. *)
Lemma joinGroup_count_wraps_at_2_32 :
  exists nJ r,
    repeatCalls 4294967296 (joinGroup 1 2048 (ip4 224 0 0 1)) (newNIC (stack4 false))
    = Returned None nJ
    /\ repeatCalls 4294967296 (leaveGroup 1 (ip4 224 0 0 1)) nJ
       = Returned (Some ErrBadLocalAddress) nJ
    /\ mu_endpoints nJ !! mkID (ip4 224 0 0 1) = Some r
    /\ getKind r nJ = permanent.
Proof.
  apply (join_leave_overflow 0 (newNIC (stack4 false)) 2048 (ip4 224 0 0 1)
           ipv4 (mkEP (mkID (ip4 224 0 0 1)) 32)); reflexivity.
Qed.

(** C9, witness: the cell of the permanent address 10.0.0.1, which the table
    still maps to it, cannot be removed. *)
Lemma removeEndpointLocked_cases_witness :
  exists msg, removeEndpointLocked 0%nat nicLocal = Panicked msg.
Proof.
  apply (proj1 (proj2 (removeEndpointLocked_cases nicLocal 0%nat)));
    vm_compute; reflexivity.
Defined.

(** C10, witness: fe80::1 is tentative on an enabled promiscuous interface,
    and a packet from fe80::2 to fe80::1 reaches its endpoint. *)
Lemma tentative_entry_is_returned_and_receives_witness :
  isAddrTentative fe80_1 nicTentative = true
  /\ exists n',
       DeliverNetworkPacket 2 (linkEP nicTentative) "peer" "" 34525
         (pkt6 (bytes ([254; 128] ++ repeat 0 13 ++ [2])%N) fe80_1) nicTentative
       = Returned tt n'
       /\ EvHandlePacket
            (mkRoute 34525
               (ParseAddresses ipv6
                  (Data_First (pkt6 (bytes ([254; 128] ++ repeat 0 13 ++ [2])%N) fe80_1))).2
               (ParseAddresses ipv6
                  (Data_First (pkt6 (bytes ([254; 128] ++ repeat 0 13 ++ [2])%N) fe80_1))).1
               (LinkAddress (linkEP nicTentative)) "peer" 2%nat)
            (pkt6 (bytes ([254; 128] ++ repeat 0 13 ++ [2])%N) fe80_1)
          ∈ trace n'.
Proof.
  split; [vm_compute; reflexivity|].
  apply (proj2 tentative_entry_is_returned_and_receives 2 nicTentative
           (linkEP nicTentative) "peer" "" 34525%N ipv6
           (pkt6 (bytes ([254; 128] ++ repeat 0 13 ++ [2])%N) fe80_1) 2%nat);
    try (vm_compute; reflexivity).
  vm_compute. discriminate.
Defined.

Section Addresses.

Context {ndpState Subnet : Type} `{!Externals ndpState Subnet}.

Implicit Types (n : NIC ndpState Subnet) (r ref : loc).
Implicit Types (c : referencedNetworkEndpoint).

(** ** Adding and removing an address *)

Lemma dropFirst_notin r (l : list loc) : r ∉ l -> dropFirst r l = l.
Proof. intros Hnot. unfold dropFirst. by rewrite list_find_notin. Qed.

Lemma dropFirst_cons r (l : list loc) : dropFirst r (r :: l) = l.
Proof. unfold dropFirst. cbn. by rewrite decide_True. Qed.

Lemma dropFirst_snoc r (l : list loc) : r ∉ l -> dropFirst r (l ++ [r]) = l.
Proof.
  intros Hnot. unfold dropFirst.
  rewrite list_find_app_r by by apply list_find_notin.
  cbn. rewrite decide_True by done. cbn.
  induction l as [|x l IH]; [done|].
  apply not_elem_of_cons in Hnot as [_ Hl]. cbn. f_equal. by apply IH.
Qed.

Lemma dropFirst_listed peb r (l : list loc) :
  r ∉ l -> dropFirst r (listed peb r l) = l.
Proof.
  intros Hnot. destruct peb; cbn.
  - by apply dropFirst_snoc.
  - apply dropFirst_cons.
  - by apply dropFirst_notin.
Qed.

Lemma addAddressLocked_new fuel n protocolAddress peb k ct dep netProto e :
  mu_endpoints n !! mkID (Address (AddrWithPrefix protocolAddress)) = None ->
  networkProtocols (stack n) !! Protocol protocolAddress = Some netProto ->
  NewEndpoint netProto (id n) (AddrWithPrefix protocolAddress) = Ok e ->
  isIPv6Unicast (Protocol protocolAddress) (Address (AddrWithPrefix protocolAddress))
  = false ->
  addAddressLocked (S fuel) protocolAddress peb k ct dep n
  = Returned (Ok (fresh (liveLocs n)))
      (withPrimary peb (Protocol protocolAddress) (fresh (liveLocs n))
         (withNewEntry n (Address (AddrWithPrefix protocolAddress))
            (mkRef e (Protocol protocolAddress)
               (linkCacheFor n (Protocol protocolAddress)) 1 k ct dep))).
Proof.
  intros Hnone Hproto Hnew Hnot6. unfold isIPv6Unicast in Hnot6.
  cbn [addAddressLocked]. rewrite Hnone.
  unfold addAddressLocked_fresh. rewrite Hproto, Hnew, Hnot6.
  unfold bindM, newCell, ret, modify, gets, insertPrimaryEndpointLocked.
  cbn [andb]. unfold modify.
  match goal with
  | |- context [protocol (getCell ?r ?m)] =>
      replace (protocol (getCell r m)) with (Protocol protocolAddress)
        by (unfold getCell; cbn; by rewrite lookup_total_insert_eq)
  end.
  by destruct peb.
Qed.


Lemma added_fields n peb p addr c n' :
  protocol c = p ->
  n' = withPrimary peb p (fresh (liveLocs n)) (withNewEntry n addr c) ->
  mu_endpoints n' = <[mkID addr := fresh (liveLocs n)]> (mu_endpoints n)
  /\ cells n' = <[fresh (liveLocs n) := c]> (cells n)
  /\ (forall q, mu_primary n' !!! q
                = if decide (q = p)
                  then listed peb (fresh (liveLocs n)) (mu_primary n !!! q)
                  else mu_primary n !!! q)
  /\ settings n' = settings n
  /\ trace n' = trace n.
Proof.
  intros Hp ->. repeat split.
  - by destruct peb.
  - by destruct peb.
  - intros q. destruct (decide (q = p)) as [->|Hq].
    + destruct peb; cbn; by rewrite ?lookup_total_insert_eq.
    + destruct peb; cbn; by rewrite ?lookup_total_insert_ne.
  - by destruct peb.
  - by destruct peb.
Qed.

Lemma removeEndpointLocked_mapped n r :
  mu_endpoints n !! ep_ID (ep (getCell r n)) = Some r ->
  kind (getCell r n) ≠ permanent ->
  exists n',
    removeEndpointLocked r n = Returned tt n'
    /\ mu_endpoints n' = delete (ep_ID (ep (getCell r n))) (mu_endpoints n)
    /\ cells n' = cells n
    /\ trace n' = EvClose (ep (getCell r n)) :: trace n
    /\ (forall p, mu_primary n' !!! p
                  = if decide (p = protocol (getCell r n))
                    then dropFirst r (mu_primary n !!! p)
                    else mu_primary n !!! p)
    /\ settings n' = settings n.
Proof.
  intros Hin Hk. unfold removeEndpointLocked.
  rewrite decide_True by done. rewrite decide_False by done.
  eexists. split; [reflexivity|]. cbn [mu_primary set_endpoints].
  unfold dropFirst.
  destruct (list_find _ _) as [[i x]|] eqn:Hfind; repeat split; intros p;
    destruct (decide (p = protocol (getCell r n))) as [->|Hp]; cbn;
    rewrite ?lookup_total_insert_eq, ?lookup_total_insert_ne by done;
    try done; by rewrite Hfind.
Qed.

Lemma decRefLocked_last n r :
  wrap32 (refs (getCell r n) - 1) = 0%Z ->
  decRefLocked r n
  = (removeEndpointLocked r ;;; ret true) (setCell r (with_refs 0 (getCell r n)) n).
Proof. intros Hz. unfold decRefLocked. by rewrite Hz. Qed.

Lemma decRefLocked_more n r :
  wrap32 (refs (getCell r n) - 1) ≠ 0%Z ->
  decRefLocked r n
  = Returned false
      (setCell r (with_refs (wrap32 (refs (getCell r n) - 1)) (getCell r n)) n).
Proof.
  intros Hz. unfold decRefLocked.
  by destruct (Z.eqb_spec (wrap32 (refs (getCell r n) - 1)) 0).
Qed.

Lemma removePermanentAddressLocked_plain fuel n addr r :
  mu_endpoints n !! mkID addr = Some r ->
  getKind r n = permanent \/ getKind r n = permanentTentative ->
  isIPv6Unicast (protocol (getCell r n)) addr = false ->
  removePermanentAddressLocked (S fuel) addr n
  = (decRefLocked r ;;; ret None)
      (setCell r (with_kind permanentExpired (getCell r n)) n).
Proof.
  intros Hin Hk Hnot6. unfold isIPv6Unicast in Hnot6.
  cbn [removePermanentAddressLocked]. rewrite Hin, Hnot6.
  assert (negb (bool_decide (getKind r n = permanent))
          && negb (bool_decide (getKind r n = permanentTentative)) = false) as ->.
  { destruct Hk as [-> | ->]; reflexivity. }
  unfold bindM, ret, setKind, modify.
  by destruct (decRefLocked r _) as [[] ?| |].
Qed.


Lemma AllAddresses_elem n a r :
  mu_endpoints n !! mkID a = Some r ->
  getKind r n = permanent \/ getKind r n = permanentTentative ->
  mkPA (protocol (getCell r n)) (mkAWP a (ep_PrefixLen (ep (getCell r n))))
  ∈ AllAddresses n.
Proof.
  intros Hin Hk. unfold AllAddresses. apply list_elem_of_omap.
  exists (mkID a, r). split; [by apply elem_of_rangeOrder|].
  by destruct Hk as [-> | ->].
Qed.

Lemma AddAddress_permanent_again fuel n protocolAddress peb r :
  mu_endpoints n !! mkID (Address (AddrWithPrefix protocolAddress)) = Some r ->
  getKind r n = permanent \/ getKind r n = permanentTentative ->
  AddAddress (S fuel) protocolAddress peb n = Returned (Some ErrDuplicateAddress) n.
Proof.
  intros Hin Hk. unfold AddAddress, bindM. cbn [addAddressLocked]. rewrite Hin.
  unfold bindM, addAddressLocked_existing. rewrite decide_True by done.
  unfold bindM, gets. by destruct Hk as [-> | ->].
Qed.

(** X3.  [AddAddress] of an address that is not in the table, for a
    registered protocol whose factory makes the endpoint (and which is not an
    IPv6 unicast address, for which see below), returns nil.  The table then
    maps the address to a new cell: permanent, static, not deprecated, with
    one reference; the cell is in the primary list of its protocol where
    [peb] asks (tail, head or not at all); no other cell, list or setting
    changes and no collaborator is called.  [AllAddresses] lists the address
    with the prefix length its endpoint reports, and adding it once more
    fails with [ErrDuplicateAddress]. *)
Theorem AddAddress_new fuel n protocolAddress peb netProto e :
  mu_endpoints n !! mkID (Address (AddrWithPrefix protocolAddress)) = None ->
  networkProtocols (stack n) !! Protocol protocolAddress = Some netProto ->
  NewEndpoint netProto (id n) (AddrWithPrefix protocolAddress) = Ok e ->
  isIPv6Unicast (Protocol protocolAddress) (Address (AddrWithPrefix protocolAddress))
  = false ->
  exists n',
    AddAddress (S fuel) protocolAddress peb n = Returned None n'
    /\ mu_endpoints n'
       = <[mkID (Address (AddrWithPrefix protocolAddress)) := fresh (liveLocs n)]>
           (mu_endpoints n)
    /\ (fresh (liveLocs n) ∉ liveLocs n)
    /\ getCell (fresh (liveLocs n)) n'
       = mkRef e (Protocol protocolAddress) (linkCacheFor n (Protocol protocolAddress))
           1 permanent static false
    /\ (forall r, r ≠ fresh (liveLocs n) -> getCell r n' = getCell r n)
    /\ mu_primary n' !!! (Protocol protocolAddress)
       = listed peb (fresh (liveLocs n)) (mu_primary n !!! (Protocol protocolAddress))
    /\ (forall p, p ≠ Protocol protocolAddress ->
          mu_primary n' !!! p = mu_primary n !!! p)
    /\ settings n' = settings n
    /\ trace n' = trace n
    /\ mkPA (Protocol protocolAddress)
         (mkAWP (Address (AddrWithPrefix protocolAddress)) (ep_PrefixLen e))
       ∈ AllAddresses n'
    /\ AddAddress (S fuel) protocolAddress peb n'
       = Returned (Some ErrDuplicateAddress) n'.
Proof.
  intros Hnone Hproto Hnew Hnot6.
  set (addr := Address (AddrWithPrefix protocolAddress)) in *.
  set (r := fresh (liveLocs n)).
  set (c := mkRef e (Protocol protocolAddress)
              (linkCacheFor n (Protocol protocolAddress)) 1 permanent static false).
  set (n' := withPrimary peb (Protocol protocolAddress) r (withNewEntry n addr c)).
  destruct (added_fields n peb (Protocol protocolAddress) addr c n' eq_refl eq_refl)
    as (Hend & Hcells & Hprim & Hset & Htr).
  assert (Hc : getCell r n' = c).
  { unfold getCell. rewrite Hcells. apply lookup_total_insert_eq. }
  assert (Hin : mu_endpoints n' !! mkID addr = Some r).
  { rewrite Hend. apply lookup_insert_eq. }
  exists n'. split.
  { unfold AddAddress, bindM.
    by rewrite (addAddressLocked_new fuel n _ peb permanent static false netProto e). }
  split; [done|]. split; [apply is_fresh|]. split; [done|]. split.
  { intros r' Hr'. unfold getCell. rewrite Hcells. by apply lookup_total_insert_ne. }
  split; [by rewrite Hprim, decide_True|]. split.
  { intros p Hp. by rewrite Hprim, decide_False. }
  split; [done|]. split; [done|]. split.
  - pose proof (AllAddresses_elem n' addr r Hin) as Hall.
    unfold getKind in Hall. rewrite Hc in Hall. apply Hall. by left.
  - apply (AddAddress_permanent_again fuel n' protocolAddress peb r Hin).
    left. unfold getKind. by rewrite Hc.
Qed.

(** X4.  [AddAddress] of an address that is not in the table fails with
    [ErrUnknownProtocol] when the protocol is not registered, and with the
    factory's error when the protocol cannot make the endpoint; in both
    cases the interface is exactly as before. *)
Theorem AddAddress_failure_changes_nothing fuel n protocolAddress peb :
  mu_endpoints n !! mkID (Address (AddrWithPrefix protocolAddress)) = None ->
  (networkProtocols (stack n) !! Protocol protocolAddress = None ->
   AddAddress (S fuel) protocolAddress peb n = Returned (Some ErrUnknownProtocol) n)
  /\ (forall netProto err,
        networkProtocols (stack n) !! Protocol protocolAddress = Some netProto ->
        NewEndpoint netProto (id n) (AddrWithPrefix protocolAddress) = Err err ->
        AddAddress (S fuel) protocolAddress peb n = Returned (Some err) n).
Proof.
  intros Hnone. split.
  - intros Hproto. unfold AddAddress, bindM. cbn [addAddressLocked]. rewrite Hnone.
    unfold addAddressLocked_fresh. by rewrite Hproto.
  - intros netProto err Hproto Hnew. unfold AddAddress, bindM.
    cbn [addAddressLocked]. rewrite Hnone.
    unfold addAddressLocked_fresh. by rewrite Hproto, Hnew.
Qed.


Lemma AllAddresses_ext n n' :
  mu_endpoints n' = mu_endpoints n ->
  (forall i r, mu_endpoints n !! i = Some r -> getCell r n' = getCell r n) ->
  AllAddresses n' = AllAddresses n.
Proof.
  intros Hend Hcells. unfold AllAddresses. rewrite Hend.
  apply list_omap_ext, Forall_Forall2_diag, Forall_forall.
  intros [nid ref] Hin%elem_of_rangeOrder. unfold getKind.
  by rewrite (Hcells nid ref Hin).
Qed.

(** X5.  An address that is added and then removed (nobody took a
    reference in between) leaves the address table, every primary list,
    every other cell and every setting as they were; [AllAddresses] answers
    as before, and the endpoint made for the address has been closed.  This
    needs the endpoint to report the address it was made for: removal looks
    the table up under the endpoint's own identifier. *)
Theorem AddAddress_RemoveAddress_roundtrip fuel fuel' n protocolAddress peb netProto e :
  mu_endpoints n !! mkID (Address (AddrWithPrefix protocolAddress)) = None ->
  networkProtocols (stack n) !! Protocol protocolAddress = Some netProto ->
  NewEndpoint netProto (id n) (AddrWithPrefix protocolAddress) = Ok e ->
  ep_ID e = mkID (Address (AddrWithPrefix protocolAddress)) ->
  isIPv6Unicast (Protocol protocolAddress) (Address (AddrWithPrefix protocolAddress))
  = false ->
  exists n1 n2,
    AddAddress (S fuel) protocolAddress peb n = Returned None n1
    /\ RemoveAddress (S fuel') (Address (AddrWithPrefix protocolAddress)) n1
       = Returned None n2
    /\ mu_endpoints n2 = mu_endpoints n
    /\ (forall p, mu_primary n2 !!! p = mu_primary n !!! p)
    /\ (forall r, r ≠ fresh (liveLocs n) -> getCell r n2 = getCell r n)
    /\ settings n2 = settings n
    /\ trace n2 = EvClose e :: trace n
    /\ AllAddresses n2 = AllAddresses n.
Proof.
  intros Hnone Hproto Hnew Hid Hnot6.
  set (addr := Address (AddrWithPrefix protocolAddress)) in *.
  set (r := fresh (liveLocs n)).
  set (c := mkRef e (Protocol protocolAddress)
              (linkCacheFor n (Protocol protocolAddress)) 1 permanent static false).
  set (n1 := withPrimary peb (Protocol protocolAddress) r (withNewEntry n addr c)).
  destruct (added_fields n peb (Protocol protocolAddress) addr c n1 eq_refl eq_refl)
    as (Hend & Hcells & Hprim & Hset & Htr).
  assert (Hc : getCell r n1 = c).
  { unfold getCell. rewrite Hcells. apply lookup_total_insert_eq. }
  assert (Hin : mu_endpoints n1 !! mkID addr = Some r).
  { rewrite Hend. apply lookup_insert_eq. }
  set (s1 := setCell r (with_kind permanentExpired c) n1).
  set (s2 := setCell r (with_refs 0 (with_kind permanentExpired c)) s1).
  assert (Hc2 : getCell r s2 = with_refs 0 (with_kind permanentExpired c))
    by apply getCell_setCell_eq.
  destruct (removeEndpointLocked_mapped s2 r) as (n2 & Hrem & Hend2 & Hcells2 & Htr2 & Hprim2 & Hset2).
  { by rewrite Hc2; cbn; rewrite Hid. }
  { by rewrite Hc2. }
  rewrite Hc2 in Hend2, Htr2, Hprim2. cbn in Hend2, Htr2, Hprim2.
  exists n1, n2. split.
  { unfold AddAddress, bindM.
    by rewrite (addAddressLocked_new fuel n _ peb permanent static false netProto e). }
  split.
  { unfold RemoveAddress.
    rewrite (removePermanentAddressLocked_plain fuel' n1 addr r Hin);
      [|left; unfold getKind; by rewrite Hc|by rewrite Hc].
    rewrite Hc. fold s1. unfold bindM at 1.
    rewrite decRefLocked_last; unfold s1; rewrite getCell_setCell_eq; [|done].
    fold s1. fold s2. unfold bindM. by rewrite Hrem. }
  split.
  { rewrite Hend2, Hid, Hend. by apply delete_insert_id. }
  split.
  { intros p. rewrite Hprim2. change (mu_primary s2) with (mu_primary n1).
    rewrite !Hprim. destruct (decide (p = Protocol protocolAddress)) as [->|Hp]; [|done].
    apply dropFirst_listed, fresh_not_primary. }
  assert (Hother : forall r', r' ≠ r -> getCell r' n2 = getCell r' n).
  { intros r' Hr'. unfold getCell. rewrite Hcells2. cbn.
    rewrite !lookup_total_insert_ne by done. rewrite Hcells.
    by rewrite lookup_total_insert_ne. }
  split; [done|]. split; [rewrite Hset2; exact Hset|].
  split; [rewrite Htr2; f_equal; exact Htr|].
  apply AllAddresses_ext.
  - rewrite Hend2, Hid, Hend. by apply delete_insert_id.
  - intros i r' Hi. apply Hother. intros ->. by apply (fresh_not_endpoint n i).
Qed.

(** X6.  [RemoveAddress] of an address for which [hasPermanentAddrLocked]
    is false (no entry, or an entry that is temporary or already expired)
    returns [ErrBadLocalAddress] and changes nothing. *)
Theorem RemoveAddress_needs_permanent fuel n addr :
  hasPermanentAddrLocked addr n = false ->
  RemoveAddress (S fuel) addr n = Returned (Some ErrBadLocalAddress) n.
Proof.
  unfold hasPermanentAddrLocked, RemoveAddress. cbn [removePermanentAddressLocked].
  destruct (mu_endpoints n !! mkID addr) as [r|]; [|done].
  intros [Hp Ht]%orb_false_elim. by rewrite Hp, Ht.
Qed.


Lemma removePermanentAddressLocked_expires fuel n addr r :
  mu_endpoints n !! mkID addr = Some r ->
  getKind r n = permanent \/ getKind r n = permanentTentative ->
  isIPv6Unicast (protocol (getCell r n)) addr = false ->
  exists n1,
    removePermanentAddressLocked (S fuel) addr n = Returned None n1
    /\ forall r', mu_endpoints n1 !! mkID addr = Some r' ->
                  getKind r' n1 = permanentExpired.
Proof.
  intros Hin Hk Hnot6.
  rewrite (removePermanentAddressLocked_plain fuel n addr r Hin Hk Hnot6).
  set (c1 := with_kind permanentExpired (getCell r n)).
  set (s1 := setCell r c1 n).
  assert (Hc1 : getCell r s1 = c1) by apply getCell_setCell_eq.
  unfold bindM at 1.
  destruct (decide (wrap32 (refs (getCell r s1) - 1) = 0%Z)) as [Hz|Hnz].
  - rewrite decRefLocked_last by done.
    set (s2 := setCell r (with_refs 0 (getCell r s1)) s1).
    assert (Hc2 : getCell r s2 = with_refs 0 c1).
    { unfold s2. by rewrite getCell_setCell_eq, Hc1. }
    assert (Hk2 : getKind r s2 = permanentExpired).
    { unfold getKind. by rewrite Hc2. }
    unfold bindM, ret.
    destruct (decide (mu_endpoints s2 !! ep_ID (ep (getCell r s2)) = Some r))
      as [Hm|Hm].
    + destruct (removeEndpointLocked_mapped s2 r Hm)
        as (n1 & -> & Hend & Hcells & _).
      { unfold getKind in Hk2. by rewrite Hk2. }
      exists n1. split; [done|]. intros r' Hr'.
      rewrite Hend in Hr'. apply lookup_delete_Some in Hr' as [_ Hr'].
      change (mu_endpoints s2) with (mu_endpoints n) in Hr'.
      assert (r' = r) as -> by congruence.
      unfold getKind, getCell. rewrite Hcells. exact Hk2.
    + unfold removeEndpointLocked. rewrite decide_False by done.
      exists s2. split; [done|]. intros r' Hr'.
      change (mu_endpoints s2) with (mu_endpoints n) in Hr'.
      assert (r' = r) as -> by congruence. exact Hk2.
  - rewrite decRefLocked_more by done. unfold ret.
    eexists. split; [reflexivity|]. intros r' Hr'.
    change (mu_endpoints n !! mkID addr = Some r') in Hr'.
    assert (r' = r) as -> by congruence.
    unfold getKind. by rewrite getCell_setCell_eq, Hc1.
Qed.

(** X7.  [RemoveAddress] of a permanent (or tentative) address that is
    not an IPv6 unicast address always returns nil, whatever the reference
    count is.  From then on [hasPermanentAddrLocked] is false for the
    address, [AllAddresses] has no entry for it (even while references keep
    the cell in the table), and removing it once more fails with
    [ErrBadLocalAddress]. *)
Theorem RemoveAddress_hides_address fuel fuel' n addr r :
  mu_endpoints n !! mkID addr = Some r ->
  hasPermanentAddrLocked addr n = true ->
  isIPv6Unicast (protocol (getCell r n)) addr = false ->
  exists n1,
    RemoveAddress (S fuel) addr n = Returned None n1
    /\ hasPermanentAddrLocked addr n1 = false
    /\ (forall pa, pa ∈ AllAddresses n1 -> Address (AddrWithPrefix pa) ≠ addr)
    /\ RemoveAddress (S fuel') addr n1 = Returned (Some ErrBadLocalAddress) n1.
Proof.
  intros Hin Hperm Hnot6.
  assert (Hk : getKind r n = permanent \/ getKind r n = permanentTentative).
  { unfold hasPermanentAddrLocked in Hperm. rewrite Hin in Hperm.
    apply orb_true_iff in Hperm as [Hp|Hp]; apply bool_decide_eq_true in Hp; auto. }
  destruct (removePermanentAddressLocked_expires fuel n addr r Hin Hk Hnot6)
    as (n1 & Hrem & Hexp).
  assert (Hhas : hasPermanentAddrLocked addr n1 = false).
  { unfold hasPermanentAddrLocked.
    destruct (mu_endpoints n1 !! mkID addr) as [r'|] eqn:Hr'; [|done].
    by rewrite (Hexp r' eq_refl). }
  exists n1. split; [exact Hrem|]. split; [exact Hhas|]. split.
  - intros pa Hpa Haddr. unfold AllAddresses in Hpa.
    apply list_elem_of_omap in Hpa as ([nid ref] & Hnid%elem_of_rangeOrder & Hsome).
    destruct nid as [a]. cbn in Hsome.
    destruct (getKind ref n1) eqn:Hkind; try discriminate;
      injection Hsome as <-; cbn in Haddr; subst a;
      rewrite (Hexp ref Hnid) in Hkind; discriminate.
  - unfold RemoveAddress. cbn [removePermanentAddressLocked].
    unfold hasPermanentAddrLocked in Hhas.
    destruct (mu_endpoints n1 !! mkID addr) as [r'|]; [|done].
    apply orb_false_elim in Hhas as [Hp Ht]. by rewrite Hp, Ht.
Qed.




End Addresses.

Import Scenarios.

Lemma AddAddress_new_witness :
  exists n',
    AddAddress 1 (mkPA 2048 (mkAWP (ip4 10 0 0 1) 24)) FirstPrimaryEndpoint
      (newNIC (stack4 false))
    = Returned None n'
    /\ mu_endpoints n' !! mkID (ip4 10 0 0 1) = Some 0%nat
    /\ getCell 0%nat n'
       = mkRef (mkEP (mkID (ip4 10 0 0 1)) 24) 2048 false 1 permanent static false
    /\ mu_primary n' !!! 2048%N = [0%nat]
    /\ mkPA 2048 (mkAWP (ip4 10 0 0 1) 24) ∈ AllAddresses n'
    /\ AddAddress 1 (mkPA 2048 (mkAWP (ip4 10 0 0 1) 24)) FirstPrimaryEndpoint n'
       = Returned (Some ErrDuplicateAddress) n'.
Proof.
  destruct (AddAddress_new 0 (newNIC (stack4 false))
              (mkPA 2048 (mkAWP (ip4 10 0 0 1) 24)) FirstPrimaryEndpoint ipv4
              (mkEP (mkID (ip4 10 0 0 1)) 24))
    as (n' & Hadd & Hend & _ & Hcell & _ & Hprim & _ & _ & _ & Hall & Hdup);
    [reflexivity..|].
  exists n'. split; [exact Hadd|]. split; [by rewrite Hend|].
  split; [exact Hcell|]. split; [exact Hprim|]. split; [exact Hall|exact Hdup].
Defined.

Lemma AddAddress_failure_changes_nothing_witness :
  AddAddress 1 (mkPA 34525 (mkAWP (db8 1) 64)) CanBePrimaryEndpoint
    (newNIC (stack4 false))
  = Returned (Some ErrUnknownProtocol) (newNIC (stack4 false)).
Proof.
  apply (AddAddress_failure_changes_nothing 0 (newNIC (stack4 false))
           (mkPA 34525 (mkAWP (db8 1) 64)) CanBePrimaryEndpoint);
    reflexivity.
Defined.

Lemma AddAddress_RemoveAddress_roundtrip_witness :
  exists n1 n2,
    AddAddress 1 (mkPA 2048 (mkAWP (ip4 10 0 0 1) 24)) CanBePrimaryEndpoint
      (newNIC (stack4 false))
    = Returned None n1
    /\ RemoveAddress 1 (ip4 10 0 0 1) n1 = Returned None n2
    /\ mu_endpoints n2 = mu_endpoints (newNIC (stack4 false))
    /\ (forall p, mu_primary n2 !!! p = mu_primary (newNIC (stack4 false)) !!! p)
    /\ trace n2 = [EvClose (mkEP (mkID (ip4 10 0 0 1)) 24)]
    /\ AllAddresses n2 = AllAddresses (newNIC (stack4 false)).
Proof.
  destruct (AddAddress_RemoveAddress_roundtrip 0 0 (newNIC (stack4 false))
              (mkPA 2048 (mkAWP (ip4 10 0 0 1) 24)) CanBePrimaryEndpoint ipv4
              (mkEP (mkID (ip4 10 0 0 1)) 24))
    as (n1 & n2 & Hadd & Hrem & Hend & Hprim & _ & _ & Htr & Hall);
    [reflexivity..|].
  exists n1, n2. repeat split; assumption.
Defined.

Lemma RemoveAddress_needs_permanent_witness :
  RemoveAddress 1 (ip4 10 0 0 1) nicTemp
  = Returned (Some ErrBadLocalAddress) nicTemp.
Proof.
  apply (RemoveAddress_needs_permanent 0 nicTemp (ip4 10 0 0 1)). reflexivity.
Defined.

Lemma RemoveAddress_hides_address_witness :
  exists n1,
    RemoveAddress 1 (ip4 10 0 0 1) nicHeld = Returned None n1
    /\ hasPermanentAddrLocked (ip4 10 0 0 1) n1 = false
    /\ (forall pa, pa ∈ AllAddresses n1 -> Address (AddrWithPrefix pa) ≠ ip4 10 0 0 1)
    /\ RemoveAddress 1 (ip4 10 0 0 1) n1 = Returned (Some ErrBadLocalAddress) n1.
Proof.
  apply (RemoveAddress_hides_address 0 0 nicHeld (ip4 10 0 0 1) 0%nat);
    reflexivity.
Defined.


Section Lookup.

Context {ndpState Subnet : Type} `{!Externals ndpState Subnet}.

Implicit Types (n : NIC ndpState Subnet) (r ref : loc).
Implicit Types (c : referencedNetworkEndpoint).

(** ** References *)

Lemma wrap32_id z : int32 z -> wrap32 z = z.
Proof. apply wrap32_small. Qed.

Lemma wrap32_incr_decr z : int32 z -> wrap32 (wrap32 (z + 1) - 1) = z.
Proof.
  intros Hz. replace (wrap32 (z + 1) - 1)%Z with (wrap32 (z + 1) + -1)%Z by lia.
  rewrite wrap32_add_l. replace (z + 1 + -1)%Z with z by lia.
  by apply wrap32_small.
Qed.

Lemma setCell_setCell n r c c' : setCell r c (setCell r c' n) = setCell r c n.
Proof. unfold setCell, set_cells. cbn. f_equal. apply insert_insert_eq. Qed.

Lemma setCell_id n r : is_Some (cells n !! r) -> setCell r (getCell r n) n = n.
Proof.
  intros [c Hc]. unfold setCell, set_cells, getCell.
  rewrite (lookup_total_correct _ _ _ Hc), (insert_id _ _ _ Hc). by destruct n.
Qed.

Lemma with_refs_with_refs v v' c : with_refs v (with_refs v' c) = with_refs v c.
Proof. done. Qed.

Lemma with_refs_id c : with_refs (refs c) c = c.
Proof. by destruct c. Qed.

Lemma decRef_more n r :
  wrap32 (refs (getCell r n) - 1) ≠ 0%Z ->
  decRef r n
  = Returned tt
      (setCell r (with_refs (wrap32 (refs (getCell r n) - 1)) (getCell r n)) n).
Proof.
  intros Hz. unfold decRef.
  by destruct (Z.eqb_spec (wrap32 (refs (getCell r n) - 1)) 0).
Qed.

Lemma decRef_last n r :
  wrap32 (refs (getCell r n) - 1) = 0%Z ->
  decRef r n = removeEndpointLocked r (setCell r (with_refs 0 (getCell r n)) n).
Proof. intros Hz. unfold decRef. by rewrite Hz. Qed.

Lemma decRef_after_incr n r :
  is_Some (cells n !! r) ->
  int32 (refs (getCell r n)) ->
  refs (getCell r n) ≠ 0%Z ->
  decRef r (setCell r (with_refs (wrap32 (refs (getCell r n) + 1)) (getCell r n)) n)
  = Returned tt n.
Proof.
  intros Hcell Hint Hnz.
  rewrite decRef_more; rewrite getCell_setCell_eq; cbn [refs with_refs];
    rewrite wrap32_incr_decr by done; [|done].
  by rewrite setCell_setCell, with_refs_with_refs, with_refs_id, setCell_id.
Qed.

(** X.  A reference that is taken with [tryIncRef] and given back with
    [decRef] leaves the interface exactly as it was, for every cell that
    exists and whose count is an [int32]; when the count is zero [tryIncRef]
    refuses and nothing changes either. *)
Theorem tryIncRef_then_decRef n r :
  is_Some (cells n !! r) ->
  int32 (refs (getCell r n)) ->
  (ok <- tryIncRef r ;; if ok then decRef r else ret tt) n = Returned tt n.
Proof.
  intros Hcell Hint. unfold bindM.
  destruct (decide (refs (getCell r n) = 0%Z)) as [Hz|Hnz].
  - by rewrite tryIncRef_zero.
  - rewrite tryIncRef_nonzero by done. by apply decRef_after_incr.
Qed.


(** ** Looking an address up *)

Lemma getRefOrCreateTemp_usable fuel n proto address peb tempRef ref :
  mu_endpoints n !! mkID address = Some ref ->
  getKind ref n = permanent \/ getKind ref n = temporary
  \/ (getKind ref n = permanentExpired /\ spoofingOrPromiscuous tempRef n = true) ->
  refs (getCell ref n) ≠ 0%Z ->
  getRefOrCreateTemp fuel proto address peb tempRef n
  = Returned (Some ref)
      (setCell ref (with_refs (wrap32 (refs (getCell ref n) + 1)) (getCell ref n)) n).
Proof.
  intros Hin Hk Hrefs.
  unfold getRefOrCreateTemp, bindM at 1, getRefOrCreateTemp_read. rewrite Hin.
  destruct Hk as [-> | [-> | [-> ->]]]; cbn [negb]; unfold bindM;
    by rewrite tryIncRef_nonzero.
Qed.

(** X.  [getRefOrCreateTemp] on an address whose entry is permanent or
    temporary (or expired, if the flag selected by [tempRef] is set) and is
    referenced returns that entry's cell with one reference more, and creates
    nothing; a [decRef] on the result brings the interface back exactly. *)
Theorem getRefOrCreateTemp_existing_then_decRef fuel n proto address peb tempRef ref :
  mu_endpoints n !! mkID address = Some ref ->
  is_Some (cells n !! ref) ->
  getKind ref n = permanent \/ getKind ref n = temporary
  \/ (getKind ref n = permanentExpired /\ spoofingOrPromiscuous tempRef n = true) ->
  int32 (refs (getCell ref n)) ->
  refs (getCell ref n) ≠ 0%Z ->
  getRefOrCreateTemp fuel proto address peb tempRef n
  = Returned (Some ref)
      (setCell ref (with_refs (wrap32 (refs (getCell ref n) + 1)) (getCell ref n)) n)
  /\ decRef ref
       (setCell ref (with_refs (wrap32 (refs (getCell ref n) + 1)) (getCell ref n)) n)
     = Returned tt n.
Proof.
  intros Hin Hcell Hk Hint Hrefs. split.
  - by apply getRefOrCreateTemp_usable.
  - by apply decRef_after_incr.
Qed.

Lemma addAddressLocked_factory_error fuel n protocolAddress peb k ct dep netProto err :
  mu_endpoints n !! mkID (Address (AddrWithPrefix protocolAddress)) = None ->
  networkProtocols (stack n) !! Protocol protocolAddress = Some netProto ->
  NewEndpoint netProto (id n) (AddrWithPrefix protocolAddress) = Err err ->
  addAddressLocked (S fuel) protocolAddress peb k ct dep n = Returned (Err err) n.
Proof.
  intros Hnone Hproto Hnew. cbn [addAddressLocked]. rewrite Hnone.
  unfold addAddressLocked_fresh. by rewrite Hproto, Hnew.
Qed.

(** X.  When [getRefOrCreateTemp] returns nil it has changed nothing, in
    each of these cases: the entry is expired and the flag selected by
    [tempRef] is off (whether or not an address range contains the address);
    there is no entry, or only a tentative one, and neither the flag nor an
    address range allows a temporary endpoint; there is no entry and the
    protocol is not registered; there is no entry and the protocol's factory
    fails (the factory's error is dropped). *)
Theorem getRefOrCreateTemp_nil_changes_nothing fuel n proto address peb tempRef :
  (forall ref,
     mu_endpoints n !! mkID address = Some ref ->
     getKind ref n = permanentExpired ->
     spoofingOrPromiscuous tempRef n = false ->
     getRefOrCreateTemp fuel proto address peb tempRef n = Returned None n)
  /\ (mu_endpoints n !! mkID address = None
      \/ (exists ref, mu_endpoints n !! mkID address = Some ref
                      /\ getKind ref n = permanentTentative) ->
      createTempEP address (spoofingOrPromiscuous tempRef n) n = false ->
      getRefOrCreateTemp fuel proto address peb tempRef n = Returned None n)
  /\ (mu_endpoints n !! mkID address = None ->
      networkProtocols (stack n) !! proto = None ->
      getRefOrCreateTemp fuel proto address peb tempRef n = Returned None n)
  /\ (forall netProto err,
        mu_endpoints n !! mkID address = None ->
        networkProtocols (stack n) !! proto = Some netProto ->
        NewEndpoint netProto (id n) (mkAWP address (DefaultPrefixLen netProto)) = Err err ->
        getRefOrCreateTemp (S fuel) proto address peb tempRef n = Returned None n).
Proof.
  split; [|split; [|split]].
  - intros ref Hin Hk Hflag.
    unfold getRefOrCreateTemp, bindM at 1, getRefOrCreateTemp_read.
    by rewrite Hin, Hk, Hflag.
  - intros Hentry Hcreate.
    unfold getRefOrCreateTemp, bindM at 1, getRefOrCreateTemp_read.
    destruct Hentry as [-> | (ref & -> & ->)];
      unfold bindM, gets; by rewrite Hcreate.
  - intros Hnone Hproto.
    unfold getRefOrCreateTemp, bindM at 1, getRefOrCreateTemp_read. rewrite Hnone.
    unfold bindM, gets.
    destruct (createTempEP _ _ _); cbn [negb]; [|done].
    by rewrite ?Hnone, Hproto.
  - intros netProto err Hnone Hproto Hnew.
    unfold getRefOrCreateTemp, bindM at 1, getRefOrCreateTemp_read. rewrite Hnone.
    unfold bindM, gets.
    destruct (createTempEP _ _ _); cbn [negb]; [|done].
    rewrite ?Hnone, Hproto.
    by rewrite (addAddressLocked_factory_error fuel n _ peb temporary static false
                  netProto err).
Qed.

Lemma getRefOrCreateTemp_creates fuel n proto address peb tempRef netProto e :
  mu_endpoints n !! mkID address = None ->
  createTempEP address (spoofingOrPromiscuous tempRef n) n = true ->
  networkProtocols (stack n) !! proto = Some netProto ->
  NewEndpoint netProto (id n) (mkAWP address (DefaultPrefixLen netProto)) = Ok e ->
  isIPv6Unicast proto address = false ->
  getRefOrCreateTemp (S fuel) proto address peb tempRef n
  = Returned (Some (fresh (liveLocs n)))
      (withPrimary peb proto (fresh (liveLocs n))
         (withNewEntry n address
            (mkRef e proto (linkCacheFor n proto) 1 temporary static false))).
Proof.
  intros Hnone Hcreate Hproto Hnew Hnot6.
  unfold getRefOrCreateTemp, bindM at 1, getRefOrCreateTemp_read. rewrite Hnone.
  unfold bindM at 1, gets. rewrite Hcreate. cbn [negb].
  unfold bindM at 1. rewrite ?Hnone. rewrite Hproto. unfold bindM.
  by rewrite (addAddressLocked_new fuel n _ peb temporary static false netProto e).
Qed.




(** X.  [AddAddressRange] makes the interface answer for the addresses of
    the range: with spoofing off, [findEndpoint] on an address without an
    entry creates a temporary endpoint once a range that contains the address
    has been added, but not for the range's own address nor for its broadcast
    address, and not for an address outside the range. *)
Theorem AddAddressRange_admits_its_addresses
    fuel n p0 (subnet : Subnet) proto address peb netProto e :
  mu_endpoints n !! mkID address = None ->
  createTempEP address (mu_spoofing n) n = false ->
  networkProtocols (stack n) !! proto = Some netProto ->
  NewEndpoint netProto (id n) (mkAWP address (DefaultPrefixLen netProto)) = Ok e ->
  isIPv6Unicast proto address = false ->
  exists n1,
    AddAddressRange p0 subnet n = Returned tt n1
    /\ (Subnet_Contains subnet address = true ->
        address ≠ Subnet_ID subnet ->
        address ≠ Subnet_Broadcast subnet ->
        exists n2,
          findEndpoint (S fuel) proto address peb n1
          = Returned (Some (fresh (liveLocs n))) n2
          /\ mu_endpoints n2 !! mkID address = Some (fresh (liveLocs n))
          /\ getCell (fresh (liveLocs n)) n2
             = mkRef e proto (linkCacheFor n proto) 1 temporary static false)
    /\ (Subnet_Contains subnet address = false
        \/ address = Subnet_ID subnet
        \/ address = Subnet_Broadcast subnet ->
        findEndpoint (S fuel) proto address peb n1 = Returned None n1).
Proof.
  intros Hnone Hcreate Hproto Hnew Hnot6.
  apply orb_false_elim in Hcreate as [Hspoof Hranges].
  eexists. split; [reflexivity|].
  set (n1 := set_addressRanges (fun l => l ++ [subnet]) n).
  assert (Hcreate1 : createTempEP address (spoofingOrPromiscuous spoofing n1) n1
                     = negb (bool_decide (address = Subnet_ID subnet))
                       && negb (bool_decide (address = Subnet_Broadcast subnet))
                       && Subnet_Contains subnet address).
  { unfold createTempEP. cbn. rewrite Hspoof, existsb_app, Hranges. cbn.
    by rewrite orb_false_r. }
  split.
  - intros Hcont Hnid Hnb.
    assert (Hc1 : createTempEP address (spoofingOrPromiscuous spoofing n1) n1 = true).
    { rewrite Hcreate1, Hcont.
      by rewrite !bool_decide_eq_false_2. }
    eexists. split.
    { unfold findEndpoint.
      apply (getRefOrCreateTemp_creates fuel n1 proto address peb spoofing netProto e);
        done. }
    split.
    + destruct peb; cbn; by rewrite lookup_insert_eq.
    + unfold getCell. destruct peb; cbn; by rewrite lookup_total_insert_eq.
  - intros Hout.
    assert (Hc1 : createTempEP address (spoofingOrPromiscuous spoofing n1) n1 = false).
    { rewrite Hcreate1. destruct Hout as [-> | [Heq | Heq]].
      - apply andb_false_r.
      - by rewrite (bool_decide_eq_true_2 _ Heq).
      - rewrite (bool_decide_eq_true_2 _ Heq). cbn. by rewrite andb_false_r. }
    unfold findEndpoint, getRefOrCreateTemp, bindM at 1, getRefOrCreateTemp_read.
    change (mu_endpoints n1) with (mu_endpoints n). rewrite Hnone.
    unfold bindM, gets. by rewrite Hc1.
Qed.

End Lookup.

Section Ranges.

Context {ndpState Subnet : Type} `{!Externals ndpState Subnet}.

Implicit Types (n : NIC ndpState Subnet) (r ref : loc).
Implicit Types (c : referencedNetworkEndpoint).

(** ** Address ranges *)

Lemma RemoveAddressRange_loop_spec `{!EqDecision Subnet} (subnet : Subnet) l todo :
  forall i arr k,
    i + todo = length l ->
    length arr = length l ->
    k <= i ->
    take k arr = filter (fun sub => sub ≠ subnet) (take i l) ->
    drop i arr = drop i l ->
    take (RemoveAddressRange_loop subnet i todo arr k).2
         (RemoveAddressRange_loop subnet i todo arr k).1
    = filter (fun sub => sub ≠ subnet) l.
Proof.
  induction todo as [|todo IH]; intros i arr k Hlen Harr Hk Htake Hdrop; cbn.
  - rewrite Htake. f_equal. apply take_ge. lia.
  - assert (Hi : i < length l) by lia.
    destruct (lookup_lt_is_Some_2 l i Hi) as [sub Hsub].
    assert (Harri : arr !! i = Some sub).
    { rewrite <- (Nat.add_0_r i), <- lookup_drop, Hdrop, lookup_drop.
      by rewrite Nat.add_0_r. }
    rewrite Harri.
    assert (Hdrop' : forall a, length a = length l -> drop i a = drop i l ->
                      drop (S i) a = drop (S i) l).
    { intros a _ Ha. replace (S i) with (i + 1) by lia. by rewrite <- !drop_drop, Ha. }
    assert (Hfilter : filter (fun sub0 => sub0 ≠ subnet) (take (S i) l)
                      = filter (fun sub0 => sub0 ≠ subnet) (take i l)
                        ++ (if decide (sub ≠ subnet) then [sub] else [])).
    { rewrite (take_S_r l i sub Hsub), filter_app, filter_cons, filter_nil.
      by destruct (decide (sub ≠ subnet)). }
    destruct (decide (sub ≠ subnet)) as [Hne|Heq].
    + apply IH.
      * lia.
      * by rewrite length_insert.
      * lia.
      * rewrite Hfilter, (take_S_r _ k sub).
        -- rewrite take_insert_ge by lia. by rewrite Htake.
        -- apply list_lookup_insert_eq. lia.
      * rewrite drop_insert_lt by lia. by apply Hdrop'.
    + apply IH; [lia|done|lia| |by apply Hdrop'].
      by rewrite Hfilter, app_nil_r.
Qed.


Lemma set_addressRanges_id `{!EqDecision Subnet} n (f : list Subnet -> list Subnet) :
  f (mu_addressRanges n) = mu_addressRanges n -> set_addressRanges f n = n.
Proof. intros Hf. destruct n. unfold set_addressRanges; cbn in *. by rewrite Hf. Qed.

(** X.  [RemoveAddressRange], which filters the slice in place, leaves
    exactly the ranges that differ from [subnet], in their order: every
    occurrence of [subnet] is taken out, and nothing else of the interface
    changes. *)
Theorem RemoveAddressRange_filters `{!EqDecision Subnet} n (subnet : Subnet) :
  RemoveAddressRange subnet n
  = Returned tt (set_addressRanges (filter (fun sub => sub ≠ subnet)) n).
Proof.
  unfold RemoveAddressRange, modify, set_addressRanges. do 2 f_equal.
  pose proof (RemoveAddressRange_loop_spec subnet (mu_addressRanges n)
                (length (mu_addressRanges n)) 0 (mu_addressRanges n) 0) as Hloop.
  destruct (RemoveAddressRange_loop _ _ _ _ _) as [arr k]. cbn in Hloop.
  apply Hloop; done.
Qed.

(** X.  A range that is added and then removed leaves the interface as
    it was, provided the same range was not configured before (otherwise
    the earlier occurrences go as well). *)
Theorem AddAddressRange_RemoveAddressRange `{!EqDecision Subnet} n proto (subnet : Subnet) :
  subnet ∉ mu_addressRanges n ->
  (AddAddressRange proto subnet ;;; RemoveAddressRange subnet) n = Returned tt n.
Proof.
  intros Hnotin. unfold bindM, AddAddressRange, modify.
  rewrite RemoveAddressRange_filters. f_equal.
  assert (Hl : filter (fun sub => sub ≠ subnet) (mu_addressRanges n ++ [subnet])
               = mu_addressRanges n).
  { rewrite filter_app, filter_cons, filter_nil.
    rewrite decide_False by (intros Hne; by apply Hne).
    rewrite app_nil_r.
    induction (mu_addressRanges n) as [|x l IH]; [done|].
    apply not_elem_of_cons in Hnotin as [Hx Hl].
    rewrite filter_cons, decide_True by done. f_equal. by apply IH. }
  destruct n; unfold set_addressRanges; cbn in *. by rewrite Hl.
Qed.

End Ranges.

Lemma tryIncRef_then_decRef_witness :
  (ok <- tryIncRef 0%nat ;; if ok then decRef 0%nat else ret tt) nicLocal
  = Returned tt nicLocal.
Proof.
  apply (tryIncRef_then_decRef nicLocal 0%nat).
  - vm_compute. eauto.
  - vm_compute. split; [discriminate|reflexivity].
Defined.

Lemma getRefOrCreateTemp_existing_then_decRef_witness :
  getRefOrCreateTemp 0 2048 (ip4 10 0 0 1) CanBePrimaryEndpoint spoofing nicLocal
  = Returned (Some 0%nat)
      (setCell 0%nat
         (with_refs (wrap32 (refs (getCell 0%nat nicLocal) + 1)) (getCell 0%nat nicLocal))
         nicLocal)
  /\ decRef 0%nat
       (setCell 0%nat
          (with_refs (wrap32 (refs (getCell 0%nat nicLocal) + 1)) (getCell 0%nat nicLocal))
          nicLocal)
     = Returned tt nicLocal.
Proof.
  apply (getRefOrCreateTemp_existing_then_decRef 0 nicLocal 2048 (ip4 10 0 0 1)
           CanBePrimaryEndpoint spoofing 0%nat).
  - reflexivity.
  - vm_compute. eauto.
  - left. reflexivity.
  - vm_compute. split; [discriminate|reflexivity].
  - vm_compute. discriminate.
Defined.

Lemma getRefOrCreateTemp_nil_changes_nothing_witness :
  getRefOrCreateTemp 0 2048 (ip4 10 0 0 7) CanBePrimaryEndpoint spoofing nicLocal
  = Returned None nicLocal.
Proof.
  apply (proj1 (proj2 (getRefOrCreateTemp_nil_changes_nothing 0 nicLocal 2048
                         (ip4 10 0 0 7) CanBePrimaryEndpoint spoofing))).
  - left. reflexivity.
  - reflexivity.
Defined.


Lemma AddAddressRange_admits_its_addresses_witness :
  exists n1,
    AddAddressRange 2048 (mkSubnet (ip4 10 0 0 0) (ip4 255 255 255 0))
      (newNIC (stack4 false))
    = Returned tt n1
    /\ (exists n2,
          findEndpoint 1 2048 (ip4 10 0 0 5) CanBePrimaryEndpoint n1
          = Returned (Some 0%nat) n2
          /\ mu_endpoints n2 !! mkID (ip4 10 0 0 5) = Some 0%nat)
    /\ findEndpoint 1 2048 (ip4 10 0 0 0) CanBePrimaryEndpoint n1 = Returned None n1
    /\ findEndpoint 1 2048 (ip4 10 0 0 255) CanBePrimaryEndpoint n1 = Returned None n1.
Proof.
  destruct (AddAddressRange_admits_its_addresses 0 (newNIC (stack4 false)) 2048
              (mkSubnet (ip4 10 0 0 0) (ip4 255 255 255 0)) 2048 (ip4 10 0 0 5)
              CanBePrimaryEndpoint ipv4 (mkEP (mkID (ip4 10 0 0 5)) 32))
    as (n1 & Hadd & Hin & _); [reflexivity..|].
  exists n1. split; [exact Hadd|]. split.
  - destruct Hin as (n2 & Hfind & Hend & _);
      [reflexivity|vm_compute; discriminate|vm_compute; discriminate|].
    exists n2. by split.
  - injection Hadd as <-. split; reflexivity.
Defined.

Lemma AddAddressRange_RemoveAddressRange_witness :
  (AddAddressRange 2048 (mkSubnet (ip4 10 0 0 0) (ip4 255 255 255 0)) ;;;
   RemoveAddressRange (mkSubnet (ip4 10 0 0 0) (ip4 255 255 255 0)))
    (newNIC (stack4 false))
  = Returned tt (newNIC (stack4 false)).
Proof.
  apply (AddAddressRange_RemoveAddressRange (newNIC (stack4 false)) 2048
           (mkSubnet (ip4 10 0 0 0) (ip4 255 255 255 0))).
  apply not_elem_of_nil.
Defined.

Section Selection.

Context {ndpState Subnet : Type} `{!Externals ndpState Subnet}.

Implicit Types (n : NIC ndpState Subnet) (r ref : loc).
Implicit Types (c : referencedNetworkEndpoint).

(** ** The last reference *)

(** X.  [decRef] on a cell that holds its last reference and is not
    [permanent] takes the cell out of the interface: its address leaves the
    table, its first occurrence leaves the primary list of its protocol, the
    endpoint is closed, and nothing else changes.  On a [permanent] cell the
    same call panics: a permanent entry owns one reference itself, so its
    count must not reach zero before the address is removed. *)
Theorem decRef_last_reference n r :
  mu_endpoints n !! ep_ID (ep (getCell r n)) = Some r ->
  refs (getCell r n) = 1%Z ->
  (getKind r n ≠ permanent ->
   exists n',
     decRef r n = Returned tt n'
     /\ mu_endpoints n' = delete (ep_ID (ep (getCell r n))) (mu_endpoints n)
     /\ (forall p, mu_primary n' !!! p
                   = if decide (p = protocol (getCell r n))
                     then dropFirst r (mu_primary n !!! p)
                     else mu_primary n !!! p)
     /\ getCell r n' = with_refs 0 (getCell r n)
     /\ (forall r', r' ≠ r -> getCell r' n' = getCell r' n)
     /\ settings n' = settings n
     /\ trace n' = EvClose (ep (getCell r n)) :: trace n)
  /\ (getKind r n = permanent -> exists msg, decRef r n = Panicked msg).
Proof.
  intros Hin Hrefs.
  set (s := setCell r (with_refs 0 (getCell r n)) n).
  assert (Hc : getCell r s = with_refs 0 (getCell r n)) by apply getCell_setCell_eq.
  assert (Hdec : decRef r n = removeEndpointLocked r s).
  { apply decRef_last. by rewrite Hrefs. }
  split.
  - intros Hk.
    destruct (removeEndpointLocked_mapped s r)
      as (n' & Hrem & Hend & Hcells & Htr & Hprim & Hset).
    { by rewrite Hc. }
    { by rewrite Hc. }
    rewrite Hc in Hend, Htr, Hprim. cbn in Hend, Htr, Hprim.
    exists n'. split; [by rewrite Hdec|]. split; [exact Hend|].
    split; [exact Hprim|]. split.
    { unfold getCell at 1. rewrite Hcells. exact Hc. }
    split.
    { intros r' Hr'. unfold getCell at 1. rewrite Hcells.
      by apply getCell_setCell_ne. }
    split; [exact Hset|exact Htr].
  - intros Hk. rewrite Hdec. unfold removeEndpointLocked. rewrite Hc.
    cbn [ep with_refs kind]. rewrite decide_True by exact Hin.
    rewrite decide_True by exact Hk. eauto.
Qed.

(** ** The primary endpoint *)

Lemma usable_setCell_ne n r r' c :
  r ≠ r' -> usable (setCell r c n) r' = usable n r'.
Proof.
  intros Hne. unfold usable, isValidForOutgoingRLocked.
  by rewrite getKind_setCell_ne, getCell_setCell_ne.
Qed.

Lemma setCell_comm n r r' c c' :
  r ≠ r' -> setCell r c (setCell r' c' n) = setCell r' c' (setCell r c n).
Proof.
  intros Hne. unfold setCell, set_cells. cbn. f_equal. by apply insert_insert_ne.
Qed.


Lemma getCell_referenced_eq n r :
  getCell r (referenced r n)
  = with_refs (wrap32 (refs (getCell r n) + 1)) (getCell r n).
Proof. apply getCell_setCell_eq. Qed.

Lemma getCell_referenced_ne n r r' :
  r ≠ r' -> getCell r' (referenced r n) = getCell r' n.
Proof. apply getCell_setCell_ne. Qed.

Lemma isValid_referenced n r r' :
  isValidForOutgoingRLocked r' (referenced r n) = isValidForOutgoingRLocked r' n.
Proof.
  unfold isValidForOutgoingRLocked, getKind.
  destruct (decide (r = r')) as [->|Hne].
  - by rewrite getCell_referenced_eq.
  - by rewrite getCell_referenced_ne.
Qed.

Lemma deprecated_referenced n r r' :
  deprecated (getCell r' (referenced r n)) = deprecated (getCell r' n).
Proof.
  destruct (decide (r = r')) as [->|Hne].
  - by rewrite getCell_referenced_eq.
  - by rewrite getCell_referenced_ne.
Qed.

Lemma tryIncRef_usable n r :
  isValidForOutgoingRLocked r n = true ->
  tryIncRef r n
  = if usable n r then Returned true (referenced r n) else Returned false n.
Proof.
  intros Hv. unfold usable, tryIncRef, referenced. rewrite Hv. cbn.
  by destruct (refs (getCell r n) =? 0)%Z.
Qed.

Lemma decRefLocked_after_referenced n r x :
  r ≠ x ->
  is_Some (cells n !! x) ->
  int32 (refs (getCell x n)) ->
  refs (getCell x n) ≠ 0%Z ->
  decRefLocked x (referenced r (referenced x n)) = Returned false (referenced r n).
Proof.
  intros Hne Hcell Hint Hnz.
  rewrite decRefLocked_more;
    rewrite getCell_referenced_ne, getCell_referenced_eq by done;
    cbn [refs with_refs]; rewrite wrap32_incr_decr by done; [|done].
  f_equal. rewrite with_refs_with_refs, with_refs_id.
  unfold referenced at 1. rewrite getCell_referenced_ne by done.
  rewrite setCell_comm by done. unfold referenced at 1.
  by rewrite setCell_setCell, setCell_id.
Qed.

Lemma primaryEndpoint_loop_spec n l :
  (forall r, r ∈ l -> is_Some (cells n !! r) /\ int32 (refs (getCell r n))) ->
  forall d,
    match d with
    | Some x =>
        is_Some (cells n !! x) /\ int32 (refs (getCell x n))
        /\ refs (getCell x n) ≠ 0%Z /\ deprecated (getCell x n) = true
    | None => True
    end ->
    primaryEndpoint_loop l d
      (match d with Some x => referenced x n | None => n end)
    = match firstUsable false n l with
      | Some r => Returned (Some r) (referenced r n)
      | None =>
          match d with
          | Some x => Returned (Some x) (referenced x n)
          | None =>
              match firstUsable true n l with
              | Some x => Returned (Some x) (referenced x n)
              | None => Returned None n
              end
          end
      end.
Proof.
  induction l as [|r l IH]; intros Hl d Hd.
  { by destruct d. }
  assert (Hl' : forall r', r' ∈ l ->
                  is_Some (cells n !! r') /\ int32 (refs (getCell r' n))).
  { intros r' Hr'. apply Hl. by right. }
  destruct (Hl r) as [Hrcell Hrint]; [by left|].
  specialize (IH Hl').
  set (m := match d with Some x => referenced x n | None => n end).
  assert (Hvalid : isValidForOutgoingRLocked r m = isValidForOutgoingRLocked r n).
  { unfold m. destruct d; [apply isValid_referenced|done]. }
  assert (Hdep : deprecated (getCell r m) = deprecated (getCell r n)).
  { unfold m. destruct d; [apply deprecated_referenced|done]. }
  cbn [primaryEndpoint_loop]. unfold bindM at 1, gets at 1. rewrite Hvalid.
  unfold firstUsable. cbn [List.find]. fold (firstUsable false n l).
  fold (firstUsable true n l).
  destruct (isValidForOutgoingRLocked r n) eqn:Hv; cbn [negb].
  2:{ unfold usable. rewrite Hv. cbn [andb]. by apply IH. }
  unfold bindM at 1, gets at 1. rewrite Hdep.
  destruct (deprecated (getCell r n)) eqn:Hrdep; cbn [negb eqb].
  - (* a deprecated cell *)
    rewrite andb_false_r.
    destruct d as [x|].
    + exact (IH (Some x) Hd).
    + unfold bindM at 1. rewrite tryIncRef_usable by (unfold m; done).
      rewrite andb_true_r. unfold m.
      destruct (usable n r) eqn:Hus.
      * rewrite (IH (Some r)).
        -- by destruct (firstUsable false n l).
        -- unfold usable in Hus. apply andb_true_iff in Hus as [_ Hus].
           apply negb_true_iff, Z.eqb_neq in Hus. done.
      * by rewrite (IH None).
  - (* a cell that is not deprecated *)
    rewrite andb_true_r. unfold bindM at 1.
    rewrite tryIncRef_usable by exact Hvalid.
    destruct d as [x|].
    + destruct Hd as (Hxcell & Hxint & Hxnz & Hxdep).
      assert (Hne : x ≠ r) by (intros ->; congruence).
      assert (Hus : usable m r = usable n r).
      { unfold m, referenced. by apply usable_setCell_ne. }
      rewrite Hus. destruct (usable n r).
      * unfold bindM, m.
        rewrite decRefLocked_after_referenced by done. done.
      * unfold m. rewrite (IH (Some x)) by done.
        by destruct (firstUsable false n l).
    + unfold m. destruct (usable n r) eqn:Hus; [done|]. by rewrite (IH None).
Qed.


(** X.  [primaryEndpoint], when it does not go through IPv6 source
    address selection, returns the first cell of the protocol's primary list
    that is usable (valid for outgoing use, reference count not zero) and not
    deprecated; if there is none, the first usable deprecated cell; if there
    is none either, nil.  The call takes exactly one reference, on the cell it
    returns: the reference it holds meanwhile on a deprecated candidate is
    given back, and the interface is otherwise unchanged. *)
Theorem primaryEndpoint_selects n proto remoteAddr :
  proto ≠ IPv6ProtocolNumber \/ remoteAddr = EmptyString ->
  (forall r, r ∈ mu_primary n !!! proto ->
     is_Some (cells n !! r) /\ int32 (refs (getCell r n))) ->
  primaryEndpoint proto remoteAddr n
  = match firstUsable false n (mu_primary n !!! proto) with
    | Some r => Returned (Some r) (referenced r n)
    | None =>
        match firstUsable true n (mu_primary n !!! proto) with
        | Some r => Returned (Some r) (referenced r n)
        | None => Returned None n
        end
    end.
Proof.
  intros Hsel Hcells. unfold primaryEndpoint.
  assert (bool_decide (proto = IPv6ProtocolNumber)
          && negb (bool_decide (remoteAddr = EmptyString)) = false) as ->.
  { destruct Hsel as [Hp| ->].
    - by rewrite bool_decide_eq_false_2.
    - rewrite (bool_decide_eq_true_2 (EmptyString = EmptyString)) by done.
      apply andb_false_r. }
  exact (primaryEndpoint_loop_spec n (mu_primary n !!! proto) Hcells None I).
Qed.

(** ** IPv6 source address selection *)

Lemma firstIncRef_spec n (cs : list ipv6AddrCandidate) :
  firstIncRef cs n
  = match List.find (fun x => negb (refs (getCell (cand_ref x) n) =? 0)%Z) cs with
    | Some x => Returned (Some (cand_ref x)) (referenced (cand_ref x) n)
    | None => Returned None n
    end.
Proof.
  induction cs as [|x cs IH]; [done|].
  cbn [firstIncRef List.find]. unfold bindM, tryIncRef.
  destruct (refs (getCell (cand_ref x) n) =? 0)%Z; cbn [negb]; [exact IH|done].
Qed.

Lemma candidates_refs n l cs :
  candidates l n = Ok cs ->
  cand_ref <$> cs = List.filter (fun r => isValidForOutgoing r n) l.
Proof.
  revert cs. induction l as [|r l IH]; intros cs Hcs; cbn in *.
  { by injection Hcs as <-. }
  destruct (isValidForOutgoing r n); cbn [negb] in Hcs; [|by apply IH].
  destruct (ScopeForIPv6Address _) as [sc|]; [|done].
  destruct (candidates l n) as [cs'|]; [|done].
  injection Hcs as <-. cbn. f_equal. by apply IH.
Qed.

Lemma candidates_ok n l :
  (forall r, r ∈ l -> isValidForOutgoing r n = true ->
     exists sc, ScopeForIPv6Address (addrOf n r) = Ok sc) ->
  exists cs, candidates l n = Ok cs.
Proof.
  induction l as [|r l IH]; intros Hsc; cbn; [eauto|].
  destruct IH as [cs Hcs]. { intros r' Hr'. apply Hsc. by right. }
  destruct (isValidForOutgoing r n) eqn:Hv; cbn [negb]; [|eauto].
  destruct (Hsc r) as [sc Hr]; [by left|done|].
  unfold addrOf in Hr. rewrite Hr, Hcs. eauto.
Qed.

Lemma elem_of_swap {A} (i j : nat) (l : list A) x : x ∈ swap i j l <-> x ∈ l.
Proof.
  unfold swap.
  destruct (l !! i) as [a|] eqn:Hi; [|done].
  destruct (l !! j) as [b|] eqn:Hj; [|done].
  assert (Hli : i < length l) by (by eapply lookup_lt_Some).
  assert (Hlj : j < length l) by (by eapply lookup_lt_Some).
  rewrite !list_elem_of_lookup. split.
  - intros [k Hk].
    apply list_lookup_insert_Some in Hk as [(-> & -> & _)|[Hne Hk]]; [eauto|].
    apply list_lookup_insert_Some in Hk as [(-> & -> & _)|[Hne' Hk]]; eauto.
  - intros [k Hk].
    destruct (decide (k = i)) as [->|Hki].
    + destruct (decide (i = j)) as [->|Hij].
      * exists j. rewrite list_lookup_insert_eq by (by rewrite length_insert).
        congruence.
      * exists j. rewrite list_lookup_insert_ne by done.
        rewrite list_lookup_insert_eq by done. congruence.
    + destruct (decide (k = j)) as [->|Hkj].
      * exists i. rewrite list_lookup_insert_eq by (by rewrite length_insert).
        congruence.
      * exists k. by rewrite !list_lookup_insert_ne.
Qed.

Lemma elem_of_insertDown {A} (less : list A -> nat -> nat -> bool) j :
  forall (l : list A) x, x ∈ insertDown less j l <-> x ∈ l.
Proof.
  induction j as [|j IH]; intros l x; cbn; [done|].
  destruct (less l (S j) j); [|done]. by rewrite IH, elem_of_swap.
Qed.

Lemma elem_of_insertionSort {A} (less : list A -> nat -> nat -> bool) todo :
  forall i (l : list A) x, x ∈ insertionSort less i todo l <-> x ∈ l.
Proof.
  induction todo as [|todo IH]; intros i l x; cbn; [done|].
  by rewrite IH, elem_of_insertDown.
Qed.

Lemma elem_of_sort_Slice {A} (less : list A -> nat -> nat -> bool) (l : list A) x :
  x ∈ sort_Slice less l <-> x ∈ l.
Proof. apply elem_of_insertionSort. Qed.


Lemma primaryIPv6Endpoint_sorted n remoteAddr remoteScope :
  ScopeForIPv6Address remoteAddr = Ok remoteScope ->
  (forall r, r ∈ mu_primary n !!! IPv6ProtocolNumber ->
     isValidForOutgoing r n = true ->
     exists sc, ScopeForIPv6Address (addrOf n r) = Ok sc) ->
  exists cs,
    candidates (mu_primary n !!! IPv6ProtocolNumber) n = Ok cs
    /\ primaryIPv6Endpoint remoteAddr n
       = firstIncRef (sort_Slice (lessCandidate remoteAddr remoteScope n) cs) n.
Proof.
  intros Hremote Hscopes.
  destruct (candidates_ok n _ Hscopes) as [cs Hcs].
  exists cs. split; [done|].
  unfold primaryIPv6Endpoint. rewrite Hcs, Hremote.
  destruct (mu_primary n !!! IPv6ProtocolNumber) as [|r l] eqn:Hl; [|done].
  cbn in Hcs. by injection Hcs as <-.
Qed.

(** X.  IPv6 source address selection hands out a cell of the IPv6
    primary list that is usable (valid for outgoing use, reference count not
    zero), with one reference more and nothing else changed; it returns nil
    only when the list has no usable cell. *)
Theorem primaryIPv6Endpoint_returns_usable_cell n remoteAddr remoteScope :
  ScopeForIPv6Address remoteAddr = Ok remoteScope ->
  (forall r, r ∈ mu_primary n !!! IPv6ProtocolNumber ->
     isValidForOutgoing r n = true ->
     exists sc, ScopeForIPv6Address (addrOf n r) = Ok sc) ->
  length (mu_primary n !!! IPv6ProtocolNumber) <= 12 ->
  (exists r,
     primaryIPv6Endpoint remoteAddr n = Returned (Some r) (referenced r n)
     /\ r ∈ mu_primary n !!! IPv6ProtocolNumber
     /\ usable n r = true)
  \/ (primaryIPv6Endpoint remoteAddr n = Returned None n
      /\ forall r, r ∈ mu_primary n !!! IPv6ProtocolNumber -> usable n r = false).
Proof.
  intros Hremote Hscopes _.
  destruct (primaryIPv6Endpoint_sorted n remoteAddr remoteScope Hremote Hscopes)
    as (cs & Hcs & ->).
  pose proof (candidates_refs n _ cs Hcs) as Hrefs.
  assert (Hmem : forall r, r ∈ cand_ref <$> cs <->
                   r ∈ mu_primary n !!! IPv6ProtocolNumber
                   /\ isValidForOutgoing r n = true).
  { intros r. rewrite Hrefs, !list_elem_of_In. apply filter_In. }
  rewrite firstIncRef_spec.
  destruct (List.find _ _) as [x|] eqn:Hfind.
  - left. exists (cand_ref x). split; [done|].
    apply find_some in Hfind as [Hin Hnz].
    apply list_elem_of_In, elem_of_sort_Slice in Hin.
    destruct (proj1 (Hmem (cand_ref x))) as [Hl Hv].
    { apply list_elem_of_fmap. by exists x. }
    split; [done|]. unfold usable. unfold isValidForOutgoing in Hv.
    by rewrite Hv, Hnz.
  - right. split; [done|]. intros r Hr.
    unfold usable. destruct (isValidForOutgoingRLocked r n) eqn:Hv; [|done].
    pose proof (proj2 (Hmem r) (conj Hr Hv)) as Hin.
    apply list_elem_of_fmap in Hin as (x & -> & Hx).
    apply (elem_of_sort_Slice (lessCandidate remoteAddr remoteScope n)) in Hx.
    apply list_elem_of_In in Hx.
    by rewrite (find_none _ _ Hfind x Hx).
Qed.


(** *** Rule 1: the same address *)

Lemma length_swap {A} (i j : nat) (l : list A) : length (swap i j l) = length l.
Proof.
  unfold swap. destruct (l !! i); [|done]. destruct (l !! j); [|done].
  by rewrite !length_insert.
Qed.

Lemma length_insertDown {A} (less : list A -> nat -> nat -> bool) j :
  forall l : list A, length (insertDown less j l) = length l.
Proof.
  induction j as [|j IH]; intros l; cbn; [done|].
  destruct (less l (S j) j); [|done]. by rewrite IH, length_swap.
Qed.

Lemma swap_lookup_ne {A} (i j k : nat) (l : list A) :
  k ≠ i -> k ≠ j -> swap i j l !! k = l !! k.
Proof.
  intros Hi Hj. unfold swap. destruct (l !! i); [|done]. destruct (l !! j); [|done].
  by rewrite !list_lookup_insert_ne.
Qed.

Lemma swap_lookup_r {A} (i j : nat) (l : list A) x y :
  i ≠ j -> l !! i = Some x -> l !! j = Some y -> swap i j l !! j = Some x.
Proof.
  intros Hne Hi Hj. unfold swap. rewrite Hi, Hj.
  rewrite list_lookup_insert_ne by done.
  apply list_lookup_insert_eq. by eapply lookup_lt_Some.
Qed.

Lemma swap_lookup_l {A} (i j : nat) (l : list A) x y :
  l !! i = Some x -> l !! j = Some y -> swap i j l !! i = Some y.
Proof.
  intros Hi Hj. unfold swap. rewrite Hi, Hj.
  apply list_lookup_insert_eq. rewrite length_insert. by eapply lookup_lt_Some.
Qed.

Lemma insertDown_lookup_gt {A} (less : list A -> nat -> nat -> bool) j :
  forall (l : list A) k, j < k -> insertDown less j l !! k = l !! k.
Proof.
  induction j as [|j IH]; intros l k Hk; cbn; [done|].
  destruct (less l (S j) j); [|done].
  rewrite IH by lia. apply swap_lookup_ne; lia.
Qed.

Lemma insertDown_lookup_le {A} (less : list A -> nat -> nat -> bool) j :
  forall (l : list A) k y,
    j < length l -> k <= j -> insertDown less j l !! k = Some y ->
    exists k', k' <= j /\ l !! k' = Some y.
Proof.
  induction j as [|j IH]; intros l k y Hlen Hk Hy; cbn in Hy; [by exists k|].
  destruct (less l (S j) j); [|by exists k].
  destruct (lookup_lt_is_Some_2 l (S j)) as [a Ha]; [done|].
  destruct (lookup_lt_is_Some_2 l j) as [b Hb]; [lia|].
  destruct (decide (k = S j)) as [->|Hne].
  - rewrite insertDown_lookup_gt in Hy by lia.
    rewrite (swap_lookup_l (S j) j l a b Ha Hb) in Hy. injection Hy as <-.
    exists j. split; [lia|done].
  - destruct (IH (swap (S j) j l) k y) as (k' & Hk' & Hy'); [|lia|done|].
    { rewrite length_swap. lia. }
    destruct (decide (k' = j)) as [->|Hne'].
    + rewrite (swap_lookup_r (S j) j l a b) in Hy' by (done || lia).
      injection Hy' as <-. exists (S j). split; [lia|done].
    + rewrite swap_lookup_ne in Hy' by lia. exists k'. split; [lia|done].
Qed.

Section SameAddress.

Variables (n : NIC ndpState Subnet) (remoteAddr : string) (remoteScope : Z).

Local Abbreviation less := (lessCandidate remoteAddr remoteScope n).

Local Abbreviation same x :=
  (LocalAddress (ep_ID (ep (getCell (cand_ref x) n))) = remoteAddr).

Lemma lessCandidate_same_l cs i j sa sb :
  cs !! i = Some sa -> cs !! j = Some sb -> same sa -> less cs i j = true.
Proof.
  intros Hi Hj Hsa. unfold lessCandidate. rewrite Hi, Hj.
  by rewrite bool_decide_eq_true_2.
Qed.

Lemma lessCandidate_same_r cs i j sa sb :
  cs !! i = Some sa -> cs !! j = Some sb -> ¬ same sa -> same sb ->
  less cs i j = false.
Proof.
  intros Hi Hj Hsa Hsb. unfold lessCandidate. rewrite Hi, Hj.
  rewrite bool_decide_eq_false_2 by done. by rewrite bool_decide_eq_true_2.
Qed.

Lemma insertDown_same_moves j :
  forall cs x,
    cs !! j = Some x -> same x ->
    exists y, insertDown less j cs !! 0 = Some y /\ same y.
Proof.
  induction j as [|j IH]; intros cs x Hx Hsame; cbn; [eauto|].
  destruct (lookup_lt_is_Some_2 cs j) as [b Hb].
  { apply lookup_lt_Some in Hx. lia. }
  rewrite (lessCandidate_same_l cs (S j) j x b) by done.
  apply (IH _ x); [|done]. by apply (swap_lookup_r (S j) j cs x b); [lia|..].
Qed.

Lemma insertDown_same_stays j :
  forall cs y,
    j < length cs -> cs !! 0 = Some y -> same y ->
    exists y', insertDown less j cs !! 0 = Some y' /\ same y'.
Proof.
  induction j as [|j IH]; intros cs y Hlen Hy Hsame; cbn; [eauto|].
  destruct (less cs (S j) j) eqn:Hless; [|eauto].
  destruct (lookup_lt_is_Some_2 cs (S j)) as [a Ha]; [done|].
  destruct (lookup_lt_is_Some_2 cs j) as [b Hb]; [lia|].
  destruct (decide (j = 0)) as [->|Hj].
  - cbn. exists a. split.
    + by apply (swap_lookup_r 1 0 cs a b).
    + assert (b = y) as -> by congruence.
      destruct (decide (same a)) as [|Hna]; [done|].
      by rewrite (lessCandidate_same_r cs 1 0 a y) in Hless.
  - apply (IH _ y); [rewrite length_swap; lia| |done].
    rewrite swap_lookup_ne by lia. done.
Qed.

Lemma insertionSort_same_first todo :
  forall i cs,
    i + todo = length cs ->
    ((exists k x, k < i /\ cs !! k = Some x /\ same x) ->
     exists y, cs !! 0 = Some y /\ same y) ->
    (exists x, x ∈ cs /\ same x) ->
    exists y, insertionSort less i todo cs !! 0 = Some y /\ same y.
Proof.
  induction todo as [|todo IH]; intros i cs Hlen Hinv Hex; cbn.
  - apply Hinv. destruct Hex as (x & Hx & Hsame).
    apply list_elem_of_lookup in Hx as [k Hk].
    exists k, x. split; [|done]. apply lookup_lt_Some in Hk. lia.
  - apply IH.
    + rewrite length_insertDown. lia.
    + intros (k & x & Hk & Hx & Hsame).
      destruct (insertDown_lookup_le less i cs k x) as (k' & Hk' & Hx');
        [lia|lia|done|].
      destruct (decide (k' = i)) as [->|Hne].
      * by apply (insertDown_same_moves i cs x).
      * destruct Hinv as (y & Hy & Hsy).
        { exists k', x. split; [lia|done]. }
        apply (insertDown_same_stays i cs y); [lia|done|done].
    + destruct Hex as (x & Hx & Hsame). exists x. split; [|done].
      by apply elem_of_insertDown.
Qed.

Lemma sort_Slice_same_first cs :
  (exists x, x ∈ cs /\ same x) ->
  exists y, sort_Slice less cs !! 0 = Some y /\ same y.
Proof.
  intros Hex. unfold sort_Slice.
  destruct cs as [|c0 cs].
  { destruct Hex as (x & Hx & _). by apply elem_of_nil in Hx. }
  apply insertionSort_same_first; [cbn; lia| |done].
  intros (k & x & Hk & Hx & Hsame). assert (k = 0) as -> by lia. eauto.
Qed.

End SameAddress.


(** X.  Rule 1 of IPv6 source address selection (prefer the same
    address): when the remote address is the address of a cell of the IPv6
    primary list that is valid for outgoing use, [primaryIPv6Endpoint]
    returns a cell with that address, whatever the scopes and the deprecated
    flags of the other cells are (the cells with that address being
    referenced). *)
Theorem primaryIPv6Endpoint_prefers_same_address n remoteAddr remoteScope :
  ScopeForIPv6Address remoteAddr = Ok remoteScope ->
  (forall r, r ∈ mu_primary n !!! IPv6ProtocolNumber ->
     isValidForOutgoing r n = true ->
     exists sc, ScopeForIPv6Address (addrOf n r) = Ok sc) ->
  length (mu_primary n !!! IPv6ProtocolNumber) <= 12 ->
  (exists r, r ∈ mu_primary n !!! IPv6ProtocolNumber
             /\ isValidForOutgoing r n = true /\ addrOf n r = remoteAddr) ->
  (forall r, r ∈ mu_primary n !!! IPv6ProtocolNumber ->
     addrOf n r = remoteAddr -> refs (getCell r n) ≠ 0%Z) ->
  exists r,
    primaryIPv6Endpoint remoteAddr n = Returned (Some r) (referenced r n)
    /\ addrOf n r = remoteAddr
    /\ r ∈ mu_primary n !!! IPv6ProtocolNumber.
Proof.
  intros Hremote Hscopes _ (r0 & Hr0 & Hv0 & Ha0) Hrefs.
  destruct (primaryIPv6Endpoint_sorted n remoteAddr remoteScope Hremote Hscopes)
    as (cs & Hcs & ->).
  pose proof (candidates_refs n _ cs Hcs) as Hcands.
  assert (Hmem : forall r, r ∈ cand_ref <$> cs <->
                   r ∈ mu_primary n !!! IPv6ProtocolNumber
                   /\ isValidForOutgoing r n = true).
  { intros r. rewrite Hcands, !list_elem_of_In. apply filter_In. }
  destruct (sort_Slice_same_first n remoteAddr remoteScope cs) as (y & Hy & Hsame).
  { pose proof (proj2 (Hmem r0) (conj Hr0 Hv0)) as Hin.
    apply list_elem_of_fmap in Hin as (x & -> & Hx). by exists x. }
  assert (Hyl : cand_ref y ∈ mu_primary n !!! IPv6ProtocolNumber).
  { apply (Hmem (cand_ref y)), list_elem_of_fmap. exists y. split; [done|].
    apply (elem_of_sort_Slice (lessCandidate remoteAddr remoteScope n)).
    by eapply list_elem_of_lookup_2. }
  exists (cand_ref y). split; [|by split].
  rewrite firstIncRef_spec.
  destruct (sort_Slice _ cs) as [|y' cs']; [done|].
  cbn in Hy. injection Hy as ->. cbn [List.find].
  destruct (Z.eqb_spec (refs (getCell (cand_ref y) n)) 0) as [Hz|]; [|done].
  by destruct (Hrefs (cand_ref y) Hyl Hsame).
Qed.

End Selection.

Lemma decRef_last_reference_witness :
  exists n',
    decRef 0%nat nicTemp = Returned tt n'
    /\ mu_endpoints n' = delete (ep_ID (ep (getCell 0%nat nicTemp))) (mu_endpoints nicTemp)
    /\ (forall p, mu_primary n' !!! p
                  = if decide (p = protocol (getCell 0%nat nicTemp))
                    then dropFirst 0%nat (mu_primary nicTemp !!! p)
                    else mu_primary nicTemp !!! p)
    /\ getCell 0%nat n' = with_refs 0 (getCell 0%nat nicTemp)
    /\ (forall r', r' ≠ 0%nat -> getCell r' n' = getCell r' nicTemp)
    /\ settings n' = settings nicTemp
    /\ trace n' = EvClose (ep (getCell 0%nat nicTemp)) :: trace nicTemp.
Proof.
  apply (proj1 (decRef_last_reference nicTemp 0%nat eq_refl eq_refl)).
  vm_compute. discriminate.
Defined.

Lemma nicDeprecatedFirst_cells r :
  r ∈ mu_primary nicDeprecatedFirst !!! 2048%N ->
  is_Some (cells nicDeprecatedFirst !! r)
  /\ int32 (refs (getCell r nicDeprecatedFirst)).
Proof.
  intros Hr.
  assert (Hl : @eq (list loc) (mu_primary nicDeprecatedFirst !!! 2048%N)
                 [0%nat; 1%nat])
    by (vm_compute; reflexivity).
  rewrite Hl in Hr.
  apply elem_of_cons in Hr as [Hr | Hr].
  - subst r. split; [vm_compute; eauto|].
    vm_compute. split; [discriminate|reflexivity].
  - apply elem_of_cons in Hr as [Hr | Hr].
    + subst r. split; [vm_compute; eauto|].
      vm_compute. split; [discriminate|reflexivity].
    + exfalso. exact (not_elem_of_nil _ Hr).
Qed.

Lemma primaryEndpoint_selects_witness :
  primaryEndpoint 2048 EmptyString nicDeprecatedFirst
  = Returned (Some 1%nat) (referenced 1%nat nicDeprecatedFirst).
Proof.
  rewrite (primaryEndpoint_selects nicDeprecatedFirst 2048 EmptyString).
  - vm_compute. reflexivity.
  - left. vm_compute. discriminate.
  - exact nicDeprecatedFirst_cells.
Defined.

Lemma nicV6_scopes r :
  r ∈ mu_primary nicV6 !!! IPv6ProtocolNumber ->
  isValidForOutgoing r nicV6 = true ->
  exists sc, ScopeForIPv6Address (addrOf nicV6 r) = Ok sc.
Proof.
  intros Hr _.
  assert (Hl : @eq (list loc) (mu_primary nicV6 !!! IPv6ProtocolNumber)
                    [0%nat; 2%nat; 4%nat])
    by (vm_compute; reflexivity).
  rewrite Hl in Hr.
  repeat (apply elem_of_cons in Hr as [-> | Hr]; [vm_compute; eauto|]).
  exfalso. exact (not_elem_of_nil _ Hr).
Qed.

Lemma primaryIPv6Endpoint_returns_usable_cell_witness :
  exists r,
    primaryIPv6Endpoint (db8 9) nicV6 = Returned (Some r) (referenced r nicV6)
    /\ r ∈ mu_primary nicV6 !!! IPv6ProtocolNumber
    /\ usable nicV6 r = true.
Proof.
  destruct (primaryIPv6Endpoint_returns_usable_cell nicV6 (db8 9) GlobalScope)
    as [Hsome | [Hnone _]].
  - reflexivity.
  - exact nicV6_scopes.
  - vm_compute. lia.
  - exact Hsome.
  - vm_compute in Hnone. discriminate.
Defined.

Lemma primaryIPv6Endpoint_prefers_same_address_witness :
  exists r,
    primaryIPv6Endpoint (db8 2) nicV6 = Returned (Some r) (referenced r nicV6)
    /\ addrOf nicV6 r = db8 2
    /\ r ∈ mu_primary nicV6 !!! IPv6ProtocolNumber.
Proof.
  apply (primaryIPv6Endpoint_prefers_same_address nicV6 (db8 2) GlobalScope).
  - reflexivity.
  - exact nicV6_scopes.
  - vm_compute. lia.
  - exists 2%nat. split; [|split; reflexivity].
    apply (bool_decide_unpack _). vm_compute. exact I.
  - intros r Hr _.
    assert (Hl : @eq (list loc) (mu_primary nicV6 !!! IPv6ProtocolNumber)
                    [0%nat; 2%nat; 4%nat])
      by (vm_compute; reflexivity).
    rewrite Hl in Hr.
    repeat (apply elem_of_cons in Hr as [-> | Hr]; [vm_compute; discriminate|]).
    exfalso. exact (not_elem_of_nil _ Hr).
Defined.

Section Packets.

Context {ndpState Subnet : Type} `{!Externals ndpState Subnet}.

Implicit Types (n : NIC ndpState Subnet) (r ref : loc).
Implicit Types (c : referencedNetworkEndpoint).

(** ** Packet endpoints *)

Lemma set_packetEPs_id n (f : gmap N (list N) -> gmap N (list N)) :
  f (mu_packetEPs n) = mu_packetEPs n -> set_packetEPs f n = n.
Proof. intros Hf. destruct n. unfold set_packetEPs; cbn in *. by rewrite Hf. Qed.

Lemma list_find_eq_split (pep : N) (l1 l2 : list N) :
  pep ∉ l1 ->
  list_find (fun epOther => epOther = pep) (l1 ++ pep :: l2) = Some (length l1, pep).
Proof.
  intros Hnot. apply list_find_Some. split; [|split; [done|]].
  - by rewrite lookup_app_r, Nat.sub_diag.
  - intros j y Hj Hlt ->. apply Hnot.
    rewrite lookup_app_l in Hj by done. by eapply list_elem_of_lookup_2.
Qed.

Lemma delete_middle {A} (l1 l2 : list A) x : delete (length l1) (l1 ++ x :: l2) = l1 ++ l2.
Proof.
  induction l1 as [|y l1 IH]; [done|].
  change (y :: delete (length l1) (l1 ++ x :: l2) = y :: l1 ++ l2). by rewrite IH.
Qed.

(** X.  [unregisterPacketEndpoint] takes out the first registration of
    the packet endpoint for the protocol and nothing else: later
    registrations of the same endpoint, the other endpoints (in their order)
    and the other protocols stay.  It does nothing when the endpoint is not
    registered for the protocol or the protocol is not supported.  Hence a
    [registerPacketEndpoint] followed by [unregisterPacketEndpoint] leaves the
    interface exactly as it was, if the endpoint was not registered before. *)
Theorem unregisterPacketEndpoint_removes_first n netProto pep :
  (mu_packetEPs n !! netProto = None ->
   unregisterPacketEndpoint netProto pep n = Returned tt n)
  /\ (forall eps,
        mu_packetEPs n !! netProto = Some eps -> pep ∉ eps ->
        unregisterPacketEndpoint netProto pep n = Returned tt n
        /\ (registerPacketEndpoint netProto pep ;;;
            unregisterPacketEndpoint netProto pep) n = Returned tt n)
  /\ (forall l1 l2,
        mu_packetEPs n !! netProto = Some (l1 ++ pep :: l2) -> pep ∉ l1 ->
        unregisterPacketEndpoint netProto pep n
        = Returned tt (set_packetEPs <[netProto := l1 ++ l2]> n)).
Proof.
  split; [|split].
  - intros Hnone. unfold unregisterPacketEndpoint. by rewrite Hnone.
  - intros eps Heps Hnot. split.
    + unfold unregisterPacketEndpoint. rewrite Heps.
      assert (list_find (fun epOther => epOther = pep) eps = None) as ->; [|done].
      apply list_find_None, Forall_forall. by intros x Hx ->.
    + unfold bindM, registerPacketEndpoint. rewrite Heps.
      unfold unregisterPacketEndpoint. cbn [mu_packetEPs set_packetEPs].
      rewrite lookup_insert_eq, (list_find_eq_split pep eps []) by done.
      rewrite delete_middle, app_nil_r. f_equal.
      rewrite <- (set_packetEPs_id n (fun m => m)) at 2 by done.
      unfold set_packetEPs. cbn. f_equal.
      rewrite insert_insert_eq. by apply insert_id.
  - intros l1 l2 Heps Hnot. unfold unregisterPacketEndpoint.
    by rewrite Heps, list_find_eq_split, delete_middle.
Qed.

Lemma foldl_insert_nil_lookup {A} (f : A -> N) (l : list A) :
  forall (m : gmap N (list N)) k,
    foldl (fun m x => <[f x := []]> m) m l !! k
    = if decide (k ∈ f <$> l) then Some [] else m !! k.
Proof.
  induction l as [|x l IH]; intros m k; cbn.
  { rewrite decide_False; [done|]. apply not_elem_of_nil. }
  rewrite IH. destruct (decide (k ∈ f <$> l)) as [Hin|Hnot].
  - rewrite decide_True; [done|]. by right.
  - destruct (decide (k = f x)) as [->|Hne].
    + rewrite decide_True by by left. apply lookup_insert_eq.
    + rewrite decide_False.
      * by apply lookup_insert_ne.
      * intros [?|?]%elem_of_cons; done.
Qed.

(** X.  On a new interface a packet endpoint can be registered exactly
    for the protocols of [header.Ethertypes] and for the numbers the stack's
    network protocols report: for those [registerPacketEndpoint] returns nil
    and the endpoint becomes the only one of its protocol; for any other
    number it returns [ErrNotSupported] and changes nothing. *)
Theorem registerPacketEndpoint_on_newNIC
    stack0 id0 name0 ep0 Ethertypes (ndp0 : ndpState) stackStats0 netProto pep :
  (netProto ∈ Ethertypes
   \/ (exists k p, networkProtocols stack0 !! k = Some p /\ Number p = netProto) ->
   registerPacketEndpoint netProto pep
     (Construction.newNIC stack0 id0 name0 ep0 Ethertypes ndp0 stackStats0)
   = Returned None
       (set_packetEPs <[netProto := [pep]]>
          (Construction.newNIC stack0 id0 name0 ep0 Ethertypes ndp0 stackStats0)))
  /\ (netProto ∉ Ethertypes ->
      (forall k p, networkProtocols stack0 !! k = Some p -> Number p ≠ netProto) ->
      registerPacketEndpoint netProto pep
        (Construction.newNIC stack0 id0 name0 ep0 Ethertypes ndp0 stackStats0)
      = Returned (Some ErrNotSupported)
          (Construction.newNIC stack0 id0 name0 ep0 Ethertypes ndp0 stackStats0)).
Proof.
  assert (Hlook : mu_packetEPs
                    (Construction.newNIC stack0 id0 name0 ep0 Ethertypes ndp0
                       stackStats0) !! netProto
                  = if decide (netProto ∈ Ethertypes
                               \/ exists k p, networkProtocols stack0 !! k = Some p
                                              /\ Number p = netProto)
                    then Some [] else None).
  { unfold Construction.newNIC. cbn [mu_packetEPs].
    rewrite (foldl_insert_nil_lookup Number).
    rewrite (foldl_insert_nil_lookup (fun x : N => x)).
    rewrite list_fmap_id, lookup_empty.
    destruct (decide (netProto ∈ Number <$> _)) as [Hin|Hnot].
    - rewrite decide_True; [done|]. right.
      apply list_elem_of_fmap in Hin as (p & -> & Hp).
      apply list_elem_of_fmap in Hp as ([k p'] & -> & Hkp%elem_of_rangeOrder).
      by exists k, p'.
    - destruct (decide (netProto ∈ Ethertypes)) as [Hin|Hnot'].
      + rewrite decide_True; [done|]. by left.
      + rewrite decide_False; [done|]. intros [?|(k & p & Hkp & Hp)]; [done|].
        apply Hnot, list_elem_of_fmap. exists p. split; [done|].
        apply list_elem_of_fmap. exists (k, p). split; [done|].
        by apply elem_of_rangeOrder. }
  split.
  - intros Hsup. unfold registerPacketEndpoint. rewrite Hlook.
    by rewrite decide_True.
  - intros Hnot Hnone. unfold registerPacketEndpoint. rewrite Hlook.
    rewrite decide_False; [done|].
    intros [?|(k & p & Hkp & Hp)]; [done|]. by apply (Hnone k p).
Qed.


(** ** Receiving a packet on an enabled interface *)

Lemma foldl_emit_trace (f : Z -> N -> Event) (l : list N) :
  forall m : NIC ndpState Subnet,
    trace (foldl (fun m pep => emit (f (id m) pep) m) m l)
    = rev (f (id m) <$> l) ++ trace m
    /\ stats (foldl (fun m pep => emit (f (id m) pep) m) m l) = stats m
    /\ stackStats (foldl (fun m pep => emit (f (id m) pep) m) m l) = stackStats m
    /\ mu_packetEPs (foldl (fun m pep => emit (f (id m) pep) m) m l) = mu_packetEPs m.
Proof.
  induction l as [|x l IH]; intros m; cbn [foldl]; [done|].
  destruct (IH (emit (f (id m) x) m)) as (Htr & Hst & Hss & Hpe).
  rewrite Htr, Hst, Hss, Hpe. cbn. by rewrite <- app_assoc.
Qed.

Lemma DeliverNetworkPacket_received fuel n linkEP' remote local proto netProto pkt :
  mu_enabled n = true ->
  networkProtocols (stack n) !! proto = Some netProto ->
  exists n3,
    sameTables n n3
    /\ stats n3 = count_Rx (Data_Size pkt) (stats n)
    /\ stackStats n3 = countReceived netProto (stackStats n)
    /\ trace n3 = shownToPacketEndpoints n local proto pkt ++ trace n
    /\ DeliverNetworkPacket fuel linkEP' remote local proto pkt n
       = if (Z.of_nat (String.length (Data_First pkt)) <? MinimumPacketSize netProto)%Z
         then Returned tt (set_stackStats count_Malformed n3)
         else
           (own <- (fun m =>
                      if handleLocal (stack m) && negb (isLoopback m)
                      then getRef fuel proto (ParseAddresses netProto (Data_First pkt)).1 m
                      else Returned None m) ;;
            match own with
            | Some _ => modify (set_stackStats count_InvalidSource)
            | None =>
                found <- getRef fuel proto (ParseAddresses netProto (Data_First pkt)).2 ;;
                match found with
                | Some ref =>
                    handlePacket proto (ParseAddresses netProto (Data_First pkt)).2
                      (ParseAddresses netProto (Data_First pkt)).1
                      (LinkAddress linkEP') remote ref pkt
                | None =>
                    fun m =>
                      if forwarding (stack m) then
                        Returned tt
                          (forwardNetworkPacket remote
                             (ParseAddresses netProto (Data_First pkt)).1
                             (ParseAddresses netProto (Data_First pkt)).2
                             proto pkt (packetEndpointsFor n proto) m)
                      else if (length (packetEndpointsFor n proto) =? 0)%nat then
                        Returned tt (set_stackStats count_InvalidDestination m)
                      else Returned tt m
                end
            end) n3.
Proof.
  intros Hen Hproto.
  pose (n1 := set_stats (count_Rx (Data_Size pkt)) n).
  pose (f := fun (i : Z) (pep : N) =>
               EvPacketEndpoint pep i
                 (if bool_decide (local = EmptyString) then LinkAddress (linkEP n)
                  else local) proto pkt).
  pose (n2 := foldl (fun m pep => emit (f (id m) pep) m) n1 (packetEndpointsFor n proto)).
  pose (n3 := if bool_decide (Number netProto = IPv4ProtocolNumber)
                 || bool_decide (Number netProto = IPv6ProtocolNumber)
              then set_stackStats count_PacketsReceived n2 else n2).
  destruct (foldl_emit_trace f (packetEndpointsFor n proto) n1) as (Htr & Hst & Hss & Hpe).
  fold n2 in Htr, Hst, Hss, Hpe.
  exists n3. split.
  { destruct (sameTables_foldl_emit (fun m pep => f (id m) pep)
                (packetEndpointsFor n proto) n1)
      as (E1&E2&E3&E4&E5&E6&E7&E8&E9&E10&E11).
    fold n2 in E1, E2, E3, E4, E5, E6, E7, E8, E9, E10, E11.
    subst n3. destruct (_ || _); cbn; repeat split; assumption. }
  split. { subst n3. destruct (_ || _); cbn; by rewrite Hst. }
  split. { subst n3. unfold countReceived. destruct (_ || _); cbn; by rewrite Hss. }
  split. { subst n3. destruct (_ || _); cbn; by rewrite Htr. }
  unfold DeliverNetworkPacket. rewrite Hen. cbn [negb]. cbv zeta.
  cbn [stack set_stats]. rewrite Hproto. reflexivity.
Qed.


(** X.  What an enabled interface does with a packet it cannot use.  A
    packet of a network protocol that is not registered is counted as
    received and as [UnknownProtocolRcvdPackets], and no packet endpoint sees
    it, not even those registered for every protocol.  A packet of a
    registered protocol whose first region is shorter than the protocol's
    minimum size is handed to the packet endpoints first and only then
    counted as malformed; the address table, the primary lists and the cells
    are untouched. *)
Theorem DeliverNetworkPacket_unusable_packet fuel n linkEP' remote local proto pkt :
  mu_enabled n = true ->
  (networkProtocols (stack n) !! proto = None ->
   DeliverNetworkPacket fuel linkEP' remote local proto pkt n
   = Returned tt
       (set_stackStats count_UnknownProtocol (set_stats (count_Rx (Data_Size pkt)) n)))
  /\ (forall netProto,
        networkProtocols (stack n) !! proto = Some netProto ->
        (Z.of_nat (String.length (Data_First pkt)) < MinimumPacketSize netProto)%Z ->
        exists n',
          DeliverNetworkPacket fuel linkEP' remote local proto pkt n = Returned tt n'
          /\ sameTables n n'
          /\ stats n' = count_Rx (Data_Size pkt) (stats n)
          /\ stackStats n' = count_Malformed (countReceived netProto (stackStats n))
          /\ trace n' = shownToPacketEndpoints n local proto pkt ++ trace n).
Proof.
  intros Hen. split.
  - intros Hproto. unfold DeliverNetworkPacket. rewrite Hen. cbn [negb]. cbv zeta.
    cbn [stack set_stats]. by rewrite Hproto.
  - intros netProto Hproto Hshort.
    destruct (DeliverNetworkPacket_received fuel n linkEP' remote local proto netProto
                pkt Hen Hproto) as (n3 & Hsame & Hst & Hss & Htr & ->).
    destruct (Z.ltb_spec (Z.of_nat (String.length (Data_First pkt)))
                (MinimumPacketSize netProto)) as [_|Hge]; [|lia].
    eexists. split; [reflexivity|]. cbn. rewrite Hss.
    repeat split; try done; apply Hsame.
Qed.

Lemma sameTables_cell n n' r : sameTables n n' -> getCell r n' = getCell r n.
Proof. intros (_&_&_&_&_&_&_&_&_&_&Hce). unfold getCell. by rewrite Hce. Qed.

Lemma sameTables_emit n n' ev : sameTables n n' -> sameTables n (emit ev n').
Proof. intros (?&?&?&?&?&?&?&?&?&?&?). by repeat split. Qed.

Lemma sameTables_set_stackStats n n' f :
  sameTables n n' -> sameTables n (set_stackStats f n').
Proof. intros (?&?&?&?&?&?&?&?&?&?&?). by repeat split. Qed.

Lemma sameTables_local n n' :
  sameTables n n' ->
  handleLocal (stack n') && negb (isLoopback n') = handleLocal (stack n) && negb (isLoopback n).
Proof. intros (Hst&Hlk&_). unfold isLoopback. by rewrite Hst, Hlk. Qed.

(** X.  An enabled interface that receives a well-formed packet for one
    of its addresses (the entry is permanent or temporary, or expired on a
    promiscuous interface, and is referenced) hands the packet to that
    address's endpoint, after the packet endpoints, with a route from the
    destination address to the source address, the link address of the link
    endpoint that delivered it and the sender's link address.  The reference
    taken for the delivery is given back: the address table, the primary
    lists and every cell are as before.  (The source address is not checked
    here: the stack does not handle local traffic, or the interface is a
    loopback.) *)
Theorem DeliverNetworkPacket_to_own_address
    fuel n linkEP' remote local proto netProto pkt ref :
  mu_enabled n = true ->
  networkProtocols (stack n) !! proto = Some netProto ->
  (MinimumPacketSize netProto <= Z.of_nat (String.length (Data_First pkt)))%Z ->
  handleLocal (stack n) && negb (isLoopback n) = false ->
  mu_endpoints n !! mkID (ParseAddresses netProto (Data_First pkt)).2 = Some ref ->
  is_Some (cells n !! ref) ->
  getKind ref n = permanent \/ getKind ref n = temporary
  \/ (getKind ref n = permanentExpired /\ mu_promiscuous n = true) ->
  int32 (refs (getCell ref n)) ->
  refs (getCell ref n) ≠ 0%Z ->
  exists n',
    DeliverNetworkPacket fuel linkEP' remote local proto pkt n = Returned tt n'
    /\ sameTables n n'
    /\ stats n' = count_Rx (Data_Size pkt) (stats n)
    /\ stackStats n' = countReceived netProto (stackStats n)
    /\ trace n'
       = EvHandlePacket
           (mkRoute proto (ParseAddresses netProto (Data_First pkt)).2
              (ParseAddresses netProto (Data_First pkt)).1
              (LinkAddress linkEP') remote ref) pkt
         :: shownToPacketEndpoints n local proto pkt ++ trace n.
Proof.
  intros Hen Hproto Hsize Hlocal Hin Hcell Hk Hint Hnz.
  destruct (DeliverNetworkPacket_received fuel n linkEP' remote local proto netProto
              pkt Hen Hproto) as (n3 & Hsame & Hst & Hss & Htr & ->).
  destruct (Z.ltb_spec (Z.of_nat (String.length (Data_First pkt)))
              (MinimumPacketSize netProto)) as [Hlt|_]; [lia|].
  pose proof (sameTables_cell n n3 ref Hsame) as Hc.
  destruct Hsame as (Hstk&Hlk&Hid&Hena&Hsp&Hpr&Hprim&Hep&Har&Hmc&Hce).
  assert (Hsame : sameTables n n3) by (by repeat split).
  unfold bindM at 1. rewrite (sameTables_local n n3 Hsame), Hlocal.
  unfold bindM at 1. unfold getRef.
  rewrite (getRefOrCreateTemp_usable fuel n3 proto _ CanBePrimaryEndpoint promiscuous ref).
  - unfold handlePacket, bindM, modify.
    set (ev := EvHandlePacket _ pkt).
    assert (Hdec : decRef ref
                     (emit ev
                        (setCell ref
                           (with_refs (wrap32 (refs (getCell ref n3) + 1))
                              (getCell ref n3)) n3))
                   = Returned tt (emit ev n3)).
    { apply (decRef_after_incr (emit ev n3) ref).
      - cbn. by rewrite Hce.
      - change (getCell ref (emit ev n3)) with (getCell ref n3). by rewrite Hc.
      - change (getCell ref (emit ev n3)) with (getCell ref n3). by rewrite Hc. }
    rewrite Hdec.
    exists (emit ev n3). split; [done|]. split; [by apply sameTables_emit|].
    split; [done|]. split; [done|]. cbn. by rewrite Htr.
  - by rewrite Hep.
  - unfold getKind, spoofingOrPromiscuous. rewrite Hc, Hpr. exact Hk.
  - by rewrite Hc.
Qed.

Lemma getRefOrCreateTemp_absent fuel n proto address peb tempRef :
  mu_endpoints n !! mkID address = None ->
  createTempEP address (spoofingOrPromiscuous tempRef n) n = false ->
  getRefOrCreateTemp fuel proto address peb tempRef n = Returned None n.
Proof.
  intros Hnone Hcreate.
  unfold getRefOrCreateTemp, bindM at 1, getRefOrCreateTemp_read. rewrite Hnone.
  unfold bindM, gets. by rewrite Hcreate.
Qed.

(** X.  An enabled interface that receives a well-formed packet for an
    address it has no entry for, when it is not promiscuous, no address range
    admits the address and the stack does not forward, drops the packet: no
    entry is created, and the tables and cells are untouched.  The packet is
    counted as [InvalidDestinationAddressesReceived] only if no packet
    endpoint saw it. *)
Theorem DeliverNetworkPacket_for_nobody fuel n linkEP' remote local proto netProto pkt :
  mu_enabled n = true ->
  networkProtocols (stack n) !! proto = Some netProto ->
  (MinimumPacketSize netProto <= Z.of_nat (String.length (Data_First pkt)))%Z ->
  handleLocal (stack n) && negb (isLoopback n) = false ->
  mu_endpoints n !! mkID (ParseAddresses netProto (Data_First pkt)).2 = None ->
  createTempEP (ParseAddresses netProto (Data_First pkt)).2 (mu_promiscuous n) n = false ->
  forwarding (stack n) = false ->
  exists n',
    DeliverNetworkPacket fuel linkEP' remote local proto pkt n = Returned tt n'
    /\ sameTables n n'
    /\ stats n' = count_Rx (Data_Size pkt) (stats n)
    /\ stackStats n'
       = (if (length (packetEndpointsFor n proto) =? 0)%nat
          then count_InvalidDestination (countReceived netProto (stackStats n))
          else countReceived netProto (stackStats n))
    /\ trace n' = shownToPacketEndpoints n local proto pkt ++ trace n.
Proof.
  intros Hen Hproto Hsize Hlocal Hnone Hcreate Hfwd.
  destruct (DeliverNetworkPacket_received fuel n linkEP' remote local proto netProto
              pkt Hen Hproto) as (n3 & Hsame & Hst & Hss & Htr & ->).
  destruct (Z.ltb_spec (Z.of_nat (String.length (Data_First pkt)))
              (MinimumPacketSize netProto)) as [Hlt|_]; [lia|].
  destruct Hsame as (Hstk&Hlk&Hid&Hena&Hsp&Hpr&Hprim&Hep&Har&Hmc&Hce).
  assert (Hsame : sameTables n n3) by (by repeat split).
  unfold bindM at 1. rewrite (sameTables_local n n3 Hsame), Hlocal.
  unfold bindM at 1. unfold getRef.
  rewrite (getRefOrCreateTemp_absent fuel n3 proto _ CanBePrimaryEndpoint promiscuous).
  - rewrite Hstk, Hfwd.
    destruct (length (packetEndpointsFor n proto) =? 0)%nat.
    + eexists. split; [reflexivity|]. split; [by apply sameTables_set_stackStats|].
      cbn. by rewrite Hss.
    + by exists n3.
  - by rewrite Hep.
  - unfold createTempEP, spoofingOrPromiscuous. rewrite Hpr, Har. exact Hcreate.
Qed.

End Packets.

Lemma unregisterPacketEndpoint_removes_first_witness :
  (registerPacketEndpoint 2048 7 ;;; unregisterPacketEndpoint 2048 7)
    (newNIC (stack4 false))
  = Returned tt (newNIC (stack4 false)).
Proof.
  apply (proj1 (proj2 (unregisterPacketEndpoint_removes_first (newNIC (stack4 false))
                         2048 7)) []).
  - reflexivity.
  - apply not_elem_of_nil.
Defined.

Lemma registerPacketEndpoint_on_newNIC_witness :
  registerPacketEndpoint 2048 7
    (Construction.newNIC (stack4 false) 1 "eth0" (mkLinkEP 0 EmptyString) [3%N] []
       (mkStackStats 0 0 0 0 0 0))
  = Returned None
      (set_packetEPs <[2048%N := [7%N]]>
         (Construction.newNIC (stack4 false) 1 "eth0" (mkLinkEP 0 EmptyString) [3%N] []
            (mkStackStats 0 0 0 0 0 0))).
Proof.
  apply (proj1 (registerPacketEndpoint_on_newNIC (stack4 false) 1 "eth0"
                  (mkLinkEP 0 EmptyString) [3%N] [] (mkStackStats 0 0 0 0 0 0) 2048 7)).
  right. exists 2048%N, ipv4. split; reflexivity.
Defined.

Lemma DeliverNetworkPacket_unusable_packet_witness :
  DeliverNetworkPacket 1 (mkLinkEP 0 EmptyString) EmptyString EmptyString 34525
    (pkt6 (db8 1) (db8 2)) nicOwn
  = Returned tt
      (set_stackStats count_UnknownProtocol
         (set_stats (count_Rx (Data_Size (pkt6 (db8 1) (db8 2)))) nicOwn)).
Proof.
  apply (proj1 (DeliverNetworkPacket_unusable_packet 1 nicOwn (mkLinkEP 0 EmptyString)
                  EmptyString EmptyString 34525 (pkt6 (db8 1) (db8 2)) eq_refl)).
  reflexivity.
Defined.

Lemma DeliverNetworkPacket_to_own_address_witness :
  exists n',
    DeliverNetworkPacket 1 (mkLinkEP 0 (bytes [2; 0; 0; 0; 0; 1]%N))
      (bytes [2; 0; 0; 0; 0; 2]%N) EmptyString 2048
      (pkt4 (ip4 10 0 0 2) (ip4 10 0 0 1)) nicOwn
    = Returned tt n'
    /\ sameTables nicOwn n'
    /\ trace n'
       = EvHandlePacket
           (mkRoute 2048 (ip4 10 0 0 1) (ip4 10 0 0 2) (bytes [2; 0; 0; 0; 0; 1]%N)
              (bytes [2; 0; 0; 0; 0; 2]%N) 0%nat) (pkt4 (ip4 10 0 0 2) (ip4 10 0 0 1))
         :: trace nicOwn.
Proof.
  destruct (DeliverNetworkPacket_to_own_address 1 nicOwn
              (mkLinkEP 0 (bytes [2; 0; 0; 0; 0; 1]%N)) (bytes [2; 0; 0; 0; 0; 2]%N)
              EmptyString 2048 ipv4 (pkt4 (ip4 10 0 0 2) (ip4 10 0 0 1)) 0%nat)
    as (n' & Hdel & Hsame & _ & _ & Htr).
  - reflexivity.
  - reflexivity.
  - vm_compute. discriminate.
  - reflexivity.
  - reflexivity.
  - vm_compute. eauto.
  - left. reflexivity.
  - vm_compute. split; [discriminate|reflexivity].
  - vm_compute. discriminate.
  - exists n'. split; [exact Hdel|]. split; [exact Hsame|]. exact Htr.
Defined.

Lemma DeliverNetworkPacket_for_nobody_witness :
  exists n',
    DeliverNetworkPacket 1 (mkLinkEP 0 EmptyString) EmptyString EmptyString 2048
      (pkt4 (ip4 10 0 0 2) (ip4 10 0 0 9)) nicOwn
    = Returned tt n'
    /\ sameTables nicOwn n'
    /\ stackStats n'
       = count_InvalidDestination (countReceived ipv4 (stackStats nicOwn)).
Proof.
  destruct (DeliverNetworkPacket_for_nobody 1 nicOwn (mkLinkEP 0 EmptyString)
              EmptyString EmptyString 2048 ipv4 (pkt4 (ip4 10 0 0 2) (ip4 10 0 0 9)))
    as (n' & Hdel & Hsame & _ & Hss & _).
  - reflexivity.
  - reflexivity.
  - vm_compute. discriminate.
  - reflexivity.
  - reflexivity.
  - reflexivity.
  - reflexivity.
  - exists n'. split; [exact Hdel|]. split; [exact Hsame|]. exact Hss.
Defined.
